(** * Inventory-Management-System: the purchase/sale transaction processor
      and the dashboard aggregator

    A shallow embedding of
      - [backend/routes/sales.js]      (persistSale, POST /api/sales),
      - [backend/routes/purchases.js]  (canUseTransactions, persistPurchase,
                                        POST /api/purchases),
      - [backend/utils/dashboardMetrics.js] (recalculateDashboardStats,
                                        getDashboardStats,
                                        incrementDashboardCounters),
      - [backend/routes/dashboard.js],
      - [backend/routes/products.js]   (adjust-stock and DELETE on the
                                        document store, every route that
                                        writes on the in-memory store),
      - the Mongoose schemas of Product, Sale, Purchase and DashboardStat.

    Modelling conventions.
      - A JavaScript number that holds a stock level or a count is the
        integer it holds, a [Z]: every writer of [quantity] goes through
        [parseInteger].  Sums and differences of stock levels are rounded
        to the nearest double ([Js.double]), and a stored stock level
        handed to [parseInteger] is read from its decimal text
        ([Js.parseInt_number]).  [Infinity], which only a number of more
        than 308 digits reaches, is not represented.  A number that holds
        money is a [Q]: exact arithmetic, IEEE rounding is not
        represented.
      - A string is a sequence of ASCII characters; [Js.trim],
        [Js.toUpperCase] and [Js.toLowerCase] are the library functions
        on such strings.
      - A request field that the code hands to [Number.parseInt] or
        [Number.parseFloat] is represented by the outcome of that library
        call ([Raw]).  In the routes on the in-memory store a member of
        the body may also be an object that does not convert to a
        primitive ([MemoryProducts.Json]), on which these calls throw.
      - The document store is an explicit state [DB]; [await]ed calls are
        steps of a state-and-exception monad [M].  An I/O failure of the
        store is not represented; a request runs alone. *)

From Stdlib Require Import ZArith QArith List String Ascii Bool Lia.
From Stdlib Require Import DecimalString.
Import ListNotations.

Local Open Scope Z_scope.
Local Open Scope string_scope.

(* ===================================================================== *)
(** ** JavaScript primitives used by the routes                           *)
(* ===================================================================== *)
Module Js.

(** White space removed by [String.prototype.trim] (the ASCII part). *)
Definition is_space (c : ascii) : bool :=
  match nat_of_ascii c with
  | 9%nat | 10%nat | 11%nat | 12%nat | 13%nat | 32%nat => true
  | _ => false
  end.

Fixpoint trimStart (s : string) : string :=
  match s with
  | EmptyString => EmptyString
  | String c r => if is_space c then trimStart r else s
  end.

Fixpoint trimEnd (s : string) : string :=
  match s with
  | EmptyString => EmptyString
  | String c r =>
      match trimEnd r with
      | EmptyString => if is_space c then EmptyString else String c EmptyString
      | r' => String c r'
      end
  end.

Definition trim (s : string) : string := trimEnd (trimStart s).

Definition upper_ascii (c : ascii) : ascii :=
  let n := nat_of_ascii c in
  if andb (Nat.leb 97 n) (Nat.leb n 122) then ascii_of_nat (n - 32) else c.

Definition lower_ascii (c : ascii) : ascii :=
  let n := nat_of_ascii c in
  if andb (Nat.leb 65 n) (Nat.leb n 90) then ascii_of_nat (n + 32) else c.

Fixpoint map_string (f : ascii -> ascii) (s : string) : string :=
  match s with
  | EmptyString => EmptyString
  | String c r => String (f c) (map_string f r)
  end.

(** [String.prototype.toUpperCase] and [toLowerCase] on ASCII strings. *)
Definition toUpperCase : string -> string := map_string upper_ascii.
Definition toLowerCase : string -> string := map_string lower_ascii.

(** [haystack.includes(needle)] *)
Fixpoint includes (haystack needle : string) : bool :=
  if String.prefix needle haystack then true
  else match haystack with
       | EmptyString => false
       | String _ r => includes r needle
       end.

(** A nullable string-valued field: [None] is [undefined] or [null]. *)
Definition truthy (v : option string) : bool :=
  match v with
  | Some (String _ _) => true
  | _ => false
  end.

(** [value ?? fallback] *)
Definition nullish {A} (v : option A) (fallback : A) : A :=
  match v with Some a => a | None => fallback end.

(** [a ?? b] where [b] may itself be nullish. *)
Definition nullish_opt {A} (a b : option A) : option A :=
  match a with Some _ => a | None => b end.

(** The template literal [`${i}`] of a loop index. *)
Definition show_nat (n : nat) : string :=
  NilEmpty.string_of_uint (Nat.to_uint n).

Definition is_hex (c : ascii) : bool :=
  let n := nat_of_ascii c in
  orb (andb (Nat.leb 48 n) (Nat.leb n 57))
      (orb (andb (Nat.leb 65 n) (Nat.leb n 70))
           (andb (Nat.leb 97 n) (Nat.leb n 102))).

Fixpoint all_hex (s : string) : bool :=
  match s with
  | EmptyString => true
  | String c r => andb (is_hex c) (all_hex r)
  end.

(** [/^[0-9a-fA-F]{24}$/.test(s)] *)
Definition isObjectIdHex (s : string) : bool :=
  andb (Nat.eqb (String.length s) 24) (all_hex s).

(** A field handed to [Number.parseInt] / [Number.parseFloat]:
    [Absent] is [null], [undefined] or the empty string (the parser is
    not called), [Unparsable] is a value on which the parser yields
    [NaN], [Parsed a] a value on which it yields the finite number
    [a]. *)
Inductive Raw (A : Type) : Type :=
| Absent
| Unparsable
| Parsed (a : A).
Arguments Absent {A}.
Arguments Unparsable {A}.
Arguments Parsed {A} a.

(** [Number.parseInt(value, 10)] / [Number.parseFloat(value)];
    [None] is [NaN]. *)
Definition Number_parse {A} (value : Raw A) : option A :=
  match value with
  | Parsed a => Some a
  | _ => None
  end.

(** *** Numbers that hold a stock level

    A stock level is a Number with an integral value, and is represented
    by that integer.  [double z] is the double nearest to the integer
    [z], ties going to the even significand of 53 bits: it is what an
    addition or a subtraction whose exact result is [z] yields.  The
    integers up to 2^53 in magnitude are doubles. *)
Definition double (z : Z) : Z :=
  let a := Z.abs z in
  if (a <? 2 ^ 53)%Z then z
  else
    let ulp := 2 ^ (Z.log2 a - 52) in
    let q := a / ulp in
    let r := a mod ulp in
    let up :=
      if (2 * r <? ulp)%Z then false
      else if (ulp <? 2 * r)%Z then true
      else Z.odd q in
    Z.sgn z * ((if up then q + 1 else q) * ulp).

(** [a + b] and [a - b] on doubles with integral values. *)
Definition plus (a b : Z) : Z := double (a + b).
Definition minus (a b : Z) : Z := double (a - b).

(** The first decimal digit of a positive integer, and the power of ten
    that stands under it. *)
Fixpoint leading (fuel : nat) (x : Z) : Z * Z :=
  match fuel with
  | O => (x, 1)
  | S fuel' =>
      if (x <? 10)%Z then (x, 1)
      else let (d, p) := leading fuel' (x / 10) in (d, 10 * p)
  end.

(** The first digit of [String(x)] for a double [x] of 10^21 or more.
    From 10^21 on a Number is written with an exponent, one digit before
    the point, and its digits are the fewest that read back as [x]: the
    first one is the first digit of [x], unless the next number with a
    single digit rounds to [x] (as 1e23 does to 99999999999999991611392). *)
Definition first_digit (x : Z) : Z :=
  let (d, p) := leading (Z.to_nat (Z.log2 x)) x in
  if (double ((d + 1) * p) =? x)%Z
  then (if (d =? 9)%Z then 1 else d + 1)
  else d.

(** [Number.parseInt(n, 10)] on a Number [n] with an integral value: the
    parser reads [String(n)] and stops at the first character that is
    not a digit, the point or the [e] of the exponent. *)
Definition parseInt_number (n : Z) : Z :=
  if (Z.abs n <? 10 ^ 21)%Z then n
  else Z.sgn n * first_digit (Z.abs n).

(** A stored stock level handed to [Number.parseInt]. *)
Definition of_number (n : Z) : Raw Z := Parsed (parseInt_number n).

(** [Number.isFinite] on a money amount: a [Q] is finite. *)
Definition Number_isFinite (x : Q) : bool := true.

(** [x > 0] on a money amount. *)
Definition Qpositive (x : Q) : bool := negb (Qle_bool x 0).

(** [Math.trunc] *)
Definition Math_trunc (x : Q) : Z := Z.quot (Qnum x) (Zpos (Qden x)).

End Js.
Import Js.

Arguments Js.double : simpl never.
Arguments Js.plus : simpl never.
Arguments Js.minus : simpl never.
Arguments Js.first_digit : simpl never.
Arguments Js.parseInt_number : simpl never.

(* ===================================================================== *)
(** ** The helpers shared by routes/sales.js and routes/purchases.js      *)
(* ===================================================================== *)

Definition normalizeString (value : option string) : string :=
  trim (nullish value "").

Definition parseInteger (value : Raw Z) (fallback : Z) : Z :=
  match value with
  | Absent => fallback
  | _ => match Number_parse value with
         | None => fallback
         | Some parsed => parsed
         end
  end.

Definition parseNumber (value : Raw Q) (fallback : Q) : Q :=
  match value with
  | Absent => fallback
  | _ => match Number_parse value with
         | None => fallback
         | Some parsed => parsed
         end
  end.

(* ===================================================================== *)
(** ** Documents (models/Product.js, Sale.js, Purchase.js, DashboardStat.js) *)
(* ===================================================================== *)

Record Product := mkProduct {
  _id : string;
  name : string;
  sku : string;
  productId : string;
  price : Q;
  quantity : Z;
  reorderPoint : Z;
  size : option string;
  gsm : option string;
  image : option string
}.

(** The line item of a sale ([saleItemSchema]). *)
Record SaleItem := mkSaleItem {
  si_productId : string;
  si_productName : string;
  si_quantity : Z;
  si_price : Q;
  si_pricePerQuantity : Q;
  si_total : Q;
  si_size : string;
  si_gsm : string
}.

(** [createdAt = None]: the timestamp the store assigns on save. *)
Record Sale := mkSale {
  sale_billId : string;
  sale_customerName : string;
  sale_subtotal : Q;
  sale_tax : Q;
  sale_total : Q;
  sale_items : list SaleItem;
  sale_createdAt : option Z
}.

Record PurchaseItem := mkPurchaseItem {
  pi_productId : string;
  pi_productName : string;
  pi_quantity : Z;
  pi_price : Q;
  pi_total : Q;
  pi_size : string;
  pi_gsm : string
}.

Record Purchase := mkPurchase {
  pur_billId : string;
  pur_supplierName : string;
  pur_subtotal : Q;
  pur_tax : Q;
  pur_total : Q;
  pur_items : list PurchaseItem
}.

Record DashboardStat := mkDashboardStat {
  totalSales : Q;
  inventoryValue : Q;
  orders : Z;
  lowStock : Z;
  outOfStock : Z
}.

(** The collections: "inventory", "sales", "purchases" in natural order,
    and the one document of "dashboard_stats" with id "global". *)
Record DB := mkDB {
  inventory : list Product;
  sales : list Sale;
  purchases : list Purchase;
  dashboard_stats : option DashboardStat
}.

Definition set_inventory (db : DB) (inv : list Product) : DB :=
  mkDB inv (sales db) (purchases db) (dashboard_stats db).

(* ===================================================================== *)
(** ** Errors and the monad of a request                                  *)
(* ===================================================================== *)

Inductive Error :=
| ItemProductIdRequired (i : nat)
| ItemQuantityInvalid (i : nat)
| ProductNotFound (productId : option string)
| InsufficientStock (productName : string)
| RequiredPath (model path : string)      (* Mongoose ValidationError *)
| TransactionRejected.                     (* MongoServerError *)

Definition message (e : Error) : string :=
  match e with
  | ItemProductIdRequired i => "items[" ++ show_nat i ++ "].productId required"
  | ItemQuantityInvalid i =>
      "items[" ++ show_nat i ++ "].quantity must be greater than 0"
  | ProductNotFound productId =>
      "Product not found for id " ++ nullish productId "undefined"
  | InsufficientStock productName =>
      "Insufficient stock for product " ++ productName
  | RequiredPath model path =>
      model ++ " validation failed: " ++ path ++ ": Path `" ++ path
            ++ "` is required."
  | TransactionRejected =>
      "Transaction numbers are only allowed on a replica set member or mongos"
  end.

Inductive Result (A : Type) : Type :=
| Ok (a : A)
| Throw (e : Error).
Arguments Ok {A} a.
Arguments Throw {A} e.

Definition M (A : Type) : Type := DB -> Result A * DB.

Definition ret {A} (a : A) : M A := fun db => (Ok a, db).
Definition throw {A} (e : Error) : M A := fun db => (Throw e, db).
Definition bind {A B} (m : M A) (k : A -> M B) : M B :=
  fun db => match m db with
            | (Ok a, db') => k a db'
            | (Throw e, db') => (Throw e, db')
            end.

Notation "x <- m ;; k" := (bind m (fun x => k))
  (at level 61, m at next level, right associativity).
Notation "m ;;; k" := (bind m (fun _ => k))
  (at level 61, right associativity).

(* ===================================================================== *)
(** ** The Mongoose calls the routes make                                 *)
(* ===================================================================== *)
Module Mongoose.

(** A client session with a transaction started on it.  Whether the
    deployment accepts transaction numbers is a fact of the server; a
    standalone server rejects the first operation carrying one. *)
Record Session := mkSession { accepts_transactions : bool }.

(** An operation bound to [session] (or to none). *)
Definition with_session {A} (session : option Session) (op : M A) : M A :=
  match session with
  | None => op
  | Some s => if accepts_transactions s then op else throw TransactionRejected
  end.

(** [Product.findOne({$or: [{productId: code}, {sku: code}]})] *)
Definition Product_findOne_code (code : string) : M (option Product) :=
  fun db =>
    (Ok (find (fun p => orb (productId p =? code) (sku p =? code))
              (inventory db)), db).

(** [Product.findById(id)] *)
Definition Product_findById (id : string) : M (option Product) :=
  fun db => (Ok (find (fun p => _id p =? id) (inventory db)), db).

(** [Product.find()] *)
Definition Product_find : M (list Product) :=
  fun db => (Ok (inventory db), db).

(** [product.save()]: the stored document with this [_id] is replaced. *)
Definition replace_product (product : Product) (inv : list Product)
  : list Product :=
  map (fun p => if _id p =? _id product then product else p) inv.

Definition Product_save (product : Product) : M unit :=
  fun db => (Ok tt, set_inventory db (replace_product product (inventory db))).

(** [required: true] on a String path rejects the empty string.  Of the
    required paths of a Sale or a Purchase, [billId] is the only one the
    routes can leave empty: the numbers are always present and the item
    strings are copied from a stored product. *)
Definition Sale_save (sale : Sale) : M unit :=
  fun db =>
    if sale_billId sale =? "" then (Throw (RequiredPath "Sale" "billId"), db)
    else (Ok tt, mkDB (inventory db) (sales db ++ [sale]) (purchases db)
                      (dashboard_stats db)).

Definition Purchase_save (purchase : Purchase) : M unit :=
  fun db =>
    if pur_billId purchase =? ""
    then (Throw (RequiredPath "Purchase" "billId"), db)
    else (Ok tt, mkDB (inventory db) (sales db) (purchases db ++ [purchase])
                      (dashboard_stats db)).

(** [Model.aggregate([{$group: {_id: null, total: {$sum: "$total"},
    count: {$sum: 1}}}])]: no group when the collection is empty. *)
Definition aggregate_total_count {A} (total_of : A -> Q) (docs : list A)
  : option (Q * Z) :=
  match docs with
  | [] => None
  | _ => Some (fold_left (fun acc d => (acc + total_of d)%Q) docs 0%Q,
               Z.of_nat (List.length docs))
  end.

End Mongoose.
Import Mongoose.

(* ===================================================================== *)
(** ** utils/dashboardMetrics.js                                          *)
(* ===================================================================== *)
Module DashboardMetrics.

Definition toNumber (value : Raw Q) : Q :=
  match Number_parse value with
  | None => 0%Q
  | Some num => num
  end.

Record InventorySnapshot := mkInventorySnapshot {
  inv_inventoryValue : Q;
  inv_lowStock : Z;
  inv_outOfStock : Z
}.

(** The accumulator of the second [reduce]. *)
Record StockCounts := mkStockCounts {
  lowStockCount : Z;
  outOfStockCount : Z
}.

Definition count_step (acc : StockCounts) (product : Product) : StockCounts :=
  let quantity_ := toNumber (Parsed (inject_Z (quantity product))) in
  let reorderPoint_ := toNumber (Parsed (inject_Z (reorderPoint product))) in
  if Qle_bool quantity_ 0 then
    mkStockCounts (lowStockCount acc) (outOfStockCount acc + 1)
  else if Qle_bool quantity_ reorderPoint_ then
    mkStockCounts (lowStockCount acc + 1) (outOfStockCount acc)
  else acc.

Definition value_step (sum : Q) (product : Product) : Q :=
  (sum + toNumber (Parsed (price product))
         * toNumber (Parsed (inject_Z (quantity product))))%Q.

Definition buildInventorySnapshot : M InventorySnapshot :=
  products <- Product_find ;;
  let inventoryValue_ := fold_left value_step products 0%Q in
  let counts := fold_left count_step products (mkStockCounts 0 0) in
  ret (mkInventorySnapshot inventoryValue_
         (lowStockCount counts) (outOfStockCount counts)).

Record SalesSnapshot := mkSalesSnapshot {
  ss_totalSales : Q;
  ss_orders : Z
}.

Definition buildSalesSnapshot : M SalesSnapshot :=
  fun db =>
    let salesAggregate := aggregate_total_count sale_total (sales db) in
    (Ok (mkSalesSnapshot
           (nullish (option_map fst salesAggregate) 0%Q)
           (nullish (option_map snd salesAggregate) 0)), db).

Record PurchasesSnapshot := mkPurchasesSnapshot {
  ps_totalPurchases : Q;
  ps_purchaseCount : Z
}.

Definition buildPurchasesSnapshot : M PurchasesSnapshot :=
  fun db =>
    let purchaseAggregate := aggregate_total_count pur_total (purchases db) in
    (Ok (mkPurchasesSnapshot
           (nullish (option_map fst purchaseAggregate) 0%Q)
           (nullish (option_map snd purchaseAggregate) 0)), db).

(** [DashboardStat.findByIdAndUpdate("global", fields, {upsert, new})] *)
Definition DashboardStat_put (stats : DashboardStat) : M DashboardStat :=
  fun db => (Ok stats,
             mkDB (inventory db) (sales db) (purchases db) (Some stats)).

Definition recalculateDashboardStats : M DashboardStat :=
  inventorySnapshot <- buildInventorySnapshot ;;
  salesSnapshot <- buildSalesSnapshot ;;
  purchaseSnapshot <- buildPurchasesSnapshot ;;
  let orders_ := Z.max (ss_orders salesSnapshot)
                       (ps_purchaseCount purchaseSnapshot) in
  DashboardStat_put
    (mkDashboardStat
       (toNumber (Parsed (ss_totalSales salesSnapshot)))
       (toNumber (Parsed (inv_inventoryValue inventorySnapshot)))
       orders_
       (inv_lowStock inventorySnapshot)
       (inv_outOfStock inventorySnapshot)).

(** The schema defaults, used by an upsert that inserts. *)
Definition default_stat : DashboardStat := mkDashboardStat 0%Q 0%Q 0 0 0.

Definition incrementDashboardCounters (totalSalesDelta ordersDelta : Raw Q)
  : M (option DashboardStat) :=
  let normalizedSales := toNumber totalSalesDelta in
  let inc_totalSales :=
    if andb (Number_isFinite normalizedSales)
            (negb (Qeq_bool normalizedSales 0))
    then Some normalizedSales else None in
  let rawOrdersDelta := toNumber ordersDelta in
  let normalizedOrders :=
    if Number_isFinite rawOrdersDelta then Math_trunc rawOrdersDelta else 0 in
  let inc_orders :=
    if andb (Number_isFinite (inject_Z normalizedOrders))
            (negb (normalizedOrders =? 0)%Z)
    then Some normalizedOrders else None in
  match inc_totalSales, inc_orders with
  | None, None => fun db => (Ok (dashboard_stats db), db)
  | _, _ =>
      fun db =>
        let cur := nullish (dashboard_stats db) default_stat in
        let stats :=
          mkDashboardStat
            (totalSales cur + nullish inc_totalSales 0%Q)%Q
            (inventoryValue cur)
            (orders cur + nullish inc_orders 0)
            (lowStock cur) (outOfStock cur) in
        (Ok (Some stats),
         mkDB (inventory db) (sales db) (purchases db) (Some stats))
  end.

(** [DashboardStat.findById("global")] *)
Definition DashboardStat_findById : M (option DashboardStat) :=
  fun db => (Ok (dashboard_stats db), db).

(** The test [typeof stats.outOfStock !== "number"] never holds of a
    stored snapshot: the schema gives the path the type Number and the
    default 0. *)
Definition getDashboardStats : M DashboardStat :=
  stats <- DashboardStat_findById ;;
  match stats with
  | None => recalculateDashboardStats
  | Some found => ret found
  end.

End DashboardMetrics.

(* ===================================================================== *)
(** ** What a route answers                                               *)
(* ===================================================================== *)

Inductive ResponseBody :=
| ErrorBody (error : string)
| SaleCreated (sale : Sale) (updatedProducts : list Product)
              (dashboard : option DashboardStat)
| PurchaseCreated (purchase : Purchase) (updatedProducts : list Product)
                  (dashboard : option DashboardStat).

Record Response := mkResponse {
  status : Z;
  json : ResponseBody
}.

(** [err?.message || "Server error"] *)
Definition error_text (err : Error) : string :=
  match message err with
  | EmptyString => "Server error"
  | m => m
  end.

(** [process.env.NODE_ENV !== "test"] *)
Definition not_test (NODE_ENV : option string) : bool :=
  match NODE_ENV with
  | Some v => negb (v =? "test")
  | None => true
  end.

(* ===================================================================== *)
(** ** routes/sales.js                                                    *)
(* ===================================================================== *)
Module Sales.

Record ItemInput := mkItemInput {
  item_productId : option string;
  item_quantity : Raw Z;
  item_price : Raw Q;
  item_pricePerQuantity : Raw Q
}.

(** A supplied [date] / [invoiceDate]: falsy (the empty string),
    truthy but an Invalid Date, or truthy with [getTime() = t]. *)
Inductive DateArg :=
| DateFalsy
| DateInvalid
| DateValid (t : Z).

(** [req.body]: [items = None] when the field is not an array. *)
Record Request := mkRequest {
  billId : option string;
  customerName : option string;
  subtotal : Raw Q;
  tax : Raw Q;
  total : Raw Q;
  items : option (list ItemInput);
  invoiceDate : option DateArg;
  date : option DateArg
}.

(** The object the route hands to [persistSale]; [items] is an array. *)
Record Body := mkBody {
  b_billId : option string;
  b_customerName : option string;
  b_subtotal : Raw Q;
  b_tax : Raw Q;
  b_total : Raw Q;
  b_items : list ItemInput;
  b_invoiceDate : option DateArg;
  b_date : option DateArg
}.

Definition loadProductByIdentifier (identifier : option string)
  : M (option Product) :=
  if negb (truthy identifier) then ret None
  else
    let trimmed := normalizeString identifier in
    let normalizedCode := toUpperCase trimmed in
    byCodeResult <- Product_findOne_code normalizedCode ;;
    match byCodeResult with
    | Some found => ret (Some found)
    | None =>
        if isObjectIdHex trimmed then Product_findById trimmed
        else ret None
    end.

(** The body of the [for] loop of [persistSale] at index [i]: the
    mutated product and the line item pushed on the two arrays. *)
Definition saleItem (i : nat) (item : ItemInput) : M (Product * SaleItem) :=
  let productId_ := item_productId item in
  let quantityToDeduct := parseInteger (item_quantity item) 0 in
  let price_ := parseNumber (item_price item) 0 in
  let pricePerQuantity := parseNumber (item_pricePerQuantity item) 0 in
  if negb (truthy productId_) then throw (ItemProductIdRequired i)
  else if (quantityToDeduct <=? 0)%Z then throw (ItemQuantityInvalid i)
  else
    loaded <- loadProductByIdentifier productId_ ;;
    match loaded with
    | None => throw (ProductNotFound productId_)
    | Some product =>
        let currentQuantity := parseInteger (of_number (quantity product)) 0 in
        if (currentQuantity <? quantityToDeduct)%Z
        then throw (InsufficientStock (name product))
        else
          let effectivePrice :=
            if Qpositive price_ then price_
            else parseNumber (Parsed (price product)) 0 in
          let product' :=
            mkProduct (_id product) (name product) (sku product)
              (productId product)
              (if Qpositive effectivePrice then effectivePrice
               else parseNumber (Parsed (price product)) 0)
              (Js.minus currentQuantity quantityToDeduct)
              (reorderPoint product) (size product) (gsm product)
              (image product) in
          Product_save product' ;;;
          ret (product',
               mkSaleItem
                 (_id product') (name product') quantityToDeduct
                 effectivePrice
                 (if Qpositive pricePerQuantity then pricePerQuantity
                  else (effectivePrice * inject_Z quantityToDeduct)%Q)
                 ((if Qpositive pricePerQuantity then pricePerQuantity
                   else effectivePrice) * inject_Z quantityToDeduct)%Q
                 (normalizeString (size product'))
                 (normalizeString (gsm product')))
    end.

Fixpoint saleLoop (i : nat) (items : list ItemInput)
    (updatedProducts : list Product) (normalizedItems : list SaleItem)
  : M (list Product * list SaleItem) :=
  match items with
  | [] => ret (updatedProducts, normalizedItems)
  | item :: rest =>
      r <- saleItem i item ;;
      saleLoop (S i) rest (updatedProducts ++ [fst r])
               (normalizedItems ++ [snd r])
  end.

Definition createdAt_of (date invoiceDate : option DateArg) : option Z :=
  match nullish_opt date invoiceDate with
  | Some (DateValid t) => Some t
  | _ => None
  end.

Definition persistSale (body : Body) : M (Sale * list Product) :=
  r <- saleLoop 0 (b_items body) [] [] ;;
  let sale :=
    mkSale (normalizeString (b_billId body))
           (normalizeString (b_customerName body))
           (parseNumber (b_subtotal body) 0)
           (parseNumber (b_tax body) 0)
           (parseNumber (b_total body) 0)
           (snd r)
           (createdAt_of (b_date body) (b_invoiceDate body)) in
  Sale_save sale ;;;
  ret (sale, fst r).

(** The [try] around the two dashboard calls: an error is logged. *)
Definition refreshDashboard (NODE_ENV : option string) (sale : Sale)
  : DB -> option DashboardStat * DB :=
  fun db =>
    if not_test NODE_ENV then
      match (DashboardMetrics.incrementDashboardCounters
               (Parsed (sale_total sale)) (Parsed 1%Q) ;;;
             DashboardMetrics.recalculateDashboardStats) db with
      | (Ok stats, db') => (Some stats, db')
      | (Throw _, db') => (None, db')
      end
    else (None, db).

(** [router.post("/")] *)
Definition post (NODE_ENV : option string) (req : Request)
  : DB -> Response * DB :=
  fun db =>
    if negb (truthy (billId req))
    then (mkResponse 400 (ErrorBody "billId required"), db)
    else
      match items req with
      | None | Some [] => (mkResponse 400 (ErrorBody "items array required"), db)
      | Some items_ =>
          match persistSale
                  (mkBody (billId req) (customerName req) (subtotal req)
                          (tax req) (total req) items_ (invoiceDate req)
                          (date req)) db with
          | (Ok result, db1) =>
              let (dashboardStats, db2) :=
                refreshDashboard NODE_ENV (fst result) db1 in
              (mkResponse 201
                 (SaleCreated (fst result) (snd result) dashboardStats), db2)
          | (Throw err, db1) =>
              (mkResponse 500 (ErrorBody (error_text err)), db1)
          end
      end.

End Sales.

(* ===================================================================== *)
(** ** routes/purchases.js                                                *)
(* ===================================================================== *)
Module Purchases.

(** What [canUseTransactions] and the route read from the process and
    from the driver's client. *)
Record Env := mkEnv {
  NODE_ENV : option string;
  MONGO_TRANSACTIONS : option string;
  MONGO_URI : option string;
  MONGODB_URI : option string;
  topology_description_type : option string;
  options_replicaSet : option string;
  s_options_replicaSet : option string;
  s_url : option string;
  (** the deployment is a replica set member or a mongos *)
  deployment_accepts_transactions : bool
}.

Definition canUseTransactions (env : Env) : bool :=
  let topologyType := topology_description_type env in
  if andb (truthy topologyType) (negb (nullish topologyType "" =? "Single"))
  then true
  else
    let replicaSetName :=
      nullish_opt (options_replicaSet env) (s_options_replicaSet env) in
    if truthy replicaSetName then true
    else
      let connectionString :=
        nullish_opt (s_url env)
                    (nullish_opt (MONGO_URI env) (MONGODB_URI env)) in
      match connectionString with
      | Some str => includes str "replicaSet="
      | None => false
      end.

Record ItemInput := mkItemInput {
  item_productId : option string;
  item_quantity : Raw Z;
  item_price : Raw Q
}.

Record Request := mkRequest {
  billId : option string;
  supplierName : option string;
  subtotal : Raw Q;
  tax : Raw Q;
  total : Raw Q;
  items : option (list ItemInput)
}.

Record Body := mkBody {
  b_billId : option string;
  b_supplierName : option string;
  b_subtotal : Raw Q;
  b_tax : Raw Q;
  b_total : Raw Q;
  b_items : list ItemInput
}.

Definition loadProductByIdentifier (identifier : option string)
    (session : option Session) : M (option Product) :=
  if negb (truthy identifier) then ret None
  else
    let trimmed := normalizeString identifier in
    let normalizedCode := toUpperCase trimmed in
    byCodeResult <- with_session session (Product_findOne_code normalizedCode) ;;
    match byCodeResult with
    | Some found => ret (Some found)
    | None =>
        if isObjectIdHex trimmed
        then with_session session (Product_findById trimmed)
        else ret None
    end.

(** The body of the [for] loop of [persistPurchase] at index [i]. *)
Definition purchaseItem (session : option Session) (i : nat)
    (item : ItemInput) : M (Product * PurchaseItem) :=
  let productId_ := item_productId item in
  let quantityToAdd := parseInteger (item_quantity item) 0 in
  let price_ := parseNumber (item_price item) 0 in
  if negb (truthy productId_) then throw (ItemProductIdRequired i)
  else if (quantityToAdd <=? 0)%Z then throw (ItemQuantityInvalid i)
  else
    loaded <- loadProductByIdentifier productId_ session ;;
    match loaded with
    | None => throw (ProductNotFound productId_)
    | Some product =>
        let baseQuantity := parseInteger (of_number (quantity product)) 0 in
        let effectivePrice :=
          if Qpositive price_ then price_
          else parseNumber (Parsed (price product)) 0 in
        let product' :=
          mkProduct (_id product) (name product) (sku product)
            (productId product) effectivePrice
            (Js.plus baseQuantity quantityToAdd)
            (reorderPoint product) (size product) (gsm product)
            (image product) in
        with_session session (Product_save product') ;;;
        ret (product',
             mkPurchaseItem
               (_id product') (name product') quantityToAdd effectivePrice
               (effectivePrice * inject_Z quantityToAdd)%Q
               (normalizeString (size product'))
               (normalizeString (gsm product')))
    end.

Fixpoint purchaseLoop (session : option Session) (i : nat)
    (items : list ItemInput)
    (updatedProducts : list Product) (normalizedItems : list PurchaseItem)
  : M (list Product * list PurchaseItem) :=
  match items with
  | [] => ret (updatedProducts, normalizedItems)
  | item :: rest =>
      r <- purchaseItem session i item ;;
      purchaseLoop session (S i) rest (updatedProducts ++ [fst r])
                   (normalizedItems ++ [snd r])
  end.

(** [normalizeString(supplierName) || "Unknown Supplier"] *)
Definition supplier_or_default (supplierName : option string) : string :=
  match normalizeString supplierName with
  | EmptyString => "Unknown Supplier"
  | s => s
  end.

Definition persistPurchase (body : Body) (session : option Session)
  : M (Purchase * list Product) :=
  r <- purchaseLoop session 0 (b_items body) [] [] ;;
  let purchase :=
    mkPurchase (normalizeString (b_billId body))
               (supplier_or_default (b_supplierName body))
               (parseNumber (b_subtotal body) 0)
               (parseNumber (b_tax body) 0)
               (parseNumber (b_total body) 0)
               (snd r) in
  with_session session (Purchase_save purchase) ;;;
  ret (purchase, fst r).

(** The dashboard refresh after a purchase; an error is logged. *)
Definition refreshDashboard (env : Env) : DB -> option DashboardStat * DB :=
  fun db =>
    if not_test (NODE_ENV env) then
      match DashboardMetrics.recalculateDashboardStats db with
      | (Ok stats, db') => (Some stats, db')
      | (Throw _, db') => (None, db')
      end
    else (None, db).

Definition created (env : Env) (result : Purchase * list Product)
  : DB -> Response * DB :=
  fun db =>
    let (dashboardStats, db') := refreshDashboard env db in
    (mkResponse 201
       (PurchaseCreated (fst result) (snd result) dashboardStats), db').

Definition transactionsRequested (env : Env) : bool :=
  let transactionsToggle :=
    toLowerCase (nullish (MONGO_TRANSACTIONS env) "false") in
  orb (transactionsToggle =? "true") (transactionsToggle =? "1").

(** [router.post("/")].  A transaction, when one is open, holds the
    writes of [persistPurchase] until [commitTransaction];
    [abortTransaction] in the [catch] puts the store back to [db]. *)
Definition post (env : Env) (req : Request) : DB -> Response * DB :=
  fun db =>
    if negb (truthy (billId req))
    then (mkResponse 400 (ErrorBody "billId required"), db)
    else
      match items req with
      | None | Some [] => (mkResponse 400 (ErrorBody "items array required"), db)
      | Some items_ =>
          let body := mkBody (billId req) (supplierName req) (subtotal req)
                             (tax req) (total req) items_ in
          let shouldUseTransactions :=
            andb (transactionsRequested env) (canUseTransactions env) in
          let session :=
            if shouldUseTransactions
            then Some (mkSession (deployment_accepts_transactions env))
            else None in
          match persistPurchase body session db with
          | (Ok result, db1) => created env result db1
          | (Throw err, db1) =>
              let aborted :=
                match session with Some _ => db | None => db1 end in
              if andb shouldUseTransactions
                      (includes (message err)
                                "Transaction numbers are only allowed")
              then
                match persistPurchase body None aborted with
                | (Ok fallbackResult, db2) => created env fallbackResult db2
                | (Throw fallbackErr, db2) =>
                    (mkResponse 500 (ErrorBody (error_text fallbackErr)), db2)
                end
              else (mkResponse 500 (ErrorBody (error_text err)), aborted)
          end
      end.

End Purchases.

(* ===================================================================== *)
(** ** routes/dashboard.js                                                *)
(* ===================================================================== *)
Module Dashboard.

Inductive Answer :=
| Stats (status : Z) (stats : DashboardStat)
| Failed (status : Z) (error : string).

(** [router.get("/")] *)
Definition get : DB -> Answer * DB :=
  fun db =>
    match DashboardMetrics.getDashboardStats db with
    | (Ok stats, db') => (Stats 200 stats, db')
    | (Throw _, db') => (Failed 500 "Server error", db')
    end.

(** [router.post("/recalculate")] *)
Definition recalculate : DB -> Answer * DB :=
  fun db =>
    match DashboardMetrics.recalculateDashboardStats db with
    | (Ok stats, db') => (Stats 200 stats, db')
    | (Throw _, db') => (Failed 500 "Server error", db')
    end.

End Dashboard.

(* ===================================================================== *)
(** ** routes/products.js, the routes on the document store that change
       stock or remove a product                                          *)
(* ===================================================================== *)
Module Products.

Definition normalizeSku (value : option string) : string :=
  toUpperCase (normalizeString value).

Definition loadProductByIdentifier (identifier : option string)
  : M (option Product) :=
  if negb (truthy identifier) then ret None
  else
    let trimmed := normalizeString identifier in
    let normalizedCode := toUpperCase trimmed in
    byCodeResult <- Product_findOne_code normalizedCode ;;
    match byCodeResult with
    | Some found => ret (Some found)
    | None =>
        if isObjectIdHex trimmed then Product_findById trimmed
        else ret None
    end.

(** [notifyChange]: the callback server.js passes is
    [recalculateDashboardStats]; an error of the callback is logged. *)
Definition notifyChange (onProductsChanged : option (M DashboardStat))
  : DB -> DB :=
  fun db =>
    match onProductsChanged with
    | None => db
    | Some callback => snd (callback db)
    end.

(** [Product.findByIdAndDelete(id)]: one document with this [_id] goes. *)
Fixpoint delete_by_id (id : string) (inv : list Product) : list Product :=
  match inv with
  | [] => []
  | p :: rest => if _id p =? id then rest else p :: delete_by_id id rest
  end.

Definition Product_findByIdAndDelete (id : string) : M unit :=
  fun db => (Ok tt, set_inventory db (delete_by_id id (inventory db))).

Inductive Answer :=
| ProductJson (status : Z) (product : Product)
| Message (status : Z) (message : string)
| Failed (status : Z) (error : string).

(** [router.patch("/:id/adjust-stock")] *)
Definition adjust_stock (onProductsChanged : option (M DashboardStat))
    (id : string) (amount : Raw Z) : DB -> Answer * DB :=
  fun db =>
    let delta := parseInteger amount 0 in
    match loadProductByIdentifier (Some id) db with
    | (Ok None, db1) => (Failed 404 "Product not found", db1)
    | (Ok (Some product), db1) =>
        let product' :=
          mkProduct (_id product) (name product) (sku product)
            (productId product) (price product)
            (Js.plus (parseInteger (of_number (quantity product)) 0) delta)
            (reorderPoint product) (size product) (gsm product)
            (image product) in
        match Product_save product' db1 with
        | (Ok _, db2) =>
            (ProductJson 200 product', notifyChange onProductsChanged db2)
        | (Throw _, db2) => (Failed 500 "Server error", db2)
        end
    | (Throw _, db1) => (Failed 500 "Server error", db1)
    end.

(** [router.delete("/:id")] *)
Definition delete (onProductsChanged : option (M DashboardStat))
    (id : string) : DB -> Answer * DB :=
  fun db =>
    match loadProductByIdentifier (Some id) db with
    | (Ok None, db1) => (Failed 404 "Product not found", db1)
    | (Ok (Some product), db1) =>
        match Product_findByIdAndDelete (_id product) db1 with
        | (Ok _, db2) =>
            (Message 200 "Product deleted successfully",
             notifyChange onProductsChanged db2)
        | (Throw _, db2) => (Failed 500 "Server error", db2)
        end
    | (Throw _, db1) => (Failed 500 "Server error", db1)
    end.

End Products.

(* ===================================================================== *)
(** ** routes/products.js, the routes on the in-memory store              *)
(* ===================================================================== *)
Module MemoryProducts.

(** An element of the [products] array.  [image] is what the request
    carried: absent ([None]), [null] ([Some None]) or a string. *)
Record Product := mkStored {
  id : string;
  name : string;
  sku : string;
  productId : string;
  price : Q;
  quantity : Z;
  reorderPoint : Z;
  size : string;
  gsm : string;
  image : option (option string);
  createdAt : string;
  updatedAt : string
}.

(** A member of a request body that the code converts to a string or
    hands to a parser.  [Exotic] is an object with a [toString] member,
    which JSON cannot make callable: it is neither [undefined] nor
    [null], it is truthy, and [String], [Number.parseInt] and
    [Number.parseFloat] throw a TypeError when they convert it to a
    primitive. *)
Inductive Json (A : Type) : Type :=
| Plain (a : A)
| Exotic.
Arguments Plain {A} a.
Arguments Exotic {A}.

(** A request body.  A field that the code compares with [undefined] is
    an option whose [None] is [undefined]; for the strings among them
    [Some None] is [null].  [image] is stored as it comes. *)
Record Payload := mkPayload {
  raw_name : Json (option string);
  raw_sku : Json (option string);
  raw_productId : Json (option string);
  raw_quantity : Json (option (Raw Z));
  raw_price : Json (Raw Q);
  raw_reorderPoint : Json (Raw Z);
  raw_size : Json (option (option string));
  raw_gsm : Json (option (option string));
  raw_image : option (option string)
}.

(** [a ?? b] on two members. *)
Definition coalesce (a b : Json (option string)) : Json (option string) :=
  match a with
  | Plain None => b
  | _ => a
  end.

(** The truth value of a member. *)
Definition truthy_member (v : Json (option string)) : bool :=
  match v with
  | Plain s => truthy s
  | Exotic => true
  end.

Definition normalizeSku (value : option string) : string :=
  toUpperCase (normalizeString value).

(** [normalizeOptionalString(value)] with the default fallback. *)
Definition normalizeOptionalString (value : option (option string)) : string :=
  match value with
  | None => ""
  | Some v => normalizeString v
  end.

(** [a || b] on strings. *)
Definition or_else (a b : string) : string :=
  match a with
  | EmptyString => b
  | _ => a
  end.

(** [array.findIndex(f)], with the element found at the index; [None]
    is -1. *)
Fixpoint findIndex {A} (f : A -> bool) (l : list A) : option (nat * A) :=
  match l with
  | [] => None
  | a :: rest =>
      if f a then Some (0%nat, a)
      else option_map (fun r => (S (fst r), snd r)) (findIndex f rest)
  end.

(** [array[i] = a] for an index of the array. *)
Fixpoint assign {A} (i : nat) (a : A) (l : list A) : list A :=
  match l, i with
  | [], _ => []
  | _ :: rest, O => a :: rest
  | x :: rest, S j => x :: assign j a rest
  end.

(** [array.splice(i, 1)] *)
Fixpoint splice1 {A} (i : nat) (l : list A) : list A :=
  match l, i with
  | [], _ => []
  | _ :: rest, O => rest
  | x :: rest, S j => x :: splice1 j rest
  end.

Definition findProductIndex (products : list Product) (id_ : string)
  : option (nat * Product) :=
  findIndex (fun p => orb (id p =? id_)
                          (orb (productId p =? id_) (sku p =? id_)))
            products.

(** The errors thrown in the routes: the two [Error]s of
    [upsertProduct] and the TypeError of a conversion. *)
Inductive UpsertError :=
| NameRequired
| SkuRequired
| NotPrimitive.

Definition error_message (e : UpsertError) : string :=
  match e with
  | NameRequired => "name required"
  | SkuRequired => "sku required"
  | NotPrimitive => "Cannot convert object to primitive value"
  end.

Inductive Upserted :=
| Threw (e : UpsertError)
| Returned (document : Product) (created : bool).

(** [upsertProduct(raw, { incrementQuantity })]; [uuid] is what
    [randomUUID()] gives and [now] what [new Date().toISOString()]
    gives in this call.  A conversion that throws leaves the function
    before the array is written. *)
Definition upsertProduct (uuid now : string) (raw : Payload)
    (incrementQuantity : bool) (products : list Product)
  : Upserted * list Product :=
  match raw_name raw,
        coalesce (raw_sku raw) (raw_productId raw),
        coalesce (raw_productId raw) (raw_sku raw) with
  | Plain name_v, Plain sku_v, Plain productId_v =>
      let name_ := normalizeString name_v in
      let normalizedSku := normalizeSku sku_v in
      let normalizedProductId := normalizeSku productId_v in
      if name_ =? "" then (Threw NameRequired, products)
      else if normalizedSku =? "" then (Threw SkuRequired, products)
      else
        match raw_quantity raw, raw_price raw, raw_reorderPoint raw with
        | Plain quantity_v, Plain price_v, Plain reorderPoint_v =>
            let quantity_ :=
              match quantity_v with
              | None => 0
              | Some v => parseInteger v 0
              end in
            let price_ := parseNumber price_v 0 in
            let reorderPoint_ :=
              let parsed := parseInteger reorderPoint_v 10 in
              if (parsed =? 0)%Z then 10 else parsed in
            match findProductIndex products normalizedSku with
            | Some (existingIndex, existing) =>
                let nextQuantity :=
                  if incrementQuantity
                  then Js.plus (parseInteger (of_number (quantity existing)) 0)
                               quantity_
                  else match quantity_v with
                       | Some _ => quantity_
                       | None => quantity existing
                       end in
                match raw_size raw, raw_gsm raw with
                | Plain size_v, Plain gsm_v =>
                    let updated :=
                      mkStored (id existing) name_ normalizedSku
                        (or_else normalizedProductId normalizedSku)
                        price_ nextQuantity reorderPoint_
                        (match size_v with
                         | Some v => normalizeString v
                         | None => size existing
                         end)
                        (match gsm_v with
                         | Some v => normalizeString v
                         | None => gsm existing
                         end)
                        (match raw_image raw with
                         | Some v => Some v
                         | None => image existing
                         end)
                        (createdAt existing) now in
                    (Returned updated false,
                     assign existingIndex updated products)
                | _, _ => (Threw NotPrimitive, products)
                end
            | None =>
                match raw_size raw, raw_gsm raw with
                | Plain size_v, Plain gsm_v =>
                    let newProduct :=
                      mkStored uuid name_ normalizedSku
                        (or_else normalizedProductId normalizedSku)
                        price_ quantity_ reorderPoint_
                        (normalizeOptionalString size_v)
                        (normalizeOptionalString gsm_v)
                        (raw_image raw) now now in
                    (Returned newProduct true, (products ++ [newProduct])%list)
                | _, _ => (Threw NotPrimitive, products)
                end
            end
        | _, _, _ => (Threw NotPrimitive, products)
        end
  | _, _, _ => (Threw NotPrimitive, products)
  end.

Record BulkError := mkBulkError {
  index : nat;
  message : string
}.

(** [Uncaught]: an error leaves a handler that has no [try]; Express
    answers 500 through its error handler. *)
Inductive Answer :=
| Document (status : Z) (document : Product)
| BulkResult (status : Z) (inserted updated : nat) (errors : list BulkError)
             (hasErrors : bool)
| Done (status : Z) (text : string)
| Failed (status : Z) (error : string)
| Uncaught (err : UpsertError).

(** [message.toLowerCase().includes("required") ? 400 : 500] *)
Definition status_of (message_ : string) : Z :=
  if includes (toLowerCase message_) "required" then 400 else 500.

(** [router.post("/")] *)
Definition post (uuid now : string) (body : Payload) (products : list Product)
  : Answer * list Product :=
  match upsertProduct uuid now body true products with
  | (Returned document created, products') =>
      (Document (if created then 201 else 200) document, products')
  | (Threw err, products') =>
      let message_ := or_else (error_message err) "Server error" in
      (Failed (status_of message_) message_, products')
  end.

(** The [forEach] of [router.post("/bulk")], from index [i] on; call
    number [k] gets [uuid k] and [now k]. *)
Fixpoint bulkLoop (uuid now : nat -> string) (i : nat) (list_ : list Payload)
    (inserted updated : nat) (errors : list BulkError)
    (products : list Product)
  : (nat * nat * list BulkError) * list Product :=
  match list_ with
  | [] => ((inserted, updated, errors), products)
  | entry :: rest =>
      match upsertProduct (uuid i) (now i) entry false products with
      | (Returned _ created, products') =>
          if created
          then bulkLoop uuid now (S i) rest (S inserted) updated errors
                        products'
          else bulkLoop uuid now (S i) rest inserted (S updated) errors
                        products'
      | (Threw err, products') =>
          bulkLoop uuid now (S i) rest inserted updated
            (errors ++ [mkBulkError i
                          (or_else (error_message err) "unknown error")])
            products'
      end
  end.

(** [router.post("/bulk")]; [list_ = None] when neither the body nor its
    [items] is an array. *)
Definition bulk (uuid now : nat -> string) (list_ : option (list Payload))
    (products : list Product) : Answer * list Product :=
  match list_ with
  | None | Some [] => (Failed 400 "items array required", products)
  | Some entries =>
      let '((inserted, updated, errors), products') :=
        bulkLoop uuid now 0 entries 0 0 [] products in
      (BulkResult 200 inserted updated errors
                  (Nat.ltb 0 (List.length errors)), products')
  end.

(** [router.put("/:id")]; [normalizedSku = None] is [undefined]. *)
Definition put (now : string) (id_ : string) (body : Payload)
    (products : list Product) : Answer * list Product :=
  match findProductIndex products id_ with
  | None => (Failed 404 "Product not found", products)
  | Some (idx, current) =>
      let named :=
        orb (truthy_member (raw_sku body))
            (truthy_member (raw_productId body)) in
      match (if named
             then match coalesce (raw_sku body) (raw_productId body) with
                  | Plain v => Plain (Some (normalizeSku v))
                  | Exotic => Exotic
                  end
             else Plain None) with
      | Exotic => (Uncaught NotPrimitive, products)
      | Plain normalizedSku =>
          if andb named (nullish normalizedSku "" =? "")
          then (Failed 400 "sku required", products)
          else
            match raw_name body,
                  coalesce (raw_productId body) (Plain normalizedSku),
                  raw_price body, raw_quantity body, raw_reorderPoint body,
                  raw_size body, raw_gsm body with
            | Plain name_v, Plain productId_v, Plain price_v,
              Plain quantity_v, Plain reorderPoint_v, Plain size_v,
              Plain gsm_v =>
                let updated :=
                  mkStored (id current)
                    (if truthy name_v
                     then normalizeString name_v else name current)
                    (or_else (nullish normalizedSku "") (sku current))
                    (or_else (normalizeSku productId_v) (productId current))
                    (parseNumber price_v (price current))
                    (match quantity_v with
                     | Some v => parseInteger v (quantity current)
                     | None => quantity current
                     end)
                    (parseInteger reorderPoint_v (reorderPoint current))
                    (match size_v with
                     | Some v => normalizeString v
                     | None => size current
                     end)
                    (match gsm_v with
                     | Some v => normalizeString v
                     | None => gsm current
                     end)
                    (match raw_image body with
                     | Some v => Some v
                     | None => image current
                     end)
                    (createdAt current) now in
                (Document 200 updated, assign idx updated products)
            | _, _, _, _, _, _, _ => (Uncaught NotPrimitive, products)
            end
      end
  end.

(** [router.patch("/:id/adjust-stock")] *)
Definition adjust_stock (now : string) (id_ : string)
    (amount : Json (Raw Z)) (products : list Product)
  : Answer * list Product :=
  match findProductIndex products id_ with
  | None => (Failed 404 "Product not found", products)
  | Some (idx, current) =>
      match amount with
      | Exotic => (Uncaught NotPrimitive, products)
      | Plain amount_v =>
          let delta := parseInteger amount_v 0 in
          let updated :=
            mkStored (id current) (name current) (sku current)
              (productId current) (price current)
              (Js.plus (parseInteger (of_number (quantity current)) 0) delta)
              (reorderPoint current) (size current) (gsm current)
              (image current) (createdAt current) now in
          (Document 200 updated, assign idx updated products)
      end
  end.

(** [router.delete("/:id")] *)
Definition delete (id_ : string) (products : list Product)
  : Answer * list Product :=
  match findProductIndex products id_ with
  | None => (Failed 404 "Product not found", products)
  | Some (idx, _) =>
      (Done 200 "Product deleted successfully", splice1 idx products)
  end.

(** The requests that write the array, each with what [randomUUID()]
    and [new Date().toISOString()] give while it is served. *)
Inductive Request :=
| Post (uuid now : string) (body : Payload)
| Bulk (uuid now : nat -> string) (list_ : option (list Payload))
| Put (now : string) (id_ : string) (body : Payload)
| AdjustStock (now : string) (id_ : string) (amount : Json (Raw Z))
| Delete (id_ : string).

Definition handle (request : Request) (products : list Product)
  : Answer * list Product :=
  match request with
  | Post uuid now body => post uuid now body products
  | Bulk uuid now list_ => bulk uuid now list_ products
  | Put now id_ body => put now id_ body products
  | AdjustStock now id_ amount => adjust_stock now id_ amount products
  | Delete id_ => delete id_ products
  end.

(** The array after a sequence of requests to one router, whose array
    starts as [const products = []]. *)
Definition serve (requests : list Request) : list Product :=
  fold_left (fun products request => snd (handle request products))
            requests [].

End MemoryProducts.

(* ===================================================================== *)
(** ** Pure views of the store, used to state the properties              *)
(* ===================================================================== *)

(** The product an identifier resolves to in a collection: the answer of
    [loadProductByIdentifier], which reads and never writes. *)
Definition resolve (inv : list Product) (identifier : option string)
  : option Product :=
  if negb (truthy identifier) then None
  else
    let trimmed := normalizeString identifier in
    let normalizedCode := toUpperCase trimmed in
    match find (fun p => orb (productId p =? normalizedCode)
                             (sku p =? normalizedCode)) inv with
    | Some found => Some found
    | None =>
        if isObjectIdHex trimmed then find (fun p => _id p =? trimmed) inv
        else None
    end.

(** The stock of a product as the routes read it:
    [parseInteger(product.quantity, 0)]. *)
Definition on_hand (p : Product) : Z :=
  parseInteger (Js.of_number (quantity p)) 0.

(** The integers a double holds exactly, whatever the operations that
    led to them. *)
Definition safe_integer (z : Z) : Prop := Z.abs z <= 2 ^ 53.

(** Everything of a product except [price] and [quantity]. *)
Definition frame_of (p : Product)
  : string * string * string * string * Z
    * option string * option string * option string :=
  (_id p, name p, sku p, productId p, reorderPoint p, size p, gsm p, image p).

(** The unique index on [_id]. *)
Definition unique_ids (inv : list Product) : Prop := NoDup (map _id inv).

(** A session on which operations go through. *)
Definition usable (session : option Session) : Prop :=
  match session with
  | None => True
  | Some s => accepts_transactions s = true
  end.

(** The writes of a batch, replayed in order on a collection. *)
Definition apply_saves (updatedProducts : list Product) (inv : list Product)
  : list Product :=
  fold_left (fun acc u => replace_product u acc) updatedProducts inv.

(** The object [router.post] builds for [persistSale]. *)
Definition body_of_request (req : Sales.Request)
    (items : list Sales.ItemInput) : Sales.Body :=
  Sales.mkBody (Sales.billId req) (Sales.customerName req)
               (Sales.subtotal req) (Sales.tax req) (Sales.total req)
               items (Sales.invoiceDate req) (Sales.date req).







(** A shop whose one product has a stock below zero, one whose product
    has a stock of 10^21, and a sale of one line. *)
Definition c1_negative_product : Product :=
  mkProduct "p-1" "Tarpaulin" "SKU-1" "SKU-1" 10 (-5) 2 None None None.

Definition c1_negative_db : DB := mkDB [c1_negative_product] [] [] None.

Definition c1_huge_product : Product :=
  mkProduct "p-1" "Tarpaulin" "SKU-1" "SKU-1" 10 (10 ^ 21) 2 None None None.

Definition c1_huge_db : DB := mkDB [c1_huge_product] [] [] None.

Definition c1_body_asking (q : Z) : Sales.Body :=
  Sales.mkBody (Some "BILL-1") None Absent Absent Absent
    [Sales.mkItemInput (Some "SKU-1") (Parsed q) Absent Absent] None None.

(** A shop with two products in stock. *)
Definition shop_tarp : Product :=
  mkProduct "p-1" "Tarpaulin" "SKU-1" "SKU-1" 10 5 2 (Some "12x15")
            (Some "120") None.

Definition shop_rope : Product :=
  mkProduct "p-2" "Rope" "SKU-2" "SKU-2" 4 3 10 None None None.

Definition shop : DB := mkDB [shop_tarp; shop_rope] [] [] None.

Definition sale_line (code : string) (q : Z) : Sales.ItemInput :=
  Sales.mkItemInput (Some code) (Parsed q) Absent Absent.

Definition sale_of (lines : list Sales.ItemInput) : Sales.Body :=
  Sales.mkBody (Some "BILL-7") (Some "Kumar") (Parsed 0%Q) (Parsed 0%Q)
               (Parsed 0%Q) lines None None.

Definition c2_request : Sales.Request :=
  Sales.mkRequest (Some "BILL-9") None Absent Absent Absent
    (Some [sale_line "sku-1" 2; sale_line "sku-2" 1; sale_line "sku-2" 3])
    None None.

(** A product and its later state: same document, and a quantity that
    was not negative is not negative. *)
Definition nonneg_kept (p p' : Product) : Prop :=
  _id p' = _id p /\ (0 <= quantity p -> 0 <= quantity p').

Definition keeps_nonneg (inv0 inv : list Product) : Prop :=
  Forall2 nonneg_kept inv0 inv.

(** The line snapshot of a sale, read without any side condition: the
    line of the saved Sale at position [k] carries the effective unit
    price (the supplied price when positive, else the price stored when
    the line was processed) and a total equal to that price times the
    requested quantity. *)
Definition line_total_unconditional : Prop :=
  forall (body : Sales.Body) (db db' : DB) (sale : Sale)
         (ups : list Product) (k : nat) (item : Sales.ItemInput)
         (li : SaleItem),
    Sales.persistSale body db = (Ok (sale, ups), db') ->
    nth_error (Sales.b_items body) k = Some item ->
    nth_error (sale_items sale) k = Some li ->
    exists p,
      resolve (inventory (snd (Sales.saleLoop 0 (firstn k (Sales.b_items body))
                                              [] [] db)))
              (Sales.item_productId item) = Some p
      /\ si_price li
         = (if Qpositive (parseNumber (Sales.item_price item) 0)
            then parseNumber (Sales.item_price item) 0 else price p)
      /\ (si_total li
          == si_price li * inject_Z (parseInteger (Sales.item_quantity item) 0))%Q.

(** A sale line that also carries the client's [pricePerQuantity]. *)
Definition c4_body : Sales.Body :=
  Sales.mkBody (Some "BILL-4") None Absent Absent Absent
    [Sales.mkItemInput (Some "sku-1") (Parsed 2) (Parsed 12%Q) (Parsed 50%Q)]
    None None.

(** The session [router.post] of the purchases opens, if any. *)
Definition shouldUseTransactions (env : Purchases.Env) : bool :=
  andb (Purchases.transactionsRequested env) (Purchases.canUseTransactions env).

Definition route_session (env : Purchases.Env) : option Session :=
  if shouldUseTransactions env
  then Some (mkSession (Purchases.deployment_accepts_transactions env))
  else None.

Definition purchase_body_of_request (req : Purchases.Request)
    (items : list Purchases.ItemInput) : Purchases.Body :=
  Purchases.mkBody (Purchases.billId req) (Purchases.supplierName req)
                   (Purchases.subtotal req) (Purchases.tax req)
                   (Purchases.total req) items.





(** [c] is one of the characters of [s]. *)
Fixpoint occurs (c : ascii) (s : string) : bool :=
  match s with
  | EmptyString => false
  | String a r => orb (Ascii.eqb a c) (occurs c r)
  end.

(** A product and its later state agree on everything but [price] and
    [quantity]. *)
Definition same_frame (p p' : Product) : Prop := frame_of p' = frame_of p.

(** [u] is a stored product of [inv] up to [price] and [quantity]. *)
Definition framed_in (inv : list Product) (u : Product) : Prop :=
  exists p, In p inv /\ frame_of u = frame_of p.

Definition Zsum (l : list Z) : Z := fold_right Z.add 0 l.

(** An item resolves, in a collection, to the product with this [_id]. *)
Definition resolves_to (inv : list Product) (id : string)
    (item : Purchases.ItemInput) : bool :=
  match resolve inv (Purchases.item_productId item) with
  | Some p => _id p =? id
  | None => false
  end.

(** The sum of the quantities of all items that resolved to the product
    with this [_id]. *)
Definition added_to (inv : list Product) (items : list Purchases.ItemInput)
    (id : string) : Z :=
  Zsum (map (fun item => parseInteger (Purchases.item_quantity item) 0)
            (filter (resolves_to inv id) items)).

(** A product and its state after a purchase batch. *)
Definition grown (inv : list Product) (items : list Purchases.ItemInput)
    (p p' : Product) : Prop :=
  frame_of p' = frame_of p
  /\ quantity p' = quantity p + added_to inv items (_id p).

(** The stock of a product stays, with the quantities of the batch
    added, among the integers a double holds exactly; a product that no
    item resolves to is not concerned. *)
Definition stays_exact (inv : list Product)
    (items : list Purchases.ItemInput) (p : Product) : Prop :=
  added_to inv items (_id p) = 0
  \/ (- 2 ^ 53 <= quantity p
      /\ quantity p + added_to inv items (_id p) <= 2 ^ 53).

(** A product and its state after a purchase batch, when its stock
    stays exact. *)
Definition grown_if_exact (inv : list Product)
    (items : list Purchases.ItemInput) (p p' : Product) : Prop :=
  frame_of p' = frame_of p
  /\ (stays_exact inv items p ->
      quantity p' = quantity p + added_to inv items (_id p)).



(** A purchase line the route accepts: a positive quantity and a
    product identifier that resolves. *)
Definition valid_purchase_line (inv : list Product)
    (item : Purchases.ItemInput) : Prop :=
  0 < parseInteger (Purchases.item_quantity item) 0
  /\ exists p, resolve inv (Purchases.item_productId item) = Some p.

Definition valid_purchase_batch (inv : list Product) (body : Purchases.Body)
  : Prop :=
  Forall (valid_purchase_line inv) (Purchases.b_items body)
  /\ normalizeString (Purchases.b_billId body) <> "".

Definition purchase_line (code : string) (q : Z) : Purchases.ItemInput :=
  Purchases.mkItemInput (Some code) (Parsed q) Absent.

(** The net change of a purchase, read without any side condition: a
    valid batch is saved and leaves every product with its quantity
    raised by the sum of the quantities of the items that resolved to
    it. *)
Definition purchase_adds_unconditional : Prop :=
  forall (session : option Session) (body : Purchases.Body) (db : DB),
    usable session ->
    unique_ids (inventory db) ->
    valid_purchase_batch (inventory db) body ->
    exists purchase ups db',
      Purchases.persistPurchase body session db = (Ok (purchase, ups), db')
      /\ Forall2 (grown (inventory db) (Purchases.b_items body))
                 (inventory db) (inventory db').

(** A shop whose one product has 2^53 in stock, and a purchase of one
    more. *)
Definition c6_full_db : DB :=
  mkDB [mkProduct "p-1" "Tarpaulin" "SKU-1" "SKU-1" 10 (2 ^ 53) 2
                  None None None] [] [] None.

Definition c6_one_more : Purchases.Body :=
  Purchases.mkBody (Some "PO-7") None Absent Absent Absent
    [Purchases.mkItemInput (Some "SKU-1") (Parsed 1) Absent].

(** A purchase with two lines for the same product. *)
Definition c6_body : Purchases.Body :=
  Purchases.mkBody (Some "PO-6") None Absent Absent Absent
    [purchase_line "sku-1" 3; purchase_line "sku-2" 1; purchase_line "SKU-1" 4].

(** The dashboard figures as the specification words them, over the
    full collections. *)
Module Reference.

Definition Qsum (l : list Q) : Q := fold_right Qplus 0%Q l.

(** Sum over all products of price * quantity. *)
Definition inventoryValue (products : list Product) : Q :=
  Qsum (map (fun p => (price p * inject_Z (quantity p))%Q) products).

(** Count of products where 0 < quantity <= reorderPoint. *)
Definition lowStock (products : list Product) : Z :=
  Z.of_nat (List.length
              (filter (fun p => andb (0 <? quantity p)%Z
                                     (quantity p <=? reorderPoint p)%Z)
                      products)).

(** Count of products where quantity <= 0. *)
Definition outOfStock (products : list Product) : Z :=
  Z.of_nat (List.length (filter (fun p => (quantity p <=? 0)%Z) products)).

(** Sum of total over all Sale records. *)
Definition totalSales (records : list Sale) : Q :=
  Qsum (map sale_total records).

(** max(sale count, purchase count). *)
Definition orders (sale_records : list Sale) (purchase_records : list Purchase)
  : Z :=
  Z.max (Z.of_nat (List.length sale_records))
        (Z.of_nat (List.length purchase_records)).

End Reference.

(** The same process and client, on a deployment that accepts or rejects
    transaction numbers. *)
Definition on_deployment (env : Purchases.Env) (accepts : bool)
  : Purchases.Env :=
  Purchases.mkEnv (Purchases.NODE_ENV env) (Purchases.MONGO_TRANSACTIONS env)
    (Purchases.MONGO_URI env) (Purchases.MONGODB_URI env)
    (Purchases.topology_description_type env)
    (Purchases.options_replicaSet env) (Purchases.s_options_replicaSet env)
    (Purchases.s_url env) accepts.

(** Transactions switched on, a connection string that names a replica
    set, and a standalone server behind it. *)
Definition c9_env : Purchases.Env :=
  Purchases.mkEnv (Some "production") (Some "true")
    (Some "mongodb://db:27017/shop?replicaSet=rs0") None None None None None
    false.

Definition c9_request : Purchases.Request :=
  Purchases.mkRequest (Some "PO-9") (Some "Bala Traders") Absent Absent
    (Parsed 70%Q)
    (Some [purchase_line "sku-1" 3; purchase_line "sku-2" 1]).

(** A shop that has made one sale and holds an older snapshot. *)
Definition shop_after_sale : DB :=
  mkDB [mkProduct "p-1" "Tarpaulin" "SKU-1" "SKU-1" 10 3 2 (Some "12x15")
                  (Some "120") None; shop_rope]
       [mkSale "BILL-1" "Kumar" 20 0 20
               [mkSaleItem "p-1" "Tarpaulin" 2 10 20 20 "12x15" "120"] None]
       []
       (Some (mkDashboardStat 0 62 0 0 0)).

(** A sale of three tarpaulins and the three ropes on hand. *)
Definition c2_request_ok : Sales.Request :=
  Sales.mkRequest (Some "BILL-8") (Some "Kumar") (Parsed 42%Q) (Parsed 0%Q)
    (Parsed 42%Q)
    (Some [sale_line "sku-1" 3; sale_line "sku-2" 3]) None None.

(** The product identifier of a purchase line does not contain the text
    by which the route recognises a rejected transaction. *)
Definition no_marker (item : Purchases.ItemInput) : Prop :=
  includes (nullish (Purchases.item_productId item) "undefined")
           "Transaction numbers are only allowed" = false.

(** Transactions switched on, on a replica set. *)
Definition replica_env : Purchases.Env :=
  Purchases.mkEnv (Some "production") (Some "1") None None
    (Some "ReplicaSetWithPrimary") None None None true.

(** A purchase whose second line names an unknown product. *)
Definition bad_purchase_request : Purchases.Request :=
  Purchases.mkRequest (Some "PO-3") None Absent Absent Absent
    (Some [purchase_line "sku-1" 3; purchase_line "sku-404" 1]).

(** The quantity the lines of a saved Sale record for the product with
    this [_id]. *)
Definition sold_in (lines : list SaleItem) (id : string) : Z :=
  Zsum (map si_quantity (filter (fun li => si_productId li =? id) lines)).

(** A product before a sale and after it: when its stock is one a
    double holds exactly with all the integers below it, the stock it
    lost is the stock the saved lines record for it. *)
Definition sold_from (lines : list SaleItem) (p p' : Product) : Prop :=
  frame_of p' = frame_of p
  /\ (quantity p <= 2 ^ 53 ->
      quantity p = quantity p' + sold_in lines (_id p)).

(** The callback server.js passes to the products router. *)
Definition onProductsChanged : option (M DashboardStat) :=
  Some DashboardMetrics.recalculateDashboardStats.

(** A member that converts, or [d] for one that does not. *)
Definition member {A} (v : MemoryProducts.Json A) (d : A) : A :=
  match v with
  | MemoryProducts.Plain a => a
  | MemoryProducts.Exotic => d
  end.

Definition converts {A} (v : MemoryProducts.Json A) : bool :=
  match v with
  | MemoryProducts.Plain _ => true
  | MemoryProducts.Exotic => false
  end.

(** Every member of the payload that [upsertProduct] converts is a
    primitive value. *)
Definition primitive (raw : MemoryProducts.Payload) : bool :=
  converts (MemoryProducts.raw_name raw)
  && converts (MemoryProducts.raw_sku raw)
  && converts (MemoryProducts.raw_productId raw)
  && converts (MemoryProducts.raw_quantity raw)
  && converts (MemoryProducts.raw_price raw)
  && converts (MemoryProducts.raw_reorderPoint raw)
  && converts (MemoryProducts.raw_size raw)
  && converts (MemoryProducts.raw_gsm raw).

(** The name [upsertProduct] reads from a payload. *)
Definition name_of (raw : MemoryProducts.Payload) : string :=
  normalizeString (member (MemoryProducts.raw_name raw) None).

(** The code [upsertProduct] looks a payload up by. *)
Definition code_of (raw : MemoryProducts.Payload) : string :=
  MemoryProducts.normalizeSku
    (member (MemoryProducts.coalesce (MemoryProducts.raw_sku raw)
                                     (MemoryProducts.raw_productId raw))
            None).

(** The quantity a payload carries for [upsertProduct]. *)
Definition quantity_of (raw : MemoryProducts.Payload) : Z :=
  match member (MemoryProducts.raw_quantity raw) None with
  | None => 0
  | Some v => parseInteger v 0
  end.

(** The stock of an element as the routes read it:
    [parseInteger(existing.quantity, 0)]. *)
Definition stock_read (p : MemoryProducts.Product) : Z :=
  parseInteger (Js.of_number (MemoryProducts.quantity p)) 0.

(** An element of the array without its [updatedAt] stamp. *)
Definition unstamped (p : MemoryProducts.Product) : MemoryProducts.Product :=
  MemoryProducts.mkStored
    (MemoryProducts.id p) (MemoryProducts.name p) (MemoryProducts.sku p)
    (MemoryProducts.productId p) (MemoryProducts.price p)
    (MemoryProducts.quantity p) (MemoryProducts.reorderPoint p)
    (MemoryProducts.size p) (MemoryProducts.gsm p) (MemoryProducts.image p)
    (MemoryProducts.createdAt p) "".

(** The two codes of an element are non-empty and in normal form. *)
Definition coded (p : MemoryProducts.Product) : Prop :=
  MemoryProducts.sku p <> ""
  /\ MemoryProducts.productId p <> ""
  /\ MemoryProducts.normalizeSku (Some (MemoryProducts.sku p))
     = MemoryProducts.sku p
  /\ MemoryProducts.normalizeSku (Some (MemoryProducts.productId p))
     = MemoryProducts.productId p.

(** An array with one element, and two payloads. *)
Definition mem_tarp : MemoryProducts.Product :=
  MemoryProducts.mkStored "u-1" "Tarpaulin" "SKU-1" "SKU-1" 10 5 10 "" ""
                          None "t0" "t0".

Definition payload_tarp : MemoryProducts.Payload :=
  MemoryProducts.mkPayload
    (MemoryProducts.Plain (Some "Tarpaulin"))
    (MemoryProducts.Plain (Some " sku-1 ")) (MemoryProducts.Plain None)
    (MemoryProducts.Plain (Some (Parsed 4)))
    (MemoryProducts.Plain (Parsed 12%Q)) (MemoryProducts.Plain Absent)
    (MemoryProducts.Plain None) (MemoryProducts.Plain None) None.

Definition payload_rope : MemoryProducts.Payload :=
  MemoryProducts.mkPayload
    (MemoryProducts.Plain (Some "Rope"))
    (MemoryProducts.Plain None) (MemoryProducts.Plain (Some "sku-2"))
    (MemoryProducts.Plain None)
    (MemoryProducts.Plain (Parsed 4%Q)) (MemoryProducts.Plain (Parsed 0))
    (MemoryProducts.Plain (Some (Some " 10m "))) (MemoryProducts.Plain None)
    None.

Definition payload_blank : MemoryProducts.Payload :=
  MemoryProducts.mkPayload
    (MemoryProducts.Plain (Some "  "))
    (MemoryProducts.Plain (Some "sku-3")) (MemoryProducts.Plain None)
    (MemoryProducts.Plain None)
    (MemoryProducts.Plain Absent) (MemoryProducts.Plain Absent)
    (MemoryProducts.Plain None) (MemoryProducts.Plain None) None.

(** A payload with a name and a code whose [quantity] is an object with
    a [toString] member. *)
Definition payload_exotic : MemoryProducts.Payload :=
  MemoryProducts.mkPayload
    (MemoryProducts.Plain (Some "Twine"))
    (MemoryProducts.Plain (Some "sku-4")) (MemoryProducts.Plain None)
    MemoryProducts.Exotic
    (MemoryProducts.Plain Absent) (MemoryProducts.Plain Absent)
    (MemoryProducts.Plain None) (MemoryProducts.Plain None) None.

(** A code in the form [normalizeSku] gives, and not empty. *)
Definition normal_code (s : string) : Prop :=
  s <> "" /\ MemoryProducts.normalizeSku (Some s) = s.

(** Requests that store two products and then address the first one. *)
Definition memory_session : list MemoryProducts.Request :=
  [MemoryProducts.Post "u-1" "t1" payload_tarp;
   MemoryProducts.Bulk (fun _ => "u-2") (fun _ => "t2")
     (Some [payload_rope; payload_blank]);
   MemoryProducts.AdjustStock "t3" "SKU-1" (MemoryProducts.Plain (Parsed 3))].

(* ===================================================================== *)
(** ** Lookup                                                             *)
(* ===================================================================== *)

Ltac unfold_monad :=
  unfold bind, ret, throw, with_session, Product_findOne_code,
    Product_findById, Product_find, Product_save in *.

Lemma sales_load_resolve (identifier : option string) (db : DB) :
  Sales.loadProductByIdentifier identifier db
  = (Ok (resolve (inventory db) identifier), db).
Proof.
  unfold Sales.loadProductByIdentifier, resolve.
  destruct (negb (truthy identifier)); [reflexivity|].
  unfold_monad.
  destruct (find _ (inventory db)); [reflexivity|].
  destruct (isObjectIdHex _); reflexivity.
Qed.

Lemma with_session_usable {A} (session : option Session) (op : M A) :
  usable session -> with_session session op = op.
Proof.
  destruct session as [s|]; simpl; [|reflexivity].
  intros ->. reflexivity.
Qed.

Lemma purchases_load_resolve (identifier : option string)
    (session : option Session) (db : DB) :
  usable session ->
  Purchases.loadProductByIdentifier identifier session db
  = (Ok (resolve (inventory db) identifier), db).
Proof.
  intros Hs. unfold Purchases.loadProductByIdentifier, resolve.
  destruct (negb (truthy identifier)); [reflexivity|].
  rewrite !(with_session_usable _ _ Hs).
  unfold_monad.
  destruct (find _ (inventory db)); [reflexivity|].
  destruct (isObjectIdHex _); reflexivity.
Qed.

Lemma purchases_load_rejected (identifier : option string) (db : DB) :
  truthy identifier = true ->
  Purchases.loadProductByIdentifier identifier (Some (mkSession false)) db
  = (Throw TransactionRejected, db).
Proof.
  intros Ht. unfold Purchases.loadProductByIdentifier.
  rewrite Ht. reflexivity.
Qed.

Lemma resolve_truthy (inv : list Product) (identifier : option string)
    (p : Product) :
  resolve inv identifier = Some p -> truthy identifier = true.
Proof.
  unfold resolve. destruct (truthy identifier); [reflexivity|discriminate].
Qed.

Lemma find_some_in {A} (f : A -> bool) (l : list A) (a : A) :
  find f l = Some a -> In a l.
Proof. intros H. apply find_some in H. tauto. Qed.

Lemma resolve_in (inv : list Product) (identifier : option string)
    (p : Product) :
  resolve inv identifier = Some p -> In p inv.
Proof.
  unfold resolve. destruct (negb _); [discriminate|].
  destruct (find _ inv) eqn:E.
  - intros [= <-]. eapply find_some_in; eauto.
  - destruct (isObjectIdHex _); [|discriminate].
    apply find_some_in.
Qed.

(* ===================================================================== *)
(** ** Stock levels as doubles                                            *)
(* ===================================================================== *)

Lemma double_exact (z : Z) : Z.abs z <= 2 ^ 53 -> double z = z.
Proof.
  intros H. unfold double.
  destruct (Z.abs z <? 2 ^ 53)%Z eqn:E; [reflexivity|].
  apply Z.ltb_ge in E.
  assert (Ha : Z.abs z = 2 ^ 53) by lia.
  destruct (Z.abs_eq_or_opp z) as [Hz|Hz]; rewrite Hz in Ha.
  - subst z. reflexivity.
  - assert (z = - 2 ^ 53) by lia. subst z. reflexivity.
Qed.

Lemma double_nonneg (z : Z) : 0 <= z -> 0 <= double z.
Proof.
  intros H. unfold double.
  destruct (Z.abs z <? 2 ^ 53)%Z; [exact H|].
  cbv zeta.
  assert (Hu : 0 <= 2 ^ (Z.log2 (Z.abs z) - 52)) by (apply Z.pow_nonneg; lia).
  assert (Hq : 0 <= Z.abs z / 2 ^ (Z.log2 (Z.abs z) - 52)).
  { apply Z_div_nonneg_nonneg; lia. }
  apply Z.mul_nonneg_nonneg; [lia|].
  apply Z.mul_nonneg_nonneg; [|exact Hu].
  destruct (if (2 * _ <? _)%Z then false else _); lia.
Qed.

Lemma leading_bounds (fuel : nat) :
  forall x, 1 <= x < 10 ^ Z.of_nat (S fuel) -> 1 <= fst (leading fuel x) <= 9.
Proof.
  induction fuel as [|fuel IH]; intros x Hx.
  - change (10 ^ Z.of_nat 1) with 10 in Hx. simpl. lia.
  - cbn [leading]. destruct (x <? 10)%Z eqn:E.
    + apply Z.ltb_lt in E. simpl. lia.
    + apply Z.ltb_ge in E.
      specialize (IH (x / 10)).
      destruct (leading fuel (x / 10)) as [d p]. cbn [fst] in *.
      apply IH. split.
      * apply Z.div_le_lower_bound; lia.
      * apply Z.div_lt_upper_bound; [lia|].
        replace (10 * 10 ^ Z.of_nat (S fuel)) with (10 ^ Z.of_nat (S (S fuel)));
          [lia|].
        rewrite (Nat2Z.inj_succ (S fuel)), Z.pow_succ_r by lia. reflexivity.
Qed.

Lemma first_digit_bounds (x : Z) : 1 <= x -> 1 <= first_digit x <= 9.
Proof.
  intros Hx. unfold first_digit.
  pose proof (leading_bounds (Z.to_nat (Z.log2 x)) x) as H.
  destruct (leading (Z.to_nat (Z.log2 x)) x) as [d p]. cbn [fst] in H.
  assert (Hd : 1 <= d <= 9).
  { apply H. split; [exact Hx|].
    rewrite Nat2Z.inj_succ, Z2Nat.id by apply Z.log2_nonneg.
    destruct (Z.log2_spec x) as [_ Hlt]; [lia|].
    eapply Z.lt_le_trans; [exact Hlt|].
    apply Z.pow_le_mono_l. split; [lia|lia]. }
  destruct (double ((d + 1) * p) =? x)%Z; [|exact Hd].
  destruct (d =? 9)%Z eqn:E; [lia|]. apply Z.eqb_neq in E. lia.
Qed.

Lemma parseInt_number_small (n : Z) :
  Z.abs n < 10 ^ 21 -> parseInt_number n = n.
Proof.
  intros H. unfold parseInt_number.
  apply Z.ltb_lt in H. rewrite H. reflexivity.
Qed.

Lemma parseInt_number_nonneg (n : Z) : 0 <= n -> 0 <= parseInt_number n.
Proof.
  intros H. unfold parseInt_number.
  destruct (Z.abs n <? 10 ^ 21)%Z eqn:E; [exact H|].
  apply Z.ltb_ge in E.
  assert (H21 : 0 < 10 ^ 21) by reflexivity.
  pose proof (first_digit_bounds (Z.abs n)) as Hd.
  apply Z.mul_nonneg_nonneg; lia.
Qed.

Lemma parseInt_number_below (n r : Z) :
  n < r -> 0 < r -> parseInt_number n < r.
Proof.
  intros Hn Hr. unfold parseInt_number.
  destruct (Z.abs n <? 10 ^ 21)%Z eqn:E; [exact Hn|].
  apply Z.ltb_ge in E.
  assert (H21 : 9 < 10 ^ 21) by reflexivity.
  pose proof (first_digit_bounds (Z.abs n)) as Hd.
  destruct (Z.sgn_spec n) as [[Hs ->]|[[Hs ->]|[Hs ->]]]; lia.
Qed.

Lemma parseInt_number_le (n : Z) : 0 <= n -> parseInt_number n <= n.
Proof.
  intros H. unfold parseInt_number.
  destruct (Z.abs n <? 10 ^ 21)%Z eqn:E; [lia|].
  apply Z.ltb_ge in E.
  assert (H21 : 9 < 10 ^ 21) by reflexivity.
  pose proof (first_digit_bounds (Z.abs n)) as Hd.
  destruct (Z.sgn_spec n) as [[Hs ->]|[[Hs ->]|[Hs ->]]]; lia.
Qed.

Lemma on_hand_safe (p : Product) :
  safe_integer (quantity p) -> on_hand p = quantity p.
Proof.
  unfold safe_integer, on_hand, of_number. intros H.
  cbn [parseInteger Number_parse].
  apply parseInt_number_small.
  assert (H21 : 2 ^ 53 < 10 ^ 21) by reflexivity. lia.
Qed.

Lemma on_hand_nonneg (p : Product) : 0 <= quantity p -> 0 <= on_hand p.
Proof. apply parseInt_number_nonneg. Qed.

Lemma on_hand_below (p : Product) (r : Z) :
  quantity p < r -> 0 < r -> on_hand p < r.
Proof. apply parseInt_number_below. Qed.

(** A positive quantity that the stock read covers is covered by the
    stock, and the stock read is the stock when that is at most 2^53. *)
Lemma on_hand_stock (p : Product) (q : Z) :
  0 < q <= on_hand p ->
  q <= quantity p /\ (quantity p <= 2 ^ 53 -> on_hand p = quantity p).
Proof.
  intros [Hq Hle].
  assert (Hp : q <= quantity p).
  { destruct (Z_lt_le_dec (quantity p) q) as [Hlt|Hge]; [|exact Hge].
    pose proof (on_hand_below p q Hlt Hq). lia. }
  split; [exact Hp|].
  intros Hmax. apply on_hand_safe. unfold safe_integer. lia.
Qed.

(* ===================================================================== *)
(** ** One line of a sale                                                 *)
(* ===================================================================== *)

(** A step that throws has written nothing. *)
Lemma saleItem_throw_unchanged (i : nat) (item : Sales.ItemInput)
    (db db' : DB) (e : Error) :
  Sales.saleItem i item db = (Throw e, db') -> db' = db.
Proof.
  unfold Sales.saleItem.
  destruct (negb _); [unfold throw; congruence|].
  destruct (_ <=? 0)%Z; [unfold throw; congruence|].
  unfold bind at 1. rewrite sales_load_resolve.
  destruct (resolve _ _) as [p|]; [|unfold throw; congruence].
  destruct (_ <? _)%Z; [unfold throw; congruence|].
  unfold_monad. discriminate.
Qed.

(** What an accepted line did. *)
Lemma saleItem_inv (i : nat) (item : Sales.ItemInput) (db db' : DB)
    (p' : Product) (li : SaleItem) :
  Sales.saleItem i item db = (Ok (p', li), db') ->
  exists p,
    resolve (inventory db) (Sales.item_productId item) = Some p
    /\ 0 < parseInteger (Sales.item_quantity item) 0 <= on_hand p
    /\ frame_of p' = frame_of p
    /\ quantity p'
       = Js.minus (on_hand p) (parseInteger (Sales.item_quantity item) 0)
    /\ db' = set_inventory db (replace_product p' (inventory db))
    /\ si_quantity li = parseInteger (Sales.item_quantity item) 0
    /\ si_price li
       = (if Qpositive (parseNumber (Sales.item_price item) 0)
          then parseNumber (Sales.item_price item) 0 else price p)
    /\ si_total li
       = ((if Qpositive (parseNumber (Sales.item_pricePerQuantity item) 0)
           then parseNumber (Sales.item_pricePerQuantity item) 0
           else si_price li) * inject_Z (si_quantity li))%Q.
Proof.
  unfold Sales.saleItem.
  destruct (negb _); [unfold throw; congruence|].
  destruct (_ <=? 0)%Z eqn:Hq; [unfold throw; congruence|].
  unfold bind at 1. rewrite sales_load_resolve.
  destruct (resolve _ _) as [p|] eqn:Hr; [|unfold throw; congruence].
  fold (on_hand p).
  destruct (_ <? _)%Z eqn:Hs; [unfold throw; congruence|].
  unfold_monad. intros [= <- <- <-].
  exists p. simpl.
  apply Z.leb_gt in Hq. apply Z.ltb_ge in Hs.
  repeat split; auto; lia.
Qed.


(** A line that asks for more than the stock is refused. *)
Lemma saleItem_insufficient (i : nat) (item : Sales.ItemInput) (db : DB)
    (p : Product) :
  resolve (inventory db) (Sales.item_productId item) = Some p ->
  0 < parseInteger (Sales.item_quantity item) 0 ->
  quantity p < parseInteger (Sales.item_quantity item) 0 ->
  Sales.saleItem i item db = (Throw (InsufficientStock (name p)), db).
Proof.
  intros Hr Hq Hs. unfold Sales.saleItem.
  rewrite (resolve_truthy _ _ _ Hr). cbn [negb].
  pose proof (on_hand_below p _ Hs Hq) as Hs'.
  apply Z.leb_gt in Hq.
  rewrite Hq. cbv iota. unfold bind at 1. rewrite sales_load_resolve, Hr.
  fold (on_hand p).
  apply Z.ltb_lt in Hs'. rewrite Hs'. reflexivity.
Qed.

(** A well-formed line whose product is unknown is refused. *)
Lemma saleItem_not_found (i : nat) (item : Sales.ItemInput) (db : DB) :
  truthy (Sales.item_productId item) = true ->
  0 < parseInteger (Sales.item_quantity item) 0 ->
  resolve (inventory db) (Sales.item_productId item) = None ->
  Sales.saleItem i item db
  = (Throw (ProductNotFound (Sales.item_productId item)), db).
Proof.
  intros Ht Hq Hr. unfold Sales.saleItem.
  rewrite Ht. cbn [negb]. apply Z.leb_gt in Hq.
  rewrite Hq. cbv iota. unfold bind at 1. rewrite sales_load_resolve, Hr.
  reflexivity.
Qed.

(* ===================================================================== *)
(** ** The loop of persistSale                                            *)
(* ===================================================================== *)

Lemma saleLoop_cons (i : nat) (item : Sales.ItemInput)
    (rest : list Sales.ItemInput) (ups : list Product) (nis : list SaleItem)
    (db : DB) :
  Sales.saleLoop i (item :: rest) ups nis db
  = match Sales.saleItem i item db with
    | (Ok r, db1) =>
        Sales.saleLoop (S i) rest (ups ++ [fst r]) (nis ++ [snd r]) db1
    | (Throw e, db1) => (Throw e, db1)
    end.
Proof. reflexivity. Qed.

(** Running a batch is running its first part, then the rest. *)
Lemma saleLoop_app (pre post : list Sales.ItemInput) :
  forall (i : nat) (ups : list Product) (nis : list SaleItem) (db : DB),
    Sales.saleLoop i (pre ++ post) ups nis db
    = match Sales.saleLoop i pre ups nis db with
      | (Ok r, db1) =>
          Sales.saleLoop (i + List.length pre) post (fst r) (snd r) db1
      | (Throw e, db1) => (Throw e, db1)
      end.
Proof.
  induction pre as [|item pre IH]; intros i ups nis db.
  - simpl. unfold ret. rewrite Nat.add_0_r. reflexivity.
  - rewrite <- app_comm_cons, !saleLoop_cons.
    destruct (Sales.saleItem i item db) as [[r|e] db1]; [|reflexivity].
    rewrite IH. simpl List.length. rewrite Nat.add_succ_r. reflexivity.
Qed.

(** A property of the product collection that every line keeps is kept
    by the loop, whether it returns or throws. *)
Lemma saleLoop_preserves (P : list Product -> Prop) :
  (forall i item db r db',
      P (inventory db) -> Sales.saleItem i item db = (r, db') ->
      P (inventory db')) ->
  forall items i ups nis db r db',
    P (inventory db) -> Sales.saleLoop i items ups nis db = (r, db') ->
    P (inventory db').
Proof.
  intros Hstep. induction items as [|item rest IH]; intros i ups nis db r db' HP.
  - simpl. unfold ret. intros [= <- <-]. exact HP.
  - rewrite saleLoop_cons.
    destruct (Sales.saleItem i item db) as [[r1|e] db1] eqn:E.
    + apply IH. eapply Hstep; eauto.
    + intros [= <- <-]. eapply Hstep; eauto.
Qed.

(** The loop writes products only, and exactly the ones it reports, in
    the order it reports them. *)
Lemma saleLoop_writes :
  forall items i ups nis db ups' nis' db',
    Sales.saleLoop i items ups nis db = (Ok (ups', nis'), db') ->
    exists added,
      ups' = (ups ++ added)%list
      /\ inventory db' = apply_saves added (inventory db)
      /\ sales db' = sales db
      /\ purchases db' = purchases db
      /\ dashboard_stats db' = dashboard_stats db.
Proof.
  induction items as [|item rest IH]; intros i ups nis db ups' nis' db'.
  - simpl. unfold ret. intros [= <- <- <-].
    exists []. rewrite app_nil_r. repeat split.
  - rewrite saleLoop_cons.
    destruct (Sales.saleItem i item db) as [[[p' li]|e] db1] eqn:E;
      [|discriminate].
    intros H. apply IH in H. destruct H as (added & -> & Hinv & Hs & Hp & Hd).
    apply saleItem_inv in E. destruct E as (p & _ & _ & _ & _ & -> & _).
    exists (p' :: added). simpl fst. rewrite <- app_assoc. simpl.
    repeat split; assumption.
Qed.

(** A loop that throws stopped at its first refused line. *)
Lemma saleLoop_throws :
  forall items i ups nis db e db',
    Sales.saleLoop i items ups nis db = (Throw e, db') ->
    exists pre item post r,
      items = (pre ++ item :: post)%list
      /\ Sales.saleLoop i pre ups nis db = (Ok r, db')
      /\ Sales.saleItem (i + List.length pre) item db' = (Throw e, db').
Proof.
  induction items as [|item rest IH]; intros i ups nis db e db'.
  - simpl. unfold ret. discriminate.
  - rewrite saleLoop_cons.
    destruct (Sales.saleItem i item db) as [[r1|e1] db1] eqn:E.
    + intros H. apply IH in H.
      destruct H as (pre & item' & post & r & -> & Hpre & Hitem).
      exists (item :: pre), item', post, r. repeat split.
      * rewrite saleLoop_cons, E. exact Hpre.
      * simpl List.length. rewrite Nat.add_succ_r. exact Hitem.
    + intros [= <- <-].
      pose proof (saleItem_throw_unchanged _ _ _ _ _ E) as ->.
      exists [], item, rest, (ups, nis). repeat split.
      rewrite Nat.add_0_r. exact E.
Qed.

Lemma persistSale_unfold (body : Sales.Body) (db : DB) :
  Sales.persistSale body db
  = match Sales.saleLoop 0 (Sales.b_items body) [] [] db with
    | (Ok r, db1) =>
        let sale :=
          mkSale (normalizeString (Sales.b_billId body))
                 (normalizeString (Sales.b_customerName body))
                 (parseNumber (Sales.b_subtotal body) 0)
                 (parseNumber (Sales.b_tax body) 0)
                 (parseNumber (Sales.b_total body) 0)
                 (snd r)
                 (Sales.createdAt_of (Sales.b_date body)
                                     (Sales.b_invoiceDate body)) in
        if normalizeString (Sales.b_billId body) =? ""
        then (Throw (RequiredPath "Sale" "billId"), db1)
        else (Ok (sale, fst r),
              mkDB (inventory db1) (sales db1 ++ [sale]) (purchases db1)
                   (dashboard_stats db1))
    | (Throw e, db1) => (Throw e, db1)
    end.
Proof.
  unfold Sales.persistSale. unfold bind at 1.
  destruct (Sales.saleLoop _ _ _ _ _) as [[r|e] db1]; [|reflexivity].
  unfold bind, Sale_save, ret. simpl sale_billId.
  destruct (_ =? _); reflexivity.
Qed.

(** [persistSale] leaves the product collection as its loop left it. *)
Lemma persistSale_inventory (body : Sales.Body) (db : DB) :
  inventory (snd (Sales.persistSale body db))
  = inventory (snd (Sales.saleLoop 0 (Sales.b_items body) [] [] db)).
Proof.
  rewrite persistSale_unfold.
  destruct (Sales.saleLoop _ _ _ _ _) as [[r|e] db1]; [|reflexivity].
  cbv zeta. destruct (_ =? _); reflexivity.
Qed.

(** The dashboard refresh does not touch the product collection. *)
Lemma recalculate_total (db : DB) :
  exists stats,
    DashboardMetrics.recalculateDashboardStats db
    = (Ok stats, mkDB (inventory db) (sales db) (purchases db) (Some stats)).
Proof.
  unfold DashboardMetrics.recalculateDashboardStats,
    DashboardMetrics.buildInventorySnapshot,
    DashboardMetrics.buildSalesSnapshot,
    DashboardMetrics.buildPurchasesSnapshot,
    DashboardMetrics.DashboardStat_put.
  unfold_monad. eexists. reflexivity.
Qed.

Lemma increment_keeps_collections (a b : Raw Q) (db : DB) :
  exists r d,
    DashboardMetrics.incrementDashboardCounters a b db
    = (Ok r, mkDB (inventory db) (sales db) (purchases db) d).
Proof.
  unfold DashboardMetrics.incrementDashboardCounters.
  destruct (Qeq_bool _ 0); destruct (_ =? 0)%Z;
    try (eexists _, _; reflexivity).
  exists (dashboard_stats db), (dashboard_stats db). destruct db; reflexivity.
Qed.

Lemma sales_refresh_inventory (NODE_ENV : option string) (sale : Sale)
    (db : DB) :
  inventory (snd (Sales.refreshDashboard NODE_ENV sale db)) = inventory db
  /\ sales (snd (Sales.refreshDashboard NODE_ENV sale db)) = sales db.
Proof.
  unfold Sales.refreshDashboard.
  destruct (not_test NODE_ENV); [|split; reflexivity].
  unfold bind.
  destruct (increment_keeps_collections
              (Parsed (sale_total sale)) (Parsed 1%Q) db) as (r & d & ->).
  destruct (recalculate_total
              (mkDB (inventory db) (sales db) (purchases db) d))
    as (stats & ->).
  split; reflexivity.
Qed.

Lemma purchases_refresh_inventory (env : Purchases.Env) (db : DB) :
  inventory (snd (Purchases.refreshDashboard env db)) = inventory db
  /\ purchases (snd (Purchases.refreshDashboard env db)) = purchases db.
Proof.
  unfold Purchases.refreshDashboard.
  destruct (not_test _); [|split; reflexivity].
  destruct (recalculate_total db) as (stats & ->).
  split; reflexivity.
Qed.

(* ===================================================================== *)
(** ** Over-stock sales (C1)                                              *)
(* ===================================================================== *)


(** The two other ways in which C1, as stated, fails.  With a stock
    below zero, a line that asks for more than the stock but for nothing
    positive is refused by the [quantity > 0] guard, not for
    insufficient stock. *)
Lemma over_stock_request_not_positive :
  resolve (inventory c1_negative_db) (Some "SKU-1") = Some c1_negative_product
  /\ quantity c1_negative_product < -3
  /\ Sales.persistSale (c1_body_asking (-3)) c1_negative_db
     = (Throw (ItemQuantityInvalid 0), c1_negative_db).
Proof. repeat split. Qed.

(** From 10^21 on, the stock is read back from its text in exponent
    notation ("1e+21" reads 1): a line that asks for exactly the stock
    is refused for insufficient stock. *)
Lemma over_stock_exponent_notation :
  resolve (inventory c1_huge_db) (Some "SKU-1") = Some c1_huge_product
  /\ on_hand c1_huge_product = 1
  /\ Sales.persistSale (c1_body_asking (quantity c1_huge_product)) c1_huge_db
     = (Throw (InsufficientStock "Tarpaulin"), c1_huge_db).
Proof. repeat split. Qed.



(* ===================================================================== *)
(** ** A sale that fails midway (C2)                                      *)
(* ===================================================================== *)

(** Past its two guards, the route answers from [persistSale]. *)
Lemma sales_post_unfold (NODE_ENV : option string) (req : Sales.Request)
    (items : list Sales.ItemInput) (db : DB) :
  truthy (Sales.billId req) = true ->
  Sales.items req = Some items ->
  items <> [] ->
  Sales.post NODE_ENV req db
  = match Sales.persistSale (body_of_request req items) db with
    | (Ok result, db1) =>
        let (dashboardStats, db2) :=
          Sales.refreshDashboard NODE_ENV (fst result) db1 in
        (mkResponse 201
           (SaleCreated (fst result) (snd result) dashboardStats), db2)
    | (Throw err, db1) => (mkResponse 500 (ErrorBody (error_text err)), db1)
    end.
Proof.
  intros Hb Hi Hne. unfold Sales.post. rewrite Hb, Hi. cbn [negb].
  destruct items; [contradiction|reflexivity].
Qed.

Lemma error_text_message (e : Error) : error_text e = message e.
Proof.
  unfold error_text.
  destruct e as [i|i|pid|nm|m pth|]; try reflexivity.
  destruct m; reflexivity.
Qed.

(** C2.  When the lines before line [i] of a sale were processed and the
    well-formed line [i] is refused, because its product is not found or
    is short of stock, [persistSale] throws that error, the route answers
    500 with its message, every write of the earlier lines is still in
    the store (in the order it was made) and the sales collection has no
    new record. *)
Theorem sale_failure_keeps_earlier_writes
    (NODE_ENV : option string) (req : Sales.Request)
    (pre post : list Sales.ItemInput) (item : Sales.ItemInput)
    (ups : list Product) (nis : list SaleItem) (db db1 : DB) :
  truthy (Sales.billId req) = true ->
  Sales.items req = Some (pre ++ item :: post)%list ->
  Sales.saleLoop 0 pre [] [] db = (Ok (ups, nis), db1) ->
  truthy (Sales.item_productId item) = true ->
  0 < parseInteger (Sales.item_quantity item) 0 ->
  resolve (inventory db1) (Sales.item_productId item) = None
  \/ (exists p,
        resolve (inventory db1) (Sales.item_productId item) = Some p
        /\ quantity p < parseInteger (Sales.item_quantity item) 0) ->
  exists e,
    (e = ProductNotFound (Sales.item_productId item)
     \/ exists p, e = InsufficientStock (name p))
    /\ Sales.persistSale (body_of_request req (pre ++ item :: post)) db
       = (Throw e, db1)
    /\ Sales.post NODE_ENV req db
       = (mkResponse 500 (ErrorBody (message e)), db1)
    /\ inventory db1 = apply_saves ups (inventory db)
    /\ sales db1 = sales db.
Proof.
  intros Hb Hi Hpre Ht Hq Hcause.
  assert (Hitem : exists e,
             (e = ProductNotFound (Sales.item_productId item)
              \/ exists p, e = InsufficientStock (name p))
             /\ Sales.saleItem (List.length pre) item db1 = (Throw e, db1)).
  { destruct Hcause as [Hnone|(p & Hsome & Hshort)].
    - eexists. split; [left; reflexivity|].
      apply saleItem_not_found; assumption.
    - eexists. split; [right; exists p; reflexivity|].
      apply saleItem_insufficient; assumption. }
  destruct Hitem as (e & He & Hitem). exists e. split; [exact He|].
  assert (Hp : Sales.persistSale (body_of_request req (pre ++ item :: post)) db
               = (Throw e, db1)).
  { rewrite persistSale_unfold. cbn [body_of_request Sales.b_items].
    rewrite saleLoop_app, Hpre. cbn [fst snd]. rewrite Nat.add_0_l.
    rewrite saleLoop_cons, Hitem. reflexivity. }
  split; [exact Hp|]. split.
  - rewrite (sales_post_unfold NODE_ENV req (pre ++ item :: post) db Hb Hi)
      by (destruct pre; discriminate).
    rewrite Hp, error_text_message. reflexivity.
  - pose proof (saleLoop_writes _ _ _ _ _ _ _ _ Hpre)
      as (added & Hups & Hinv & Hsales & _).
    cbn in Hups. subst added. split; assumption.
Qed.

(** C2 on a batch whose third line asks for three ropes when the second
    line has left two: the two earlier deductions stay. *)
Lemma sale_failure_keeps_earlier_writes_witness :
  Sales.post None c2_request shop
  = (mkResponse 500 (ErrorBody "Insufficient stock for product Rope"),
     set_inventory shop
       [mkProduct "p-1" "Tarpaulin" "SKU-1" "SKU-1" 10 3 2 (Some "12x15")
                  (Some "120") None;
        mkProduct "p-2" "Rope" "SKU-2" "SKU-2" 4 2 10 None None None]).
Proof.
  destruct (sale_failure_keeps_earlier_writes None c2_request
              [sale_line "sku-1" 2; sale_line "sku-2" 1] []
              (sale_line "sku-2" 3)
              [mkProduct "p-1" "Tarpaulin" "SKU-1" "SKU-1" 10 3 2
                         (Some "12x15") (Some "120") None;
               mkProduct "p-2" "Rope" "SKU-2" "SKU-2" 4 2 10 None None None]
              [mkSaleItem "p-1" "Tarpaulin" 2 10 (10 * inject_Z 2)
                          (10 * inject_Z 2) "12x15" "120";
               mkSaleItem "p-2" "Rope" 1 4 (4 * inject_Z 1)
                          (4 * inject_Z 1) "" ""]
              shop
              (set_inventory shop
                 [mkProduct "p-1" "Tarpaulin" "SKU-1" "SKU-1" 10 3 2
                            (Some "12x15") (Some "120") None;
                  mkProduct "p-2" "Rope" "SKU-2" "SKU-2" 4 2 10 None None
                            None])
              eq_refl eq_refl eq_refl eq_refl)
    as (e & He & Hp & Hpost & _).
  - cbn. lia.
  - right. eexists. split; [reflexivity|]. cbn. lia.
  - rewrite Hpost. vm_compute in Hp. injection Hp as <-. reflexivity.
Defined.

(* ===================================================================== *)
(** ** One line of a purchase, and the loop of persistPurchase            *)
(* ===================================================================== *)

Lemma usable_cases (session : option Session) :
  usable session \/ session = Some (mkSession false).
Proof.
  destruct session as [[[|]]|]; simpl; auto.
Qed.

(** On a session the server rejects, a line throws before any write. *)
Lemma purchaseItem_rejected (i : nat) (item : Purchases.ItemInput) (db : DB) :
  exists e, Purchases.purchaseItem (Some (mkSession false)) i item db
            = (Throw e, db).
Proof.
  unfold Purchases.purchaseItem.
  destruct (truthy _) eqn:Ht; cbn [negb]; [|eexists; reflexivity].
  destruct (_ <=? 0)%Z; [eexists; reflexivity|].
  unfold bind at 1. rewrite purchases_load_rejected by exact Ht.
  eexists; reflexivity.
Qed.

Lemma purchaseItem_throw_unchanged (session : option Session) (i : nat)
    (item : Purchases.ItemInput) (db db' : DB) (e : Error) :
  Purchases.purchaseItem session i item db = (Throw e, db') -> db' = db.
Proof.
  destruct (usable_cases session) as [Hs| ->].
  - unfold Purchases.purchaseItem.
    destruct (negb _); [unfold throw; congruence|].
    destruct (_ <=? 0)%Z; [unfold throw; congruence|].
    unfold bind at 1. rewrite purchases_load_resolve by exact Hs.
    destruct (resolve _ _) as [p|]; [|unfold throw; congruence].
    rewrite with_session_usable by exact Hs.
    unfold_monad. discriminate.
  - destruct (purchaseItem_rejected i item db) as (e' & ->). congruence.
Qed.

(** What an accepted purchase line did: the quantity is added, with no
    test against the stock. *)
Lemma purchaseItem_inv (session : option Session) (i : nat)
    (item : Purchases.ItemInput) (db db' : DB) (p' : Product)
    (li : PurchaseItem) :
  Purchases.purchaseItem session i item db = (Ok (p', li), db') ->
  exists p,
    resolve (inventory db) (Purchases.item_productId item) = Some p
    /\ 0 < parseInteger (Purchases.item_quantity item) 0
    /\ frame_of p' = frame_of p
    /\ quantity p'
       = Js.plus (on_hand p) (parseInteger (Purchases.item_quantity item) 0)
    /\ db' = set_inventory db (replace_product p' (inventory db))
    /\ pi_quantity li = parseInteger (Purchases.item_quantity item) 0.
Proof.
  destruct (usable_cases session) as [Hs| ->].
  - unfold Purchases.purchaseItem.
    destruct (negb _); [unfold throw; congruence|].
    destruct (_ <=? 0)%Z eqn:Hq; [unfold throw; congruence|].
    unfold bind at 1. rewrite purchases_load_resolve by exact Hs.
    destruct (resolve _ _) as [p|] eqn:Hr; [|unfold throw; congruence].
    rewrite with_session_usable by exact Hs.
    fold (on_hand p).
    unfold_monad. intros [= <- <- <-].
    exists p. simpl. apply Z.leb_gt in Hq.
    repeat split; auto.
  - destruct (purchaseItem_rejected i item db) as (e' & ->). discriminate.
Qed.

(** A well-formed purchase line whose product is known is accepted,
    whatever the stock. *)
Lemma purchaseItem_accepts (session : option Session) (i : nat)
    (item : Purchases.ItemInput) (db : DB) (p : Product) :
  usable session ->
  resolve (inventory db) (Purchases.item_productId item) = Some p ->
  0 < parseInteger (Purchases.item_quantity item) 0 ->
  exists p' li,
    Purchases.purchaseItem session i item db
    = (Ok (p', li), set_inventory db (replace_product p' (inventory db)))
    /\ frame_of p' = frame_of p
    /\ quantity p'
       = Js.plus (on_hand p) (parseInteger (Purchases.item_quantity item) 0).
Proof.
  intros Hs Hr Hq. unfold Purchases.purchaseItem.
  rewrite (resolve_truthy _ _ _ Hr). cbn [negb].
  apply Z.leb_gt in Hq. rewrite Hq. cbv iota.
  unfold bind at 1. rewrite purchases_load_resolve by exact Hs.
  rewrite Hr. rewrite with_session_usable by exact Hs.
  fold (on_hand p).
  unfold_monad. eexists _, _. repeat split; reflexivity.
Qed.

Lemma purchaseLoop_cons (session : option Session) (i : nat)
    (item : Purchases.ItemInput) (rest : list Purchases.ItemInput)
    (ups : list Product) (nis : list PurchaseItem) (db : DB) :
  Purchases.purchaseLoop session i (item :: rest) ups nis db
  = match Purchases.purchaseItem session i item db with
    | (Ok r, db1) =>
        Purchases.purchaseLoop session (S i) rest (ups ++ [fst r])
                               (nis ++ [snd r]) db1
    | (Throw e, db1) => (Throw e, db1)
    end.
Proof. reflexivity. Qed.


Lemma purchaseLoop_preserves (session : option Session)
    (P : list Product -> Prop) :
  (forall i item db r db',
      P (inventory db) ->
      Purchases.purchaseItem session i item db = (r, db') ->
      P (inventory db')) ->
  forall items i ups nis db r db',
    P (inventory db) ->
    Purchases.purchaseLoop session i items ups nis db = (r, db') ->
    P (inventory db').
Proof.
  intros Hstep. induction items as [|item rest IH]; intros i ups nis db r db' HP.
  - simpl. unfold ret. intros [= <- <-]. exact HP.
  - rewrite purchaseLoop_cons.
    destruct (Purchases.purchaseItem session i item db) as [[r1|e] db1] eqn:E.
    + apply IH. eapply Hstep; eauto.
    + intros [= <- <-]. eapply Hstep; eauto.
Qed.

Lemma purchaseLoop_writes (session : option Session) :
  forall items i ups nis db ups' nis' db',
    Purchases.purchaseLoop session i items ups nis db
    = (Ok (ups', nis'), db') ->
    exists added,
      ups' = (ups ++ added)%list
      /\ inventory db' = apply_saves added (inventory db)
      /\ sales db' = sales db
      /\ purchases db' = purchases db
      /\ dashboard_stats db' = dashboard_stats db.
Proof.
  induction items as [|item rest IH]; intros i ups nis db ups' nis' db'.
  - simpl. unfold ret. intros [= <- <- <-].
    exists []. rewrite app_nil_r. repeat split.
  - rewrite purchaseLoop_cons.
    destruct (Purchases.purchaseItem session i item db)
      as [[[p' li]|e] db1] eqn:E; [|discriminate].
    intros H. apply IH in H. destruct H as (added & -> & Hinv & Hs & Hp & Hd).
    apply purchaseItem_inv in E. destruct E as (p & _ & _ & _ & _ & -> & _).
    exists (p' :: added). simpl fst. rewrite <- app_assoc. simpl.
    repeat split; assumption.
Qed.

Lemma purchaseLoop_throws (session : option Session) :
  forall items i ups nis db e db',
    Purchases.purchaseLoop session i items ups nis db = (Throw e, db') ->
    exists pre item post r,
      items = (pre ++ item :: post)%list
      /\ Purchases.purchaseLoop session i pre ups nis db = (Ok r, db')
      /\ Purchases.purchaseItem session (i + List.length pre) item db'
         = (Throw e, db').
Proof.
  induction items as [|item rest IH]; intros i ups nis db e db'.
  - simpl. unfold ret. discriminate.
  - rewrite purchaseLoop_cons.
    destruct (Purchases.purchaseItem session i item db) as [[r1|e1] db1] eqn:E.
    + intros H. apply IH in H.
      destruct H as (pre & item' & post & r & -> & Hpre & Hitem).
      exists (item :: pre), item', post, r. repeat split.
      * rewrite purchaseLoop_cons, E. exact Hpre.
      * simpl List.length. rewrite Nat.add_succ_r. exact Hitem.
    + intros [= <- <-].
      pose proof (purchaseItem_throw_unchanged _ _ _ _ _ _ E) as ->.
      exists [], item, rest, (ups, nis). repeat split.
      rewrite Nat.add_0_r. exact E.
Qed.

Lemma persistPurchase_unfold (body : Purchases.Body)
    (session : option Session) (db : DB) :
  Purchases.persistPurchase body session db
  = match Purchases.purchaseLoop session 0 (Purchases.b_items body) [] [] db
    with
    | (Ok r, db1) =>
        let purchase :=
          mkPurchase (normalizeString (Purchases.b_billId body))
                     (Purchases.supplier_or_default
                        (Purchases.b_supplierName body))
                     (parseNumber (Purchases.b_subtotal body) 0)
                     (parseNumber (Purchases.b_tax body) 0)
                     (parseNumber (Purchases.b_total body) 0)
                     (snd r) in
        match with_session session (Purchase_save purchase) db1 with
        | (Ok _, db2) => (Ok (purchase, fst r), db2)
        | (Throw e, db2) => (Throw e, db2)
        end
    | (Throw e, db1) => (Throw e, db1)
    end.
Proof.
  unfold Purchases.persistPurchase. unfold bind at 1.
  destruct (Purchases.purchaseLoop _ _ _ _ _ _) as [[r|e] db1]; [|reflexivity].
  unfold bind, ret. reflexivity.
Qed.

Lemma Purchase_save_inventory (session : option Session)
    (purchase : Purchase) (db : DB) :
  inventory (snd (with_session session (Purchase_save purchase) db))
  = inventory db.
Proof.
  unfold with_session, Purchase_save, throw.
  destruct session as [[[|]]|]; cbn [accepts_transactions];
    try destruct (_ =? _); reflexivity.
Qed.

Lemma persistPurchase_inventory (body : Purchases.Body)
    (session : option Session) (db : DB) :
  inventory (snd (Purchases.persistPurchase body session db))
  = inventory (snd (Purchases.purchaseLoop session 0
                      (Purchases.b_items body) [] [] db)).
Proof.
  rewrite persistPurchase_unfold.
  destruct (Purchases.purchaseLoop _ _ _ _ _ _) as [[r|e] db1]; [|reflexivity].
  cbv zeta.
  match goal with
  | |- context [with_session session (Purchase_save ?pu) db1] =>
      pose proof (Purchase_save_inventory session pu db1) as H;
      destruct (with_session session (Purchase_save pu) db1) as [[u|e] db2]
  end; exact H.
Qed.

(* ===================================================================== *)
(** ** Properties of the product collection kept by a whole request       *)
(* ===================================================================== *)

Section Preservation.

Variable P : list Product -> Prop.

Lemma persistSale_preserves :
  (forall i item db r db',
      P (inventory db) -> Sales.saleItem i item db = (r, db') ->
      P (inventory db')) ->
  forall body db,
    P (inventory db) -> P (inventory (snd (Sales.persistSale body db))).
Proof.
  intros Hstep body db HP. rewrite persistSale_inventory.
  destruct (Sales.saleLoop 0 (Sales.b_items body) [] [] db) as [r db'] eqn:E.
  eapply saleLoop_preserves; eauto.
Qed.

Lemma sales_post_preserves :
  (forall i item db r db',
      P (inventory db) -> Sales.saleItem i item db = (r, db') ->
      P (inventory db')) ->
  forall NODE_ENV req db,
    P (inventory db) -> P (inventory (snd (Sales.post NODE_ENV req db))).
Proof.
  intros Hstep NODE_ENV req db HP. unfold Sales.post.
  destruct (negb _); [exact HP|].
  destruct (Sales.items req) as [[|item rest]|]; try exact HP.
  match goal with
  | |- context [Sales.persistSale ?b db] =>
      pose proof (persistSale_preserves Hstep b db HP) as H;
      destruct (Sales.persistSale b db) as [[result|err] db1]
  end; [|exact H].
  pose proof (sales_refresh_inventory NODE_ENV (fst result) db1) as [Hi _].
  destruct (Sales.refreshDashboard NODE_ENV (fst result) db1) as [d db2].
  cbn [snd] in *. rewrite Hi. exact H.
Qed.

Lemma persistPurchase_preserves :
  (forall session i item db r db',
      P (inventory db) ->
      Purchases.purchaseItem session i item db = (r, db') ->
      P (inventory db')) ->
  forall body session db,
    P (inventory db) ->
    P (inventory (snd (Purchases.persistPurchase body session db))).
Proof.
  intros Hstep body session db HP. rewrite persistPurchase_inventory.
  destruct (Purchases.purchaseLoop session 0 (Purchases.b_items body) [] [] db)
    as [r db'] eqn:E.
  eapply purchaseLoop_preserves; eauto.
Qed.

Lemma purchases_created_inventory (env : Purchases.Env)
    (result : Purchase * list Product) (db : DB) :
  inventory (snd (Purchases.created env result db)) = inventory db.
Proof.
  unfold Purchases.created.
  pose proof (purchases_refresh_inventory env db) as [Hi _].
  destruct (Purchases.refreshDashboard env db) as [d db']. exact Hi.
Qed.

Lemma purchases_post_preserves :
  (forall session i item db r db',
      P (inventory db) ->
      Purchases.purchaseItem session i item db = (r, db') ->
      P (inventory db')) ->
  forall env req db,
    P (inventory db) -> P (inventory (snd (Purchases.post env req db))).
Proof.
  intros Hstep env req db HP. unfold Purchases.post.
  destruct (negb _); [exact HP|].
  destruct (Purchases.items req) as [[|item rest]|]; try exact HP.
  cbv zeta.
  match goal with
  | |- context [Purchases.persistPurchase ?b ?s db] =>
      pose proof (persistPurchase_preserves Hstep b s db HP) as H;
      destruct (Purchases.persistPurchase b s db) as [[result|err] db1];
      set (body := b) in *; set (session := s) in *
  end.
  - rewrite purchases_created_inventory. exact H.
  - assert (Ha : P (inventory (match session with
                               | Some _ => db
                               | None => db1
                               end)))
      by (destruct session; assumption).
    destruct (andb _ (includes _ _)); [|exact Ha].
    match goal with
    | |- context [Purchases.persistPurchase body None ?d] =>
        pose proof (persistPurchase_preserves Hstep body None d Ha) as H2;
        destruct (Purchases.persistPurchase body None d)
          as [[result2|err2] db2]
    end; [|exact H2].
    rewrite purchases_created_inventory. exact H2.
Qed.

End Preservation.

(* ===================================================================== *)
(** ** Writes in place, under the unique index on _id                     *)
(* ===================================================================== *)

Lemma replace_product_ids (product : Product) (inv : list Product) :
  map _id (replace_product product inv) = map _id inv.
Proof.
  unfold replace_product. rewrite map_map. apply map_ext.
  intros a. destruct (_id a =? _id product) eqn:E; [|reflexivity].
  apply String.eqb_eq in E. congruence.
Qed.

Lemma unique_ids_inj (inv : list Product) (a b : Product) :
  unique_ids inv -> In a inv -> In b inv -> _id a = _id b -> a = b.
Proof.
  unfold unique_ids. induction inv as [|x inv IH]; simpl; [tauto|].
  intros Hnd Ha Hb Hid. apply NoDup_cons_iff in Hnd. destruct Hnd as [Hx Hnd].
  destruct Ha as [->|Ha], Hb as [->|Hb]; auto.
  - exfalso. apply Hx. rewrite Hid. apply in_map. exact Hb.
  - exfalso. apply Hx. rewrite <- Hid. apply in_map. exact Ha.
Qed.

Lemma replace_product_tracks_part (R : Product -> Product -> Prop)
    (inv : list Product) (p p' : Product) :
  unique_ids inv -> In p inv -> _id p' = _id p ->
  (forall a0, R a0 p -> R a0 p') ->
  forall l l0,
    incl l inv -> Forall2 R l0 l -> Forall2 R l0 (replace_product p' l).
Proof.
  intros Hu Hin Hid Hstep.
  induction l as [|a l IH]; intros l0 Hsub Hall;
    inversion Hall as [|a0 ? l0' ? Ha Hall']; subst; simpl.
  - constructor.
  - constructor.
    + destruct (_id a =? _id p') eqn:E; [|exact Ha].
      apply String.eqb_eq in E.
      assert (a = p) as ->.
      { apply (unique_ids_inj inv); auto.
        - apply Hsub. left. reflexivity.
        - congruence. }
      apply Hstep. exact Ha.
    + apply IH; [|exact Hall']. intros b Hb. apply Hsub. right. exact Hb.
Qed.

(** Saving a changed copy [p'] of a stored product [p] changes the
    document of [p] and no other: a relation to an earlier state of the
    collection that survives the change of [p] survives the save. *)
Lemma replace_product_tracks (R : Product -> Product -> Prop)
    (inv0 inv : list Product) (p p' : Product) :
  unique_ids inv -> In p inv -> _id p' = _id p ->
  (forall a0, R a0 p -> R a0 p') ->
  Forall2 R inv0 inv ->
  unique_ids (replace_product p' inv)
  /\ Forall2 R inv0 (replace_product p' inv).
Proof.
  intros Hu Hin Hid Hstep Hall. split.
  - unfold unique_ids. rewrite replace_product_ids. exact Hu.
  - apply (replace_product_tracks_part R inv p p'); auto.
    apply incl_refl.
Qed.

(** A relation between a stored product and its later state that every
    accepted sale line keeps is kept by a sale line. *)
Lemma saleItem_tracks (R : Product -> Product -> Prop) (inv0 : list Product) :
  (forall a0 p p' q,
      R a0 p -> frame_of p' = frame_of p -> 0 < q <= on_hand p ->
      quantity p' = Js.minus (on_hand p) q -> R a0 p') ->
  forall i item db r db',
    unique_ids (inventory db) /\ Forall2 R inv0 (inventory db) ->
    Sales.saleItem i item db = (r, db') ->
    unique_ids (inventory db') /\ Forall2 R inv0 (inventory db').
Proof.
  intros Hclosed i item db r db' [Hu Hall] E. destruct r as [[p' li]|e].
  - apply saleItem_inv in E.
    destruct E as (p & Hr & Hq & Hf & Hp' & -> & _).
    cbn [inventory set_inventory].
    apply (replace_product_tracks R inv0 (inventory db) p p'); auto.
    + eapply resolve_in; eauto.
    + unfold frame_of in Hf. congruence.
    + intros a0 Ha. eapply Hclosed; eauto.
  - apply saleItem_throw_unchanged in E. subst. auto.
Qed.

Lemma purchaseItem_tracks (R : Product -> Product -> Prop)
    (inv0 : list Product) :
  (forall a0 p p' q,
      R a0 p -> frame_of p' = frame_of p -> 0 < q ->
      quantity p' = Js.plus (on_hand p) q -> R a0 p') ->
  forall session i item db r db',
    unique_ids (inventory db) /\ Forall2 R inv0 (inventory db) ->
    Purchases.purchaseItem session i item db = (r, db') ->
    unique_ids (inventory db') /\ Forall2 R inv0 (inventory db').
Proof.
  intros Hclosed session i item db r db' [Hu Hall] E.
  destruct r as [[p' li]|e].
  - apply purchaseItem_inv in E.
    destruct E as (p & Hr & Hq & Hf & Hp' & -> & _).
    cbn [inventory set_inventory].
    apply (replace_product_tracks R inv0 (inventory db) p p'); auto.
    + eapply resolve_in; eauto.
    + unfold frame_of in Hf. congruence.
    + intros a0 Ha. eapply Hclosed; eauto.
  - apply purchaseItem_throw_unchanged in E. subst. auto.
Qed.

Lemma Forall2_diag {A} (R : A -> A -> Prop) (l : list A) :
  (forall a, R a a) -> Forall2 R l l.
Proof. intros Hr. induction l; constructor; auto. Qed.

(* ===================================================================== *)
(** ** Stock never goes negative (C3)                                     *)
(* ===================================================================== *)

(** C3.  Under the unique index on [_id], [persistSale],
    [persistPurchase] and the two routes, whether they return or throw,
    leave every product in its place with its [_id], and a product whose
    quantity was not negative has a quantity that is not negative.  The
    reason is in the lines: an accepted sale line asked for a positive
    quantity no larger than the stock the route read and deducted it
    from that, an accepted purchase line added a positive quantity to
    the stock the route read; while the stock levels are integers a
    double holds exactly, these are the stock and the exact difference
    or sum. *)
Theorem stock_never_negative (db : DB) :
  unique_ids (inventory db) ->
  (forall body,
      keeps_nonneg (inventory db)
                   (inventory (snd (Sales.persistSale body db))))
  /\ (forall body session,
         keeps_nonneg (inventory db)
           (inventory (snd (Purchases.persistPurchase body session db))))
  /\ (forall NODE_ENV req,
         keeps_nonneg (inventory db)
                      (inventory (snd (Sales.post NODE_ENV req db))))
  /\ (forall env req,
         keeps_nonneg (inventory db)
                      (inventory (snd (Purchases.post env req db))))
  /\ (forall i item p' li db',
         Sales.saleItem i item db = (Ok (p', li), db') ->
         exists p,
           resolve (inventory db) (Sales.item_productId item) = Some p
           /\ 0 < parseInteger (Sales.item_quantity item) 0 <= quantity p
           /\ parseInteger (Sales.item_quantity item) 0 <= on_hand p
           /\ quantity p'
              = Js.minus (on_hand p)
                         (parseInteger (Sales.item_quantity item) 0)
           /\ (quantity p <= 2 ^ 53 ->
               quantity p'
               = quantity p - parseInteger (Sales.item_quantity item) 0))
  /\ (forall session i item p' li db',
         Purchases.purchaseItem session i item db = (Ok (p', li), db') ->
         exists p,
           resolve (inventory db) (Purchases.item_productId item) = Some p
           /\ 0 < parseInteger (Purchases.item_quantity item) 0
           /\ quantity p'
              = Js.plus (on_hand p)
                        (parseInteger (Purchases.item_quantity item) 0)
           /\ (safe_integer (quantity p) ->
               safe_integer
                 (quantity p + parseInteger (Purchases.item_quantity item) 0) ->
               quantity p'
               = quantity p + parseInteger (Purchases.item_quantity item) 0)).
Proof.
  intros Hu.
  assert (H0 : unique_ids (inventory db)
               /\ keeps_nonneg (inventory db) (inventory db)).
  { split; [exact Hu|]. apply Forall2_diag. intros a. split; auto. }
  assert (Hsale : forall a0 p p' q,
             nonneg_kept a0 p -> frame_of p' = frame_of p ->
             0 < q <= on_hand p -> quantity p' = Js.minus (on_hand p) q ->
             nonneg_kept a0 p').
  { unfold nonneg_kept, frame_of. intros a0 p p' q [Hid Hq] Hf Hr Hq'.
    split; [congruence|]. intros _. rewrite Hq'.
    apply double_nonneg. lia. }
  assert (Hpur : forall a0 p p' q,
             nonneg_kept a0 p -> frame_of p' = frame_of p ->
             0 < q -> quantity p' = Js.plus (on_hand p) q ->
             nonneg_kept a0 p').
  { unfold nonneg_kept, frame_of. intros a0 p p' q [Hid Hq] Hf Hr Hq'.
    split; [congruence|]. intros Ha. specialize (Hq Ha). rewrite Hq'.
    apply double_nonneg. pose proof (on_hand_nonneg p Hq). lia. }
  repeat split.
  - intros body.
    apply (persistSale_preserves
             (fun inv => unique_ids inv /\ keeps_nonneg (inventory db) inv)
             (saleItem_tracks _ _ Hsale) body db H0).
  - intros body session.
    apply (persistPurchase_preserves
             (fun inv => unique_ids inv /\ keeps_nonneg (inventory db) inv)
             (purchaseItem_tracks _ _ Hpur) body session db H0).
  - intros NODE_ENV req.
    apply (sales_post_preserves
             (fun inv => unique_ids inv /\ keeps_nonneg (inventory db) inv)
             (saleItem_tracks _ _ Hsale) NODE_ENV req db H0).
  - intros env req.
    apply (purchases_post_preserves
             (fun inv => unique_ids inv /\ keeps_nonneg (inventory db) inv)
             (purchaseItem_tracks _ _ Hpur) env req db H0).
  - intros i item p' li db' E. apply saleItem_inv in E.
    destruct E as (p & Hr & Hq & _ & Hp' & _). exists p.
    destruct (on_hand_stock p _ Hq) as [Hle Hread].
    repeat split; try tauto; try lia.
    intros Hmax. rewrite Hp', (Hread Hmax). unfold Js.minus.
    apply double_exact. lia.
  - intros session i item p' li db' E. apply purchaseItem_inv in E.
    destruct E as (p & Hr & Hq & _ & Hp' & _). exists p.
    repeat split; try assumption.
    intros Hsafe Hsum. rewrite Hp', (on_hand_safe p Hsafe).
    apply double_exact. exact Hsum.
Qed.

Lemma shop_unique_ids : unique_ids (inventory shop).
Proof.
  unfold unique_ids. simpl.
  repeat constructor; simpl; intuition discriminate.
Qed.

(** C3 on the sale whose third line is refused: the two products keep a
    quantity that is not negative. *)
Lemma stock_never_negative_witness :
  keeps_nonneg (inventory shop)
               (inventory (snd (Sales.post None c2_request shop))).
Proof.
  exact (proj1 (proj2 (proj2 (stock_never_negative shop shop_unique_ids)))
               None c2_request).
Defined.

(* ===================================================================== *)
(** ** The line snapshot of a sale (C4)                                   *)
(* ===================================================================== *)

(** The loop adds one line per item, after the lines it was given. *)
Lemma saleLoop_lines :
  forall items i ups nis db ups' nis' db',
    Sales.saleLoop i items ups nis db = (Ok (ups', nis'), db') ->
    exists lines,
      nis' = (nis ++ lines)%list /\ List.length lines = List.length items.
Proof.
  induction items as [|item rest IH]; intros i ups nis db ups' nis' db'.
  - simpl. unfold ret. intros [= <- <- <-].
    exists []. rewrite app_nil_r. split; reflexivity.
  - rewrite saleLoop_cons.
    destruct (Sales.saleItem i item db) as [[[p' li]|e] db1] eqn:E;
      [|discriminate].
    intros H. apply IH in H. destruct H as (lines & -> & Hlen).
    exists (li :: lines). cbn [snd]. rewrite <- app_assoc. simpl.
    split; [reflexivity|]. rewrite Hlen. reflexivity.
Qed.

(** The line at position [k] of a returned loop is the one [saleItem]
    made from item [k] on the store the first [k] items left. *)
Lemma saleLoop_nth (items : list Sales.ItemInput) (db db' : DB)
    (ups : list Product) (nis : list SaleItem) (k : nat)
    (item : Sales.ItemInput) (li : SaleItem) :
  Sales.saleLoop 0 items [] [] db = (Ok (ups, nis), db') ->
  nth_error items k = Some item ->
  nth_error nis k = Some li ->
  exists p' dbk',
    Sales.saleItem k item (snd (Sales.saleLoop 0 (firstn k items) [] [] db))
    = (Ok (p', li), dbk').
Proof.
  intros Hloop Hitem Hli.
  destruct (nth_error_split _ _ Hitem) as (pre & post & Hsplit & Hlen).
  assert (Hfirst : firstn k items = pre).
  { rewrite Hsplit, <- Hlen, firstn_app, Nat.sub_diag, firstn_all.
    simpl. apply app_nil_r. }
  rewrite Hfirst. rewrite Hsplit, saleLoop_app in Hloop.
  destruct (Sales.saleLoop 0 pre [] [] db) as [[[upsk nisk]|e] dbk] eqn:Epre;
    [|discriminate].
  cbn [fst snd] in *. rewrite Nat.add_0_l, Hlen, saleLoop_cons in Hloop.
  destruct (Sales.saleItem k item dbk) as [[[p' li']|e] dbk'] eqn:Ek;
    [|discriminate].
  cbn [fst snd] in Hloop.
  destruct (saleLoop_lines _ _ _ _ _ _ _ _ Epre) as (lk & Hnk & Hlk).
  destruct (saleLoop_lines _ _ _ _ _ _ _ _ Hloop) as (lr & Hn & _).
  cbn in Hnk. subst nisk. subst nis.
  rewrite <- app_assoc in Hli. cbn in Hli.
  rewrite nth_error_app2 in Hli by lia.
  replace (k - List.length lk)%nat with 0%nat in Hli by lia.
  cbn in Hli. injection Hli as <-.
  exists p', dbk'. reflexivity.
Qed.

(** C4, as stated, fails: a line that supplies [pricePerQuantity] 50 with
    price 12 and quantity 2 is saved with price 12 and total 100. *)
Lemma line_total_unconditional_fails : ~ line_total_unconditional.
Proof.
  intros H.
  destruct (H c4_body shop _ _ _ 0%nat _ _ eq_refl eq_refl eq_refl)
    as (p & _ & _ & Htotal).
  vm_compute in Htotal. discriminate.
Qed.

(** C4, amended.  In the Sale that [persistSale] saves, the line at
    position [k] records the requested quantity, the effective unit price
    (the supplied price when it is positive, else the price stored for
    the resolved product when the line was processed) and a total equal
    to the requested quantity times the supplied [pricePerQuantity] when
    that is positive, and times the effective unit price otherwise. *)
Theorem sale_line_snapshot
    (body : Sales.Body) (db db' : DB) (sale : Sale) (ups : list Product)
    (k : nat) (item : Sales.ItemInput) (li : SaleItem) :
  Sales.persistSale body db = (Ok (sale, ups), db') ->
  nth_error (Sales.b_items body) k = Some item ->
  nth_error (sale_items sale) k = Some li ->
  exists p,
    resolve (inventory (snd (Sales.saleLoop 0 (firstn k (Sales.b_items body))
                                            [] [] db)))
            (Sales.item_productId item) = Some p
    /\ si_quantity li = parseInteger (Sales.item_quantity item) 0
    /\ si_price li
       = (if Qpositive (parseNumber (Sales.item_price item) 0)
          then parseNumber (Sales.item_price item) 0 else price p)
    /\ si_total li
       = ((if Qpositive (parseNumber (Sales.item_pricePerQuantity item) 0)
           then parseNumber (Sales.item_pricePerQuantity item) 0
           else si_price li) * inject_Z (si_quantity li))%Q.
Proof.
  intros Hp Hitem Hli. rewrite persistSale_unfold in Hp.
  destruct (Sales.saleLoop 0 (Sales.b_items body) [] [] db)
    as [[[ups0 nis0]|e] db1] eqn:Eloop; [|discriminate].
  cbv zeta in Hp. destruct (_ =? _) in Hp; [discriminate|].
  injection Hp as <- <- <-. cbn [sale_items snd] in Hli.
  destruct (saleLoop_nth _ _ _ _ _ _ _ _ Eloop Hitem Hli) as (p' & dbk' & Ek).
  apply saleItem_inv in Ek.
  destruct Ek as (p & Hr & _ & _ & _ & _ & Hq & Hprice & Htotal).
  exists p. auto.
Qed.

(** The amended C4 on the line that supplies [pricePerQuantity]. *)
Lemma sale_line_snapshot_witness :
  exists sale ups db' li,
    Sales.persistSale c4_body shop = (Ok (sale, ups), db')
    /\ nth_error (sale_items sale) 0 = Some li
    /\ si_price li = 12%Q
    /\ si_total li = (50 * inject_Z 2)%Q.
Proof.
  eexists _, _, _, _. split; [lazy; reflexivity|]. split; [reflexivity|].
  destruct (sale_line_snapshot c4_body shop _ _ _ 0%nat _ _
              eq_refl eq_refl eq_refl)
    as (p & Hr & _ & Hprice & Htotal).
  split; [exact Hprice|exact Htotal].
Defined.

(* ===================================================================== *)
(** ** Which errors start the fallback                                    *)
(* ===================================================================== *)

Lemma occurs_append (c : ascii) (a b : string) :
  occurs c (a ++ b) = orb (occurs c a) (occurs c b).
Proof.
  induction a as [|x a IH]; simpl; [reflexivity|].
  rewrite IH. apply orb_assoc.
Qed.

Lemma includes_occurs (c : ascii) (needle haystack : string) :
  includes haystack (String c needle) = true -> occurs c haystack = true.
Proof.
  induction haystack as [|a h IH]; simpl.
  - discriminate.
  - destruct (ascii_dec c a) as [->|Hne].
    + intros _. rewrite Ascii.eqb_refl. reflexivity.
    + intros H. rewrite (IH H). apply orb_true_r.
Qed.

Lemma occurs_digits (u : Decimal.uint) :
  occurs "T" (NilEmpty.string_of_uint u) = false.
Proof. induction u; simpl; auto. Qed.

(** The two validation messages of a line never start the fallback. *)
Lemma validation_message_no_fallback (i : nat) :
  includes (message (ItemProductIdRequired i))
           "Transaction numbers are only allowed" = false
  /\ includes (message (ItemQuantityInvalid i))
              "Transaction numbers are only allowed" = false.
Proof.
  split.
  - destruct (includes _ _) eqn:E; [|reflexivity].
    apply includes_occurs in E. cbv beta iota delta [message] in E.
    rewrite !occurs_append in E. unfold show_nat in E.
    rewrite occurs_digits in E. discriminate.
  - destruct (includes _ _) eqn:E; [|reflexivity].
    apply includes_occurs in E. cbv beta iota delta [message] in E.
    rewrite !occurs_append in E. unfold show_nat in E.
    rewrite occurs_digits in E. discriminate.
Qed.

Lemma rejected_message_fallback :
  includes (message TransactionRejected)
           "Transaction numbers are only allowed" = true.
Proof. reflexivity. Qed.

(** Past its two guards, the purchases route runs [persistPurchase] on
    the session it opened. *)
Lemma purchases_post_unfold (env : Purchases.Env) (req : Purchases.Request)
    (items : list Purchases.ItemInput) (db : DB) :
  truthy (Purchases.billId req) = true ->
  Purchases.items req = Some items ->
  items <> [] ->
  Purchases.post env req db
  = let body := purchase_body_of_request req items in
    match Purchases.persistPurchase body (route_session env) db with
    | (Ok result, db1) => Purchases.created env result db1
    | (Throw err, db1) =>
        let aborted :=
          match route_session env with Some _ => db | None => db1 end in
        if andb (shouldUseTransactions env)
                (includes (message err) "Transaction numbers are only allowed")
        then
          match Purchases.persistPurchase body None aborted with
          | (Ok fallbackResult, db2) =>
              Purchases.created env fallbackResult db2
          | (Throw fallbackErr, db2) =>
              (mkResponse 500 (ErrorBody (error_text fallbackErr)), db2)
          end
        else (mkResponse 500 (ErrorBody (error_text err)), aborted)
    end.
Proof.
  intros Hb Hi Hne. unfold Purchases.post. rewrite Hb, Hi. cbn [negb].
  destruct items; [contradiction|reflexivity].
Qed.





(* ===================================================================== *)
(** ** Requests that fail validation (C5)                                 *)
(* ===================================================================== *)




(* ===================================================================== *)
(** ** Only price and quantity change (C10)                               *)
(* ===================================================================== *)

Lemma Forall2_In_r {A B} (R : A -> B -> Prop) (l : list A) (l' : list B)
    (b : B) :
  Forall2 R l l' -> In b l' -> exists a, In a l /\ R a b.
Proof.
  induction 1 as [|a b' l l' Hab Hall IH]; simpl; [tauto|].
  intros [->|Hin].
  - exists a. auto.
  - destruct (IH Hin) as (a' & Ha' & Hr). exists a'. auto.
Qed.

Lemma same_frame_sale (a0 p p' : Product) (q : Z) :
  same_frame a0 p -> frame_of p' = frame_of p -> 0 < q <= on_hand p ->
  quantity p' = Js.minus (on_hand p) q -> same_frame a0 p'.
Proof. unfold same_frame. congruence. Qed.

Lemma same_frame_purchase (a0 p p' : Product) (q : Z) :
  same_frame a0 p -> frame_of p' = frame_of p -> 0 < q ->
  quantity p' = Js.plus (on_hand p) q -> same_frame a0 p'.
Proof. unfold same_frame. congruence. Qed.

(** The products a sale loop reports are stored products up to price and
    quantity. *)
Lemma saleLoop_reports_framed (inv0 : list Product) :
  forall items i ups nis db ups' nis' db',
    unique_ids (inventory db) /\ Forall2 same_frame inv0 (inventory db) ->
    Forall (framed_in inv0) ups ->
    Sales.saleLoop i items ups nis db = (Ok (ups', nis'), db') ->
    Forall (framed_in inv0) ups'.
Proof.
  induction items as [|item rest IH]; intros i ups nis db ups' nis' db' HP Hups.
  - simpl. unfold ret. intros [= <- <- <-]. exact Hups.
  - rewrite saleLoop_cons.
    destruct (Sales.saleItem i item db) as [[[p' li]|e] db1] eqn:E;
      [|discriminate].
    apply IH.
    + eapply (saleItem_tracks same_frame inv0 same_frame_sale); eauto.
    + apply Forall_app. split; [exact Hups|]. constructor; [|constructor].
      apply saleItem_inv in E. destruct E as (p & Hr & _ & Hf & _).
      apply resolve_in in Hr.
      destruct (Forall2_In_r _ _ _ _ (proj2 HP) Hr) as (a0 & Ha0 & Hsame).
      exists a0. split; [exact Ha0|]. cbn [fst].
      unfold same_frame in Hsame. congruence.
Qed.

Lemma purchaseLoop_reports_framed (session : option Session)
    (inv0 : list Product) :
  forall items i ups nis db ups' nis' db',
    unique_ids (inventory db) /\ Forall2 same_frame inv0 (inventory db) ->
    Forall (framed_in inv0) ups ->
    Purchases.purchaseLoop session i items ups nis db = (Ok (ups', nis'), db') ->
    Forall (framed_in inv0) ups'.
Proof.
  induction items as [|item rest IH]; intros i ups nis db ups' nis' db' HP Hups.
  - simpl. unfold ret. intros [= <- <- <-]. exact Hups.
  - rewrite purchaseLoop_cons.
    destruct (Purchases.purchaseItem session i item db)
      as [[[p' li]|e] db1] eqn:E; [|discriminate].
    apply IH.
    + eapply (purchaseItem_tracks same_frame inv0 same_frame_purchase); eauto.
    + apply Forall_app. split; [exact Hups|]. constructor; [|constructor].
      apply purchaseItem_inv in E. destruct E as (p & Hr & _ & Hf & _).
      apply resolve_in in Hr.
      destruct (Forall2_In_r _ _ _ _ (proj2 HP) Hr) as (a0 & Ha0 & Hsame).
      exists a0. split; [exact Ha0|]. cbn [fst].
      unfold same_frame in Hsame. congruence.
Qed.

(** C10.  Under the unique index on [_id], [persistSale] and
    [persistPurchase] leave every stored product in its place with its
    [_id], [name], [sku], [productId], [reorderPoint], [size], [gsm] and
    [image]: nothing but [price] and [quantity] can differ.  The same
    holds of the products they report as updated. *)
Theorem only_price_and_quantity_change (db : DB) :
  unique_ids (inventory db) ->
  (forall body,
      Forall2 same_frame (inventory db)
              (inventory (snd (Sales.persistSale body db))))
  /\ (forall body session,
         Forall2 same_frame (inventory db)
                 (inventory (snd (Purchases.persistPurchase body session db))))
  /\ (forall body sale ups db',
         Sales.persistSale body db = (Ok (sale, ups), db') ->
         Forall (framed_in (inventory db)) ups)
  /\ (forall body session purchase ups db',
         Purchases.persistPurchase body session db
         = (Ok (purchase, ups), db') ->
         Forall (framed_in (inventory db)) ups).
Proof.
  intros Hu.
  assert (H0 : unique_ids (inventory db)
               /\ Forall2 same_frame (inventory db) (inventory db)).
  { split; [exact Hu|]. apply Forall2_diag. reflexivity. }
  repeat split.
  - intros body.
    apply (persistSale_preserves
             (fun inv => unique_ids inv
                         /\ Forall2 same_frame (inventory db) inv)
             (saleItem_tracks _ _ same_frame_sale) body db H0).
  - intros body session.
    apply (persistPurchase_preserves
             (fun inv => unique_ids inv
                         /\ Forall2 same_frame (inventory db) inv)
             (purchaseItem_tracks _ _ same_frame_purchase) body session db H0).
  - intros body sale ups db' Hp. rewrite persistSale_unfold in Hp.
    destruct (Sales.saleLoop 0 (Sales.b_items body) [] [] db)
      as [[[ups0 nis0]|e] db1] eqn:Eloop; [|discriminate].
    cbv zeta in Hp. destruct (_ =? _) in Hp; [discriminate|].
    injection Hp as <- <- <-. cbn [fst].
    eapply saleLoop_reports_framed; eauto.
  - intros body session purchase ups db' Hp.
    rewrite persistPurchase_unfold in Hp.
    destruct (Purchases.purchaseLoop session 0 (Purchases.b_items body)
                                     [] [] db)
      as [[[ups0 nis0]|e] db1] eqn:Eloop; [|discriminate].
    cbv zeta in Hp.
    destruct (with_session session _ db1) as [[u|e] db2]; [|discriminate].
    injection Hp as <- <- <-. cbn [fst].
    eapply purchaseLoop_reports_framed; eauto.
Qed.

(** C10 on a sale of two tarpaulins and one rope. *)
Lemma only_price_and_quantity_change_witness :
  Forall2 same_frame (inventory shop)
    (inventory
       (snd (Sales.persistSale
               (sale_of [sale_line "sku-1" 2; sale_line "sku-2" 1]) shop))).
Proof.
  exact (proj1 (only_price_and_quantity_change shop shop_unique_ids)
               (sale_of [sale_line "sku-1" 2; sale_line "sku-2" 1])).
Defined.

(* ===================================================================== *)
(** ** Lookup does not depend on price and quantity                       *)
(* ===================================================================== *)

Lemma find_frames (f : Product -> bool) (inv inv1 : list Product) :
  (forall a b, frame_of b = frame_of a -> f b = f a) ->
  Forall2 same_frame inv inv1 ->
  match find f inv, find f inv1 with
  | Some a, Some b => same_frame a b
  | None, None => True
  | _, _ => False
  end.
Proof.
  intros Hf. induction 1 as [|a b l l1 Hab Hall IH]; simpl; [exact I|].
  rewrite (Hf a b Hab). destruct (f a); [exact Hab|exact IH].
Qed.

Lemma resolve_frames (inv inv1 : list Product) (identifier : option string) :
  Forall2 same_frame inv inv1 ->
  match resolve inv identifier, resolve inv1 identifier with
  | Some a, Some b => same_frame a b
  | None, None => True
  | _, _ => False
  end.
Proof.
  intros Hall. unfold resolve.
  destruct (negb (truthy identifier)); [exact I|].
  cbv zeta.
  match goal with
  | |- context [find ?f inv] =>
      pose proof (find_frames f inv inv1) as Hcode
  end.
  cbv beta in Hcode.
  destruct (find _ inv) as [a|]; destruct (find _ inv1) as [b|];
    try (apply Hcode; [|exact Hall]; unfold frame_of; intros; congruence);
    try (exfalso; apply Hcode; [|exact Hall]; unfold frame_of; intros;
         congruence).
  destruct (isObjectIdHex _); [|exact I].
  apply find_frames; [|exact Hall].
  unfold frame_of; intros; congruence.
Qed.

Lemma resolves_to_frames (inv inv1 : list Product) (id : string)
    (item : Purchases.ItemInput) :
  Forall2 same_frame inv inv1 ->
  resolves_to inv1 id item = resolves_to inv id item.
Proof.
  intros Hall. unfold resolves_to.
  pose proof (resolve_frames inv inv1 (Purchases.item_productId item) Hall) as H.
  destruct (resolve inv _) as [a|]; destruct (resolve inv1 _) as [b|];
    try contradiction; [|reflexivity].
  unfold same_frame, frame_of in H. replace (_id b) with (_id a) by congruence.
  reflexivity.
Qed.

Lemma added_to_frames (inv inv1 : list Product)
    (items : list Purchases.ItemInput) (id : string) :
  Forall2 same_frame inv inv1 ->
  added_to inv1 items id = added_to inv items id.
Proof.
  intros Hall. unfold added_to. f_equal. f_equal.
  apply filter_ext. intros item. apply resolves_to_frames. exact Hall.
Qed.

Lemma valid_purchase_line_frames (inv inv1 : list Product)
    (item : Purchases.ItemInput) :
  Forall2 same_frame inv inv1 ->
  valid_purchase_line inv item -> valid_purchase_line inv1 item.
Proof.
  intros Hall [Hq [p Hr]]. split; [exact Hq|].
  pose proof (resolve_frames inv inv1 (Purchases.item_productId item) Hall) as H.
  rewrite Hr in H. destruct (resolve inv1 _) as [b|]; [|contradiction].
  exists b. reflexivity.
Qed.

(* ===================================================================== *)
(** ** A valid purchase batch (C6)                                        *)
(* ===================================================================== *)


Lemma Forall2_compose {A} (R1 R2 R : A -> A -> Prop) (l l1 l2 : list A) :
  (forall a b c, R1 a b -> R2 b c -> R a c) ->
  Forall2 R1 l l1 -> Forall2 R2 l1 l2 -> Forall2 R l l2.
Proof.
  intros Hc H1. revert l2.
  induction H1 as [|a b l l1 Hab Hall IH]; intros l2 H2;
    inversion H2; subst; constructor; eauto.
Qed.

Lemma added_to_cons (inv : list Product) (item : Purchases.ItemInput)
    (rest : list Purchases.ItemInput) (id : string) :
  added_to inv (item :: rest) id
  = (if resolves_to inv id item
     then parseInteger (Purchases.item_quantity item) 0 else 0)
    + added_to inv rest id.
Proof.
  unfold added_to. simpl filter.
  destruct (resolves_to inv id item); reflexivity.
Qed.

(** The loop on a valid batch returns, whatever the stock levels; it
    records the quantity of each line, in order. *)
Lemma purchaseLoop_valid (session : option Session) :
  usable session ->
  forall items i ups nis db,
    unique_ids (inventory db) ->
    Forall (valid_purchase_line (inventory db)) items ->
    exists ups' lines db',
      Purchases.purchaseLoop session i items ups nis db
      = (Ok (ups', (nis ++ lines)%list), db')
      /\ Forall2 same_frame (inventory db) (inventory db')
      /\ map pi_quantity lines
         = map (fun item => parseInteger (Purchases.item_quantity item) 0)
               items.
Proof.
  intros Hs. induction items as [|item rest IH]; intros i ups nis db Hu Hvalid.
  - exists ups, [], db. rewrite app_nil_r. split; [reflexivity|].
    split; [|reflexivity].
    apply Forall2_diag. reflexivity.
  - inversion Hvalid as [|? ? [Hq [p Hr]] Hrest]; subst.
    destruct (purchaseItem_accepts session i item db p Hs Hr Hq)
      as (p' & li & E & Hf & Hq').
    pose proof (purchaseItem_inv _ _ _ _ _ _ _ E)
      as (p0 & Hr0 & _ & _ & _ & _ & Hli).
    set (db1 := set_inventory db (replace_product p' (inventory db))) in *.
    assert (Hstep : unique_ids (inventory db1)
                    /\ Forall2 same_frame (inventory db) (inventory db1)).
    { apply (replace_product_tracks same_frame (inventory db) (inventory db)
                                    p p'); auto.
      - eapply resolve_in; eauto.
      - unfold frame_of in Hf. congruence.
      - unfold same_frame. intros a0 Ha. congruence.
      - apply Forall2_diag. reflexivity. }
    destruct Hstep as [Hu1 Hframes].
    assert (Hvalid1 : Forall (valid_purchase_line (inventory db1)) rest).
    { eapply Forall_impl; [|exact Hrest].
      intros it. apply valid_purchase_line_frames. exact Hframes. }
    destruct (IH (S i) (ups ++ [p'])%list (nis ++ [li])%list db1 Hu1 Hvalid1)
      as (ups' & lines & db' & Eloop & Hframes' & Hlines).
    exists ups', (li :: lines), db'. split; [|split].
    + rewrite purchaseLoop_cons, E. cbn [fst snd].
      rewrite Eloop, <- app_assoc. reflexivity.
    + eapply Forall2_compose; [|exact Hframes|exact Hframes'].
      unfold same_frame. intros a b c Hab Hbc. congruence.
    + simpl. rewrite Hli, Hlines. reflexivity.
Qed.

(** A valid batch is saved. *)
Lemma persistPurchase_valid (session : option Session)
    (body : Purchases.Body) (db : DB) :
  usable session ->
  unique_ids (inventory db) ->
  valid_purchase_batch (inventory db) body ->
  exists purchase ups db1,
    Purchases.persistPurchase body session db
    = (Ok (purchase, ups),
       mkDB (inventory db1) (sales db) (purchases db ++ [purchase])
            (dashboard_stats db))
    /\ Purchases.purchaseLoop session 0 (Purchases.b_items body) [] [] db
       = (Ok (ups, pur_items purchase), db1)
    /\ Forall2 same_frame (inventory db) (inventory db1)
    /\ map pi_quantity (pur_items purchase)
       = map (fun item => parseInteger (Purchases.item_quantity item) 0)
             (Purchases.b_items body).
Proof.
  intros Hs Hu [Hvalid Hbill].
  destruct (purchaseLoop_valid session Hs (Purchases.b_items body) 0 [] [] db
              Hu Hvalid) as (ups & lines & db1 & Eloop & Hframes & Hlines).
  cbn [app] in Eloop.
  pose proof (purchaseLoop_writes _ _ _ _ _ _ _ _ _ Eloop)
    as (added & _ & _ & Hsales & Hpur & Hdash).
  eexists _, ups, db1. rewrite persistPurchase_unfold, Eloop. cbv zeta.
  rewrite with_session_usable by exact Hs.
  unfold Purchase_save. cbn [pur_billId fst snd].
  apply String.eqb_neq in Hbill. rewrite Hbill.
  rewrite Hsales, Hpur, Hdash. cbn [pur_items].
  repeat split; assumption.
Qed.

Lemma added_to_nonneg (inv : list Product) (items : list Purchases.ItemInput)
    (id : string) :
  Forall (valid_purchase_line inv) items -> 0 <= added_to inv items id.
Proof.
  induction 1 as [|item rest [Hq _] Hrest IH].
  - unfold added_to. simpl. lia.
  - rewrite added_to_cons. destruct (resolves_to inv id item); lia.
Qed.

(** A save of [p'] over [p], seen from every stored product. *)
Lemma replace_product_sets (inv : list Product) (p p' : Product) :
  unique_ids inv -> In p inv -> _id p' = _id p ->
  forall l, incl l inv ->
            Forall2 (fun a b => if _id p =? _id a then a = p /\ b = p'
                                else b = a)
                    l (replace_product p' l).
Proof.
  intros Hu Hin Hid.
  induction l as [|a l IH]; intros Hsub; simpl; constructor.
  - rewrite Hid, (String.eqb_sym (_id p) (_id a)).
    destruct (_id a =? _id p) eqn:E; [|reflexivity].
    apply String.eqb_eq in E. split; [|reflexivity].
    apply (unique_ids_inj inv); auto. apply Hsub. left. reflexivity.
  - apply IH. intros b Hb. apply Hsub. right. exact Hb.
Qed.

(** The loop on a valid batch leaves every product whose stock stays
    among the integers a double holds exactly with the quantities of the
    lines that resolved to it added. *)
Lemma purchaseLoop_exact (session : option Session) :
  usable session ->
  forall items i ups nis db ups' nis' db',
    unique_ids (inventory db) ->
    Forall (valid_purchase_line (inventory db)) items ->
    Purchases.purchaseLoop session i items ups nis db
    = (Ok (ups', nis'), db') ->
    Forall2 (grown_if_exact (inventory db) items)
            (inventory db) (inventory db').
Proof.
  intros Hs.
  induction items as [|item rest IH];
    intros i ups nis db ups' nis' db' Hu Hvalid.
  - simpl. unfold ret. intros [= <- <- <-].
    apply Forall2_diag. intros a. split; [reflexivity|]. intros _.
    unfold added_to. simpl. lia.
  - inversion Hvalid as [|? ? [Hq [p Hr]] Hrest]; subst.
    rewrite purchaseLoop_cons.
    destruct (purchaseItem_accepts session i item db p Hs Hr Hq)
      as (p' & li & E & Hf & Hq').
    rewrite E. cbn [fst snd].
    set (db1 := set_inventory db (replace_product p' (inventory db))) in *.
    set (q := parseInteger (Purchases.item_quantity item) 0) in *.
    assert (Hin : In p (inventory db)) by (eapply resolve_in; eauto).
    assert (Hid : _id p' = _id p) by (unfold frame_of in Hf; congruence).
    assert (Hstep : Forall2 (fun a b => if _id p =? _id a
                                        then a = p /\ b = p' else b = a)
                            (inventory db) (inventory db1)).
    { apply (replace_product_sets (inventory db) p p'); auto.
      apply incl_refl. }
    assert (Hframes : Forall2 same_frame (inventory db) (inventory db1)).
    { eapply Forall2_impl; [|exact Hstep]. cbv beta. intros a b H.
      unfold same_frame. destruct (_id p =? _id a).
      - destruct H as [-> ->]. exact Hf.
      - subst b. reflexivity. }
    assert (Hu1 : unique_ids (inventory db1)).
    { unfold unique_ids, db1. cbn [inventory set_inventory].
      rewrite replace_product_ids. exact Hu. }
    assert (Hvalid1 : Forall (valid_purchase_line (inventory db1)) rest).
    { eapply Forall_impl; [|exact Hrest].
      intros it. apply valid_purchase_line_frames. exact Hframes. }
    intros Eloop.
    pose proof (IH _ _ _ _ _ _ _ Hu1 Hvalid1 Eloop) as Hgrown.
    eapply Forall2_compose; [|exact Hstep|exact Hgrown].
    cbv beta. intros a b c Hab [Hbc Hqbc].
    unfold grown_if_exact, stays_exact in *.
    rewrite (added_to_frames _ _ _ _ Hframes) in Hqbc.
    pose proof (added_to_nonneg (inventory db) rest (_id a) Hrest) as Hnn.
    rewrite added_to_cons. unfold resolves_to. rewrite Hr. fold q.
    destruct (_id p =? _id a) eqn:Eid.
    + destruct Hab as [-> ->].
      rewrite Hid in Hqbc. split; [congruence|].
      intros [Hnone|[Hlo Hhi]]; [lia|].
      assert (Hsum : quantity p' = quantity p + q).
      { rewrite Hq', on_hand_safe by (unfold safe_integer; lia).
        apply double_exact. lia. }
      rewrite Hqbc by (right; lia). lia.
    + subst b. split; [exact Hbc|].
      intros [Hnone|[Hlo Hhi]]; rewrite Hqbc; lia.
Qed.

(** C6, as stated, fails: a double holds 2^53 but not 2^53 + 1, so a
    valid purchase of one unit for a product with 2^53 in stock leaves
    the stock where it was. *)
Lemma purchase_adds_unconditional_fails : ~ purchase_adds_unconditional.
Proof.
  intros H.
  destruct (H None c6_one_more c6_full_db I) as (purchase & ups & db' & Hp & Hg).
  - unfold unique_ids. simpl. repeat constructor. simpl. tauto.
  - split; [|discriminate].
    constructor; [|constructor].
    split; [reflexivity|eexists; reflexivity].
  - vm_compute in Hp. injection Hp as <- <- <-.
    inversion Hg as [|a b l l' [_ Hq] Hrest]; subst.
    vm_compute in Hq. discriminate.
Qed.

(** C6, amended.  A valid purchase batch (every line has a positive
    quantity and an identifier that resolves; the bill id is not blank)
    is saved whatever the stock levels are: there is no test against the
    stock.  The saved Purchase is the one record added and its lines
    carry the quantities of the items in input order.  Every product
    whose stock stays, with the quantities of the batch added, within
    the integers a double holds exactly (2^53 in magnitude) ends with
    its quantity raised by the sum of the quantities of all the items
    that resolved to it; two items for one product both count. *)
Theorem purchase_adds_every_line
    (session : option Session) (body : Purchases.Body) (db : DB) :
  usable session ->
  unique_ids (inventory db) ->
  valid_purchase_batch (inventory db) body ->
  exists purchase ups db',
    Purchases.persistPurchase body session db = (Ok (purchase, ups), db')
    /\ Forall2 (grown_if_exact (inventory db) (Purchases.b_items body))
               (inventory db) (inventory db')
    /\ map pi_quantity (pur_items purchase)
       = map (fun item => parseInteger (Purchases.item_quantity item) 0)
             (Purchases.b_items body)
    /\ purchases db' = (purchases db ++ [purchase])%list.
Proof.
  intros Hs Hu Hvalid.
  destruct (persistPurchase_valid session body db Hs Hu Hvalid)
    as (purchase & ups & db1 & Hp & Hloop & _ & Hlines).
  eexists _, _, _. split; [exact Hp|].
  cbn [inventory purchases]. repeat split; try assumption.
  eapply (purchaseLoop_exact session Hs); eauto.
  destruct Hvalid as [Hv _]. exact Hv.
Qed.

Lemma c6_body_valid : valid_purchase_batch (inventory shop) c6_body.
Proof.
  split; [|discriminate].
  repeat constructor; cbn; try lia; eexists; reflexivity.
Qed.

(** C6 on a batch with two lines for the tarpaulin (3 and 4) and one for
    the rope (1): the stock goes from 5 and 3 to 12 and 4. *)
Lemma purchase_adds_every_line_witness :
  exists purchase ups db',
    Purchases.persistPurchase c6_body None shop = (Ok (purchase, ups), db')
    /\ map quantity (inventory db') = [12; 4]
    /\ map pi_quantity (pur_items purchase) = [3; 1; 4]
    /\ Forall2 (grown_if_exact (inventory shop) (Purchases.b_items c6_body))
               (inventory shop) (inventory db').
Proof.
  destruct (purchase_adds_every_line None c6_body shop I shop_unique_ids
              c6_body_valid) as (purchase & ups & db' & Hp & Hg & _ & _).
  exists purchase, ups, db'. split; [exact Hp|].
  vm_compute in Hp. injection Hp as <- <- <-.
  repeat split; try reflexivity. exact Hg.
Defined.

(* ===================================================================== *)
(** ** The dashboard figures (C7, C8)                                     *)
(* ===================================================================== *)

Lemma fold_left_Qplus {A} (f : A -> Q) (l : list A) (a : Q) :
  (fold_left (fun acc x => acc + f x) l a
   == a + Reference.Qsum (map f l))%Q.
Proof.
  revert a. induction l as [|x l IH]; intros a; simpl.
  - rewrite Qplus_0_r. reflexivity.
  - rewrite IH, Qplus_assoc. reflexivity.
Qed.

Lemma Qle_bool_inject_Z (a b : Z) :
  Qle_bool (inject_Z a) (inject_Z b) = (a <=? b)%Z.
Proof. unfold Qle_bool. simpl. rewrite !Z.mul_1_r. reflexivity. Qed.

Lemma count_step_fold (products : list Product)
    (acc : DashboardMetrics.StockCounts) :
  fold_left DashboardMetrics.count_step products acc
  = DashboardMetrics.mkStockCounts
      (DashboardMetrics.lowStockCount acc + Reference.lowStock products)
      (DashboardMetrics.outOfStockCount acc + Reference.outOfStock products).
Proof.
  revert acc. unfold Reference.lowStock, Reference.outOfStock.
  induction products as [|p l IH]; intros acc.
  - simpl. rewrite !Z.add_0_r. destruct acc; reflexivity.
  - cbn [fold_left]. rewrite IH. unfold DashboardMetrics.count_step.
    unfold DashboardMetrics.toNumber. cbn [Number_parse filter].
    change 0%Q with (inject_Z 0). rewrite !Qle_bool_inject_Z.
    destruct (quantity p <=? 0)%Z eqn:E0.
    + apply Z.leb_le in E0.
      assert (E1 : (0 <? quantity p)%Z = false) by (apply Z.ltb_ge; lia).
      rewrite E1. cbn [andb List.length DashboardMetrics.lowStockCount
                        DashboardMetrics.outOfStockCount].
      f_equal; lia.
    + apply Z.leb_gt in E0.
      assert (E1 : (0 <? quantity p)%Z = true) by (apply Z.ltb_lt; lia).
      rewrite E1. cbn [andb].
      destruct (quantity p <=? reorderPoint p)%Z;
        cbn [List.length DashboardMetrics.lowStockCount
             DashboardMetrics.outOfStockCount];
        f_equal; lia.
Qed.

Lemma aggregate_total {A} (total_of : A -> Q) (docs : list A) :
  (nullish (option_map fst (aggregate_total_count total_of docs)) 0
   == Reference.Qsum (map total_of docs))%Q.
Proof.
  destruct docs as [|d docs]; [reflexivity|].
  unfold aggregate_total_count. cbn [option_map nullish fst].
  rewrite fold_left_Qplus, Qplus_0_l. reflexivity.
Qed.

Lemma aggregate_count {A} (total_of : A -> Q) (docs : list A) :
  nullish (option_map snd (aggregate_total_count total_of docs)) 0
  = Z.of_nat (List.length docs).
Proof. destruct docs; reflexivity. Qed.

(** C7.  [recalculateDashboardStats] returns, stores what it returns as
    the snapshot, and the snapshot is the reference one: inventoryValue
    is the sum over all products of price * quantity, lowStock counts the
    products with 0 < quantity <= reorderPoint, outOfStock those with
    quantity <= 0, totalSales is the sum of total over all sales, orders
    is the larger of the number of sales and the number of purchases.
    The two amounts are equal as rationals. *)
Theorem recalculate_matches_reference (db : DB) :
  exists stats db',
    DashboardMetrics.recalculateDashboardStats db = (Ok stats, db')
    /\ dashboard_stats db' = Some stats
    /\ (inventoryValue stats == Reference.inventoryValue (inventory db))%Q
    /\ lowStock stats = Reference.lowStock (inventory db)
    /\ outOfStock stats = Reference.outOfStock (inventory db)
    /\ (totalSales stats == Reference.totalSales (sales db))%Q
    /\ orders stats = Reference.orders (sales db) (purchases db).
Proof.
  eexists _, _. split.
  { unfold DashboardMetrics.recalculateDashboardStats,
      DashboardMetrics.buildInventorySnapshot,
      DashboardMetrics.buildSalesSnapshot,
      DashboardMetrics.buildPurchasesSnapshot,
      DashboardMetrics.DashboardStat_put.
    unfold_monad. reflexivity. }
  cbn [dashboard_stats inventoryValue lowStock outOfStock totalSales orders
       DashboardMetrics.inv_inventoryValue DashboardMetrics.inv_lowStock
       DashboardMetrics.inv_outOfStock DashboardMetrics.ss_totalSales
       DashboardMetrics.ss_orders DashboardMetrics.ps_purchaseCount].
  split; [reflexivity|].
  unfold DashboardMetrics.toNumber. cbn [Number_parse].
  rewrite count_step_fold.
  cbn [DashboardMetrics.lowStockCount DashboardMetrics.outOfStockCount].
  repeat split.
  - unfold Reference.inventoryValue.
    rewrite <- (Qplus_0_l (Reference.Qsum _)).
    apply (fold_left_Qplus (fun p => (price p * inject_Z (quantity p))%Q)).
  - apply aggregate_total.
  - unfold Reference.orders. rewrite !aggregate_count. reflexivity.
Qed.

(** C8.  Run again on the store it left, with no write in between,
    [recalculateDashboardStats] returns the same snapshot and leaves the
    same store. *)
Theorem recalculate_idempotent (db : DB) :
  exists stats db1,
    DashboardMetrics.recalculateDashboardStats db = (Ok stats, db1)
    /\ dashboard_stats db1 = Some stats
    /\ DashboardMetrics.recalculateDashboardStats db1 = (Ok stats, db1).
Proof.
  eexists _, _. split; [|split].
  - unfold DashboardMetrics.recalculateDashboardStats,
      DashboardMetrics.buildInventorySnapshot,
      DashboardMetrics.buildSalesSnapshot,
      DashboardMetrics.buildPurchasesSnapshot,
      DashboardMetrics.DashboardStat_put.
    unfold_monad. reflexivity.
  - reflexivity.
  - reflexivity.
Qed.

(* ===================================================================== *)
(** ** The fallback of the purchases route (C9)                           *)
(* ===================================================================== *)

(** On a session the server accepts, a purchase runs as without one. *)
Lemma purchaseItem_usable (session : option Session) (i : nat)
    (item : Purchases.ItemInput) (db : DB) :
  usable session ->
  Purchases.purchaseItem session i item db
  = Purchases.purchaseItem None i item db.
Proof.
  intros Hs. unfold Purchases.purchaseItem.
  destruct (negb _); [reflexivity|].
  destruct (_ <=? 0)%Z; [reflexivity|].
  unfold bind at 1 3.
  rewrite !purchases_load_resolve by (exact Hs || exact I).
  destruct (resolve _ _); [|reflexivity].
  rewrite with_session_usable by exact Hs. reflexivity.
Qed.

Lemma purchaseLoop_usable (session : option Session) :
  usable session ->
  forall items i ups nis db,
    Purchases.purchaseLoop session i items ups nis db
    = Purchases.purchaseLoop None i items ups nis db.
Proof.
  intros Hs. induction items as [|item rest IH]; intros i ups nis db.
  - reflexivity.
  - rewrite !purchaseLoop_cons, (purchaseItem_usable session) by exact Hs.
    destruct (Purchases.purchaseItem None i item db) as [[r|e] db1];
      [apply IH|reflexivity].
Qed.

Lemma persistPurchase_usable (session : option Session)
    (body : Purchases.Body) (db : DB) :
  usable session ->
  Purchases.persistPurchase body session db
  = Purchases.persistPurchase body None db.
Proof.
  intros Hs. rewrite !persistPurchase_unfold.
  rewrite (purchaseLoop_usable session Hs).
  destruct (Purchases.purchaseLoop None _ _ _ _ _) as [[r|e] db1];
    [|reflexivity].
  cbv zeta. rewrite with_session_usable by exact Hs. reflexivity.
Qed.

(** On a session the server rejects, a batch whose first line is well
    formed throws the server's error at its first lookup, before any
    write. *)
Lemma persistPurchase_rejected (body : Purchases.Body) (db : DB)
    (item : Purchases.ItemInput) (rest : list Purchases.ItemInput) :
  Purchases.b_items body = item :: rest ->
  truthy (Purchases.item_productId item) = true ->
  0 < parseInteger (Purchases.item_quantity item) 0 ->
  Purchases.persistPurchase body (Some (mkSession false)) db
  = (Throw TransactionRejected, db).
Proof.
  intros Hitems Ht Hq. rewrite persistPurchase_unfold, Hitems.
  rewrite purchaseLoop_cons. unfold Purchases.purchaseItem.
  rewrite Ht. cbn [negb]. apply Z.leb_gt in Hq. rewrite Hq. cbv iota.
  unfold bind at 1. rewrite purchases_load_rejected by exact Ht.
  reflexivity.
Qed.

Lemma created_on_deployment (env : Purchases.Env) (accepts : bool)
    (result : Purchase * list Product) (db : DB) :
  Purchases.created (on_deployment env accepts) result db
  = Purchases.created env result db.
Proof. reflexivity. Qed.

(** C9.  Let transactions be switched on and judged usable by
    [canUseTransactions], and let the server reject transaction numbers.
    For a valid purchase batch the transactional attempt throws the
    server's error without a write, the route runs the whole batch again
    without a session and answers 201 with the purchase, the updated
    products and the dashboard of that second run; the answer and the
    store are the ones the same request gets on a server that accepts
    the transaction. *)
Theorem purchase_fallback_succeeds
    (env : Purchases.Env) (req : Purchases.Request)
    (items : list Purchases.ItemInput) (db : DB) :
  Purchases.transactionsRequested env = true ->
  Purchases.canUseTransactions env = true ->
  Purchases.deployment_accepts_transactions env = false ->
  truthy (Purchases.billId req) = true ->
  Purchases.items req = Some items ->
  items <> [] ->
  unique_ids (inventory db) ->
  valid_purchase_batch (inventory db) (purchase_body_of_request req items) ->
  Purchases.persistPurchase (purchase_body_of_request req items)
                            (route_session env) db
  = (Throw TransactionRejected, db)
  /\ (exists purchase ups db1 dashboard db2,
         Purchases.persistPurchase (purchase_body_of_request req items) None db
         = (Ok (purchase, ups), db1)
         /\ Purchases.post env req db
            = (mkResponse 201 (PurchaseCreated purchase ups dashboard), db2)
         /\ inventory db2 = inventory db1
         /\ purchases db2 = (purchases db ++ [purchase])%list)
  /\ Purchases.post env req db
     = Purchases.post (on_deployment env true) req db.
Proof.
  intros Hreq Hcan Hdep Hb Hi Hne Hu Hvalid.
  set (body := purchase_body_of_request req items) in *.
  assert (Hshould : shouldUseTransactions env = true).
  { unfold shouldUseTransactions. rewrite Hreq, Hcan. reflexivity. }
  assert (Hsess : route_session env = Some (mkSession false)).
  { unfold route_session. rewrite Hshould, Hdep. reflexivity. }
  assert (Hrej : Purchases.persistPurchase body (route_session env) db
                 = (Throw TransactionRejected, db)).
  { rewrite Hsess. destruct items as [|item rest]; [contradiction|].
    destruct Hvalid as [Hlines _].
    inversion Hlines as [|? ? [Hq [p Hr]] _]; subst.
    apply (persistPurchase_rejected body db item rest);
      [reflexivity| |exact Hq].
    eapply resolve_truthy; eauto. }
  destruct (persistPurchase_valid None body db I Hu Hvalid)
    as (purchase & ups & db1 & Hp & _ & _ & _).
  assert (Hpost : Purchases.post env req db
                  = Purchases.created env (purchase, ups)
                      (mkDB (inventory db1) (sales db)
                            (purchases db ++ [purchase])
                            (dashboard_stats db))).
  { rewrite (purchases_post_unfold env req items db Hb Hi Hne). cbv zeta.
    fold body. rewrite Hrej, Hsess, Hshould.
    rewrite rejected_message_fallback. cbn [andb]. rewrite Hp. reflexivity. }
  split; [exact Hrej|]. split.
  - pose proof (purchases_refresh_inventory env
                  (mkDB (inventory db1) (sales db)
                        (purchases db ++ [purchase]) (dashboard_stats db)))
      as [Hinv Hpur].
    unfold Purchases.created in Hpost.
    destruct (Purchases.refreshDashboard env _) as [dashboard db2].
    eexists purchase, ups, _, dashboard, db2.
    split; [exact Hp|]. split; [exact Hpost|].
    split; [exact Hinv|exact Hpur].
  - rewrite Hpost.
    rewrite (purchases_post_unfold (on_deployment env true) req items db
               Hb Hi Hne).
    cbv zeta. fold body.
    assert (Hsess' : route_session (on_deployment env true)
                     = Some (mkSession true)).
    { unfold route_session, shouldUseTransactions,
        Purchases.transactionsRequested, Purchases.canUseTransactions in *.
      cbn [on_deployment Purchases.MONGO_TRANSACTIONS
           Purchases.topology_description_type Purchases.options_replicaSet
           Purchases.s_options_replicaSet Purchases.s_url Purchases.MONGO_URI
           Purchases.MONGODB_URI Purchases.deployment_accepts_transactions].
      rewrite Hshould. reflexivity. }
    rewrite Hsess', (persistPurchase_usable (Some (mkSession true)))
      by reflexivity.
    rewrite Hp, created_on_deployment. reflexivity.
Qed.

Lemma c9_valid :
  valid_purchase_batch (inventory shop)
    (purchase_body_of_request c9_request
       [purchase_line "sku-1" 3; purchase_line "sku-2" 1]).
Proof.
  split; [|discriminate].
  repeat constructor; cbn; try lia; eexists; reflexivity.
Qed.

(** C9 with transactions switched on, a connection string that names a
    replica set and a standalone server: the purchase is answered 201. *)
Lemma purchase_fallback_succeeds_witness :
  status (fst (Purchases.post c9_env c9_request shop)) = 201
  /\ map quantity (inventory (snd (Purchases.post c9_env c9_request shop)))
     = [8; 4]
  /\ Purchases.post c9_env c9_request shop
     = Purchases.post (on_deployment c9_env true) c9_request shop.
Proof.
  destruct (purchase_fallback_succeeds c9_env c9_request
              [purchase_line "sku-1" 3; purchase_line "sku-2" 1] shop
              eq_refl eq_refl eq_refl eq_refl eq_refl)
    as (_ & (purchase & ups & db1 & dashboard & db2 & Hp & Hpost & Hinv & _)
        & Hsame).
  - discriminate.
  - exact shop_unique_ids.
  - exact c9_valid.
  - split; [rewrite Hpost; reflexivity|]. split; [|exact Hsame].
    rewrite Hpost. cbn [snd]. rewrite Hinv.
    vm_compute in Hp. injection Hp as <- <- <-. reflexivity.
Defined.

(* ===================================================================== *)
(** ** The dashboard snapshot around a request                            *)
(* ===================================================================== *)

Ltac run_recalculate :=
  unfold DashboardMetrics.recalculateDashboardStats,
    DashboardMetrics.buildInventorySnapshot,
    DashboardMetrics.buildSalesSnapshot,
    DashboardMetrics.buildPurchasesSnapshot,
    DashboardMetrics.DashboardStat_put;
  unfold_monad; cbn [inventory sales purchases].

(** What [recalculateDashboardStats] computes does not depend on the
    snapshot it overwrites. *)
Lemma recalculate_ignores_snapshot (inv : list Product) (ss : list Sale)
    (ps : list Purchase) (d : option DashboardStat) :
  exists stats,
    DashboardMetrics.recalculateDashboardStats (mkDB inv ss ps d)
    = (Ok stats, mkDB inv ss ps (Some stats))
    /\ DashboardMetrics.recalculateDashboardStats (mkDB inv ss ps None)
       = (Ok stats, mkDB inv ss ps (Some stats)).
Proof. eexists. split; run_recalculate; reflexivity. Qed.

Lemma recalculate_reference (db : DB) :
  exists stats,
    DashboardMetrics.recalculateDashboardStats db
    = (Ok stats, mkDB (inventory db) (sales db) (purchases db) (Some stats))
    /\ (inventoryValue stats == Reference.inventoryValue (inventory db))%Q
    /\ lowStock stats = Reference.lowStock (inventory db)
    /\ outOfStock stats = Reference.outOfStock (inventory db)
    /\ (totalSales stats == Reference.totalSales (sales db))%Q
    /\ orders stats = Reference.orders (sales db) (purchases db).
Proof.
  eexists. split; [run_recalculate; reflexivity|].
  cbn [inventoryValue lowStock outOfStock totalSales orders
       DashboardMetrics.inv_inventoryValue DashboardMetrics.inv_lowStock
       DashboardMetrics.inv_outOfStock DashboardMetrics.ss_totalSales
       DashboardMetrics.ss_orders DashboardMetrics.ps_purchaseCount].
  unfold DashboardMetrics.toNumber. cbn [Number_parse].
  rewrite count_step_fold.
  cbn [DashboardMetrics.lowStockCount DashboardMetrics.outOfStockCount].
  split; [|split; [|split; [|split]]].
  - unfold Reference.inventoryValue.
    rewrite <- (Qplus_0_l (Reference.Qsum _)).
    apply (fold_left_Qplus (fun p => (price p * inject_Z (quantity p))%Q)).
  - apply Z.add_0_l.
  - apply Z.add_0_l.
  - apply aggregate_total.
  - unfold Reference.orders. rewrite !aggregate_count. reflexivity.
Qed.

Lemma sales_refresh_recalculates
    (NODE_ENV : option string) (sale : Sale) (db : DB) :
  not_test NODE_ENV = true ->
  exists stats db',
    DashboardMetrics.recalculateDashboardStats db = (Ok stats, db')
    /\ Sales.refreshDashboard NODE_ENV sale db = (Some stats, db').
Proof.
  intros Ht. unfold Sales.refreshDashboard. rewrite Ht. unfold bind.
  destruct (increment_keeps_collections
              (Parsed (sale_total sale)) (Parsed 1%Q) db) as (r & d & ->).
  destruct db as [inv ss ps d0]. cbn [inventory sales purchases].
  destruct (recalculate_ignores_snapshot inv ss ps d) as (s1 & H1 & H1').
  destruct (recalculate_ignores_snapshot inv ss ps d0) as (s2 & H2 & H2').
  rewrite H1' in H2'. injection H2' as <-.
  rewrite H1, H2. eexists _, _. split; reflexivity.
Qed.

(** After a sale, the route bumps the counters and then recomputes the
    snapshot.  Outside test mode the snapshot it returns and stores is
    the one a recomputation alone gives: the bump leaves no trace. *)
Theorem refresh_supersedes_increment
    (NODE_ENV : option string) (sale : Sale) (db : DB) :
  not_test NODE_ENV = true ->
  exists stats db',
    DashboardMetrics.recalculateDashboardStats db = (Ok stats, db')
    /\ Sales.refreshDashboard NODE_ENV sale db = (Some stats, db').
Proof.
  intros Ht.
  destruct (sales_refresh_recalculates NODE_ENV sale db Ht)
    as (stats & db' & Hr & Hs).
  exists stats, db'. split; assumption.
Qed.

Lemma refresh_supersedes_increment_witness :
  Sales.refreshDashboard (Some "production")
    (mkSale "BILL-1" "Kumar" 20 0 20 [] None) shop_after_sale
  = (Some (mkDashboardStat 20 (0 + 10 * inject_Z 3 + 4 * inject_Z 3) 1 1 0),
     mkDB (inventory shop_after_sale) (sales shop_after_sale) []
          (Some (mkDashboardStat 20 (0 + 10 * inject_Z 3 + 4 * inject_Z 3)
                                 1 1 0))).
Proof.
  destruct (refresh_supersedes_increment (Some "production")
              (mkSale "BILL-1" "Kumar" 20 0 20 [] None) shop_after_sale
              eq_refl) as (stats & db' & Hr & Href).
  rewrite Href. vm_compute in Hr. injection Hr as <- <-. reflexivity.
Defined.

(** GET /api/dashboard answers 200 with the stored snapshot, as it is
    and without recomputing it, when there is one; when there is none it
    recomputes, stores and answers the snapshot.  A second GET answers
    the same snapshot and writes nothing. *)
Theorem dashboard_get_lazy_then_stable (db : DB) :
  exists stats db1,
    Dashboard.get db = (Dashboard.Stats 200 stats, db1)
    /\ match dashboard_stats db with
       | Some stored => stats = stored /\ db1 = db
       | None =>
           DashboardMetrics.recalculateDashboardStats db = (Ok stats, db1)
       end
    /\ dashboard_stats db1 = Some stats
    /\ Dashboard.get db1 = (Dashboard.Stats 200 stats, db1).
Proof.
  unfold Dashboard.get, DashboardMetrics.getDashboardStats,
    DashboardMetrics.DashboardStat_findById, bind, ret.
  destruct (dashboard_stats db) as [stored|] eqn:E.
  - exists stored, db. rewrite E. repeat split; auto.
  - destruct (recalculate_reference db) as (stats & Hr & _).
    rewrite Hr. eexists _, _. split; [reflexivity|].
    split; [reflexivity|]. split; reflexivity.
Qed.

(** [persistSale] writes products and sales only. *)
Lemma persistSale_collections (body : Sales.Body) (db : DB) :
  purchases (snd (Sales.persistSale body db)) = purchases db
  /\ dashboard_stats (snd (Sales.persistSale body db)) = dashboard_stats db
  /\ match fst (Sales.persistSale body db) with
     | Ok (sale, _) =>
         sales (snd (Sales.persistSale body db)) = (sales db ++ [sale])%list
     | Throw _ => sales (snd (Sales.persistSale body db)) = sales db
     end.
Proof.
  rewrite persistSale_unfold.
  destruct (Sales.saleLoop 0 (Sales.b_items body) [] [] db)
    as [[[ups nis]|e] db1] eqn:E.
  - pose proof (saleLoop_writes _ _ _ _ _ _ _ _ E)
      as (added & _ & _ & Hs & Hp & Hd).
    cbv zeta. destruct (_ =? _); cbn [fst snd purchases dashboard_stats sales];
      rewrite ?Hs; auto.
  - destruct (saleLoop_throws _ _ _ _ _ _ _ E)
      as (pre & item & post & [upsP nisP] & _ & Hpre & _).
    pose proof (saleLoop_writes _ _ _ _ _ _ _ _ Hpre)
      as (added & _ & _ & Hs & Hp & Hd).
    cbn [fst snd]. auto.
Qed.

(** [persistPurchase] writes products and purchases only. *)
Lemma persistPurchase_collections (body : Purchases.Body)
    (session : option Session) (db : DB) :
  sales (snd (Purchases.persistPurchase body session db)) = sales db
  /\ dashboard_stats (snd (Purchases.persistPurchase body session db))
     = dashboard_stats db
  /\ match fst (Purchases.persistPurchase body session db) with
     | Ok (purchase, _) =>
         purchases (snd (Purchases.persistPurchase body session db))
         = (purchases db ++ [purchase])%list
     | Throw _ =>
         purchases (snd (Purchases.persistPurchase body session db))
         = purchases db
     end.
Proof.
  rewrite persistPurchase_unfold.
  destruct (Purchases.purchaseLoop session 0 (Purchases.b_items body) [] [] db)
    as [[[ups nis]|e] db1] eqn:E.
  - pose proof (purchaseLoop_writes _ _ _ _ _ _ _ _ _ E)
      as (added & _ & _ & Hs & Hp & Hd).
    cbv zeta. unfold with_session, Purchase_save, throw.
    cbn [pur_billId].
    destruct session as [[[|]]|]; cbn [accepts_transactions];
      try destruct (_ =? _);
      cbn [fst snd purchases dashboard_stats sales]; rewrite ?Hp; auto.
  - destruct (purchaseLoop_throws _ _ _ _ _ _ _ _ E)
      as (pre & item & post & [upsP nisP] & _ & Hpre & _).
    pose proof (purchaseLoop_writes _ _ _ _ _ _ _ _ _ Hpre)
      as (added & _ & _ & Hs & Hp & Hd).
    cbn [fst snd]. auto.
Qed.

(** Whatever the request and the outcome, the sales route leaves the
    purchases as they were and adds at most one Sale, at the end of the
    sales; the purchases route leaves the sales as they were and adds at
    most one Purchase, at the end of the purchases. *)
Theorem routes_write_their_own_records :
  (forall NODE_ENV req db,
      purchases (snd (Sales.post NODE_ENV req db)) = purchases db
      /\ (sales (snd (Sales.post NODE_ENV req db)) = sales db
          \/ exists sale,
              sales (snd (Sales.post NODE_ENV req db))
              = (sales db ++ [sale])%list))
  /\ (forall env req db,
         sales (snd (Purchases.post env req db)) = sales db
         /\ (purchases (snd (Purchases.post env req db)) = purchases db
             \/ exists purchase,
                 purchases (snd (Purchases.post env req db))
                 = (purchases db ++ [purchase])%list)).
Proof.
  split.
  - intros NODE_ENV req db. unfold Sales.post.
    destruct (negb _); [auto|].
    destruct (Sales.items req) as [[|item rest]|]; auto.
    match goal with
    | |- context [Sales.persistSale ?b db] =>
        pose proof (persistSale_collections b db) as (Hp & _ & Hs);
        destruct (Sales.persistSale b db) as [[[sale ups]|err] db1]
    end; cbn [fst snd] in *.
    + pose proof (sales_refresh_inventory NODE_ENV sale db1) as [_ Hs'].
      assert (Hp' : purchases (snd (Sales.refreshDashboard NODE_ENV sale db1))
                    = purchases db1).
      { unfold Sales.refreshDashboard. destruct (not_test _); [|reflexivity].
        unfold bind.
        destruct (increment_keeps_collections
                    (Parsed (sale_total sale)) (Parsed 1%Q) db1)
          as (r & d & ->).
        destruct (recalculate_total
                    (mkDB (inventory db1) (sales db1) (purchases db1) d))
          as (stats & ->). reflexivity. }
      destruct (Sales.refreshDashboard NODE_ENV sale db1) as [d db2].
      cbn [snd] in *. rewrite Hp', Hs', Hp, Hs. eauto.
    + auto.
  - intros env req db. unfold Purchases.post.
    destruct (negb _); [auto|].
    destruct (Purchases.items req) as [[|item rest]|]; auto.
    cbv zeta.
    assert (Hc : forall result d,
               sales (snd (Purchases.created env result d)) = sales d
               /\ purchases (snd (Purchases.created env result d))
                  = purchases d).
    { intros result d. unfold Purchases.created.
      pose proof (purchases_refresh_inventory env d) as [_ Hp].
      assert (Hs : sales (snd (Purchases.refreshDashboard env d)) = sales d).
      { unfold Purchases.refreshDashboard.
        destruct (not_test _); [|reflexivity].
        destruct (recalculate_total d) as (stats & ->). reflexivity. }
      destruct (Purchases.refreshDashboard env d) as [x d']. auto. }
    match goal with
    | |- context [Purchases.persistPurchase ?b ?s db] =>
        pose proof (persistPurchase_collections b s db) as (Hs & _ & Hp);
        destruct (Purchases.persistPurchase b s db)
          as [[[purchase ups]|err] db1] eqn:E1;
        set (body := b) in *; set (session := s) in *
    end; cbn [fst snd] in *.
    + destruct (Hc (purchase, ups) db1) as [-> ->]. rewrite Hs, Hp. eauto.
    + assert (Ha : sales (match session with Some _ => db | None => db1 end)
                   = sales db
                   /\ purchases (match session with
                                 | Some _ => db
                                 | None => db1
                                 end) = purchases db)
        by (destruct session; auto).
      destruct Ha as [Has Hap].
      destruct (andb _ (includes _ _)); [|cbn [snd]; auto].
      match goal with
      | |- context [Purchases.persistPurchase body None ?d] =>
          pose proof (persistPurchase_collections body None d)
            as (Hs2 & _ & Hp2);
          destruct (Purchases.persistPurchase body None d)
            as [[[purchase2 ups2]|err2] db2]
      end; cbn [fst snd] in *.
      * destruct (Hc (purchase2, ups2) db2) as [-> ->].
        rewrite Hs2, Hp2, Has, Hap. eauto.
      * rewrite Hs2, Hp2, Has, Hap. auto.
Qed.

Lemma Qsum_snoc (l : list Q) (x : Q) :
  (Reference.Qsum (l ++ [x]) == Reference.Qsum l + x)%Q.
Proof.
  induction l as [|a l IH]; simpl.
  - rewrite Qplus_0_r, Qplus_0_l. reflexivity.
  - rewrite IH, Qplus_assoc. reflexivity.
Qed.

(** Outside test mode, the dashboard in the 201 answer of a sale is the
    snapshot of the store the sale left: it is stored as the snapshot,
    its stock figures are those of the products after the deductions,
    its orders count the new Sale, and its totalSales is the sum over the
    earlier sales plus the total the client supplied for this one. *)
Theorem sale_answer_dashboard
    (NODE_ENV : option string) (req : Sales.Request)
    (items : list Sales.ItemInput) (db db1 : DB) (sale : Sale)
    (ups : list Product) :
  truthy (Sales.billId req) = true ->
  Sales.items req = Some items ->
  items <> [] ->
  not_test NODE_ENV = true ->
  Sales.persistSale (body_of_request req items) db = (Ok (sale, ups), db1) ->
  exists stats,
    Sales.post NODE_ENV req db
    = (mkResponse 201 (SaleCreated sale ups (Some stats)),
       mkDB (inventory db1) (sales db ++ [sale]) (purchases db) (Some stats))
    /\ (inventoryValue stats == Reference.inventoryValue (inventory db1))%Q
    /\ lowStock stats = Reference.lowStock (inventory db1)
    /\ outOfStock stats = Reference.outOfStock (inventory db1)
    /\ orders stats = Reference.orders (sales db ++ [sale]) (purchases db)
    /\ (totalSales stats
        == Reference.totalSales (sales db) + parseNumber (Sales.total req) 0)%Q.
Proof.
  intros Hb Hi Hne Ht Hp.
  pose proof (persistSale_collections (body_of_request req items) db)
    as (Hpur & _ & Hsales).
  rewrite Hp in Hpur, Hsales. cbn [fst snd] in Hpur, Hsales.
  assert (Htotal : sale_total sale = parseNumber (Sales.total req) 0).
  { rewrite persistSale_unfold in Hp.
    destruct (Sales.saleLoop _ _ _ _ _) as [[r|e] d]; [|discriminate].
    cbv zeta in Hp. destruct (_ =? _) in Hp; [discriminate|].
    injection Hp as <- _ _. reflexivity. }
  rewrite (sales_post_unfold NODE_ENV req items db Hb Hi Hne), Hp.
  cbn [fst snd].
  destruct (sales_refresh_recalculates NODE_ENV sale db1 Ht)
    as (stats & db2 & Hr & ->).
  destruct (recalculate_reference db1)
    as (stats' & Hr' & Hv & Hl & Ho & Hts & Hord).
  rewrite Hr' in Hr. injection Hr as <- <-.
  exists stats'. rewrite Hsales, Hpur in *.
  repeat split; try assumption.
  rewrite Hts. unfold Reference.totalSales.
  rewrite map_app. cbn [map]. rewrite Qsum_snoc, Htotal. reflexivity.
Qed.

Lemma sale_answer_dashboard_witness :
  exists sale ups stats db2,
    Sales.post (Some "production") c2_request_ok shop
    = (mkResponse 201 (SaleCreated sale ups (Some stats)), db2)
    /\ outOfStock stats = 1
    /\ lowStock stats = 1
    /\ orders stats = 1.
Proof.
  destruct (Sales.persistSale
              (body_of_request c2_request_ok
                 [sale_line "sku-1" 3; sale_line "sku-2" 3]) shop)
    as [[[sale ups]|e] db1] eqn:E; [|vm_compute in E; discriminate].
  destruct (sale_answer_dashboard (Some "production") c2_request_ok
              [sale_line "sku-1" 3; sale_line "sku-2" 3] shop db1 sale ups
              eq_refl eq_refl)
    as (stats & Hpost & _ & Hl & Ho & Hord & _);
    [discriminate|reflexivity|exact E|].
  vm_compute in E. injection E as <- <- <-.
  eexists _, _, stats, _. split; [exact Hpost|].
  rewrite Hl, Ho, Hord. repeat split.
Defined.

(* ===================================================================== *)
(** ** How a batch can fail                                               *)
(* ===================================================================== *)

Lemma purchaseItem_throw_kind (session : option Session) (i : nat)
    (item : Purchases.ItemInput) (db db' : DB) (e : Error) :
  usable session ->
  Purchases.purchaseItem session i item db = (Throw e, db') ->
  e = ItemProductIdRequired i
  \/ e = ItemQuantityInvalid i
  \/ e = ProductNotFound (Purchases.item_productId item).
Proof.
  intros Hs. unfold Purchases.purchaseItem.
  destruct (negb _); [unfold throw; intros [= <- <-]; auto|].
  destruct (_ <=? 0)%Z; [unfold throw; intros [= <- <-]; auto|].
  unfold bind at 1. rewrite purchases_load_resolve by exact Hs.
  destruct (resolve _ _) as [p|] eqn:Hr;
    [|unfold throw; intros [= <- <-]; auto].
  rewrite with_session_usable by exact Hs.
  unfold_monad. discriminate.
Qed.

(* ===================================================================== *)
(** ** When the purchases route uses a transaction                        *)
(* ===================================================================== *)

(** Unless MONGO_TRANSACTIONS reads true or 1 (in any letter case), the
    purchases route opens no session: what it answers and what it leaves
    in the store do not depend on the topology, the replica set options,
    the connection string or the server. *)
Theorem purchases_without_toggle_ignore_deployment
    (env env' : Purchases.Env) (req : Purchases.Request) (db : DB) :
  Purchases.transactionsRequested env = false ->
  Purchases.transactionsRequested env' = false ->
  Purchases.NODE_ENV env = Purchases.NODE_ENV env' ->
  route_session env = None
  /\ Purchases.post env req db = Purchases.post env' req db.
Proof.
  intros H H' Hn. split.
  - unfold route_session, shouldUseTransactions. rewrite H. reflexivity.
  - unfold Purchases.post. rewrite H, H'. cbn [andb].
    destruct (negb _); [reflexivity|].
    destruct (Purchases.items req) as [[|item rest]|]; try reflexivity.
    cbv zeta.
    assert (Hc : forall result d,
               Purchases.created env result d
               = Purchases.created env' result d).
    { intros result d.
      unfold Purchases.created, Purchases.refreshDashboard.
      rewrite Hn. reflexivity. }
    destruct (Purchases.persistPurchase _ None db) as [[result|err] db1];
      [apply Hc|reflexivity].
Qed.

Lemma purchases_without_toggle_ignore_deployment_witness :
  Purchases.post
    (Purchases.mkEnv None (Some "yes") None None (Some "Single") None None
                     None false) c9_request shop
  = Purchases.post
      (Purchases.mkEnv None None
         (Some "mongodb://db/shop?replicaSet=rs0") None
         (Some "ReplicaSetWithPrimary") (Some "rs0") None None true)
      c9_request shop.
Proof.
  exact (proj2 (purchases_without_toggle_ignore_deployment
                  (Purchases.mkEnv None (Some "yes") None None (Some "Single")
                                   None None None false)
                  (Purchases.mkEnv None None
                     (Some "mongodb://db/shop?replicaSet=rs0") None
                     (Some "ReplicaSetWithPrimary") (Some "rs0") None None
                     true)
                  c9_request shop eq_refl eq_refl eq_refl)).
Defined.

Lemma includes_skip_prefix (c : ascii) (needle pre s : string) :
  occurs c pre = false ->
  includes (pre ++ s) (String c needle) = includes s (String c needle).
Proof.
  induction pre as [|a pre IH]; intros Ho; [reflexivity|].
  simpl in Ho. apply orb_false_elim in Ho. destruct Ho as [Hac Ho].
  change ((String a pre ++ s)%string) with (String a (pre ++ s)).
  cbn [includes String.prefix].
  destruct (ascii_dec c a) as [->|Hne].
  - rewrite Ascii.eqb_refl in Hac. discriminate.
  - apply IH. exact Ho.
Qed.

(** On a usable session, the errors of a batch whose identifiers do not
    contain the text of the server's rejection do not start the
    fallback. *)
Lemma purchase_error_no_fallback (body : Purchases.Body)
    (session : option Session) (db db' : DB) (e : Error) :
  usable session ->
  Forall no_marker (Purchases.b_items body) ->
  Purchases.persistPurchase body session db = (Throw e, db') ->
  includes (message e) "Transaction numbers are only allowed" = false.
Proof.
  intros Hs Hall H. rewrite persistPurchase_unfold in H.
  destruct (Purchases.purchaseLoop session 0 (Purchases.b_items body)
                                   [] [] db) as [[r|e1] db1] eqn:E.
  - cbv zeta in H. rewrite with_session_usable in H by exact Hs.
    unfold Purchase_save in H. cbn [pur_billId] in H.
    destruct (_ =? _) in H; [|discriminate].
    injection H as <- <-. reflexivity.
  - injection H as <- <-.
    destruct (purchaseLoop_throws _ _ _ _ _ _ _ _ E)
      as (pre & item & post & r & Hitems & _ & Hitem).
    apply (purchaseItem_throw_kind session) in Hitem; [|exact Hs].
    destruct (validation_message_no_fallback (0 + List.length pre))
      as [H1 H2].
    destruct Hitem as [-> | [-> | ->]]; [exact H1|exact H2|].
    rewrite Forall_forall in Hall.
    assert (Hin : In item (Purchases.b_items body)).
    { rewrite Hitems. apply in_elt. }
    specialize (Hall item Hin). unfold no_marker in Hall.
    cbv beta iota delta [message].
    rewrite includes_skip_prefix by reflexivity. exact Hall.
Qed.

(** With transactions switched on and accepted by the server, a purchase
    past the two checks of the route is all or nothing, provided no
    product identifier of the batch contains the text of the server's
    rejection: when the batch would be processed, the route answers 201
    and the store holds every write of the batch; when the batch would
    fail, the route answers 500 with that error and the store is exactly
    the one the request found. *)
Theorem purchase_transaction_all_or_nothing
    (env : Purchases.Env) (req : Purchases.Request)
    (items : list Purchases.ItemInput) (db : DB) :
  shouldUseTransactions env = true ->
  Purchases.deployment_accepts_transactions env = true ->
  truthy (Purchases.billId req) = true ->
  Purchases.items req = Some items ->
  items <> [] ->
  Forall no_marker items ->
  match Purchases.persistPurchase (purchase_body_of_request req items) None db
  with
  | (Ok (purchase, ups), db1) =>
      exists dashboard db2,
        Purchases.post env req db
        = (mkResponse 201 (PurchaseCreated purchase ups dashboard), db2)
        /\ inventory db2 = inventory db1
        /\ purchases db2 = purchases db1
  | (Throw e, _) =>
      Purchases.post env req db = (mkResponse 500 (ErrorBody (message e)), db)
  end.
Proof.
  intros Hshould Hdep Hb Hi Hne Hall.
  assert (Hsess : route_session env = Some (mkSession true)).
  { unfold route_session. rewrite Hshould, Hdep. reflexivity. }
  rewrite (purchases_post_unfold env req items db Hb Hi Hne). cbv zeta.
  rewrite Hsess, (persistPurchase_usable (Some (mkSession true)))
    by reflexivity.
  destruct (Purchases.persistPurchase (purchase_body_of_request req items)
                                      None db)
    as [[[purchase ups]|e] db1] eqn:E.
  - pose proof (purchases_refresh_inventory env db1) as [Hinv Hpur].
    unfold Purchases.created.
    destruct (Purchases.refreshDashboard env db1) as [dashboard db2].
    exists dashboard, db2. repeat split; assumption.
  - rewrite (purchase_error_no_fallback (purchase_body_of_request req items)
               None db db1 e I Hall E).
    rewrite andb_false_r, error_text_message. reflexivity.
Qed.

(** The batch whose second line names an unknown product, in a
    transaction: the three tarpaulins of the first line are not kept. *)
Lemma purchase_transaction_all_or_nothing_witness :
  Purchases.post replica_env bad_purchase_request shop
  = (mkResponse 500 (ErrorBody "Product not found for id sku-404"), shop).
Proof.
  exact (purchase_transaction_all_or_nothing replica_env bad_purchase_request
           [purchase_line "sku-1" 3; purchase_line "sku-404" 1] shop
           eq_refl eq_refl eq_refl eq_refl
           ltac:(discriminate)
           ltac:(repeat constructor)).
Defined.

(* ===================================================================== *)
(** ** Product codes and their lookup                                     *)
(* ===================================================================== *)

Lemma upper_ascii_space (c : ascii) : is_space (upper_ascii c) = is_space c.
Proof. destruct c as [[] [] [] [] [] [] [] []]; reflexivity. Qed.

Lemma upper_ascii_idem (c : ascii) : upper_ascii (upper_ascii c) = upper_ascii c.
Proof. destruct c as [[] [] [] [] [] [] [] []]; reflexivity. Qed.

Lemma toUpperCase_idem (s : string) : toUpperCase (toUpperCase s) = toUpperCase s.
Proof.
  unfold toUpperCase. induction s as [|c s IH]; simpl; [reflexivity|].
  rewrite upper_ascii_idem, IH. reflexivity.
Qed.

Lemma trimStart_upper (s : string) :
  trimStart (toUpperCase s) = toUpperCase (trimStart s).
Proof.
  unfold toUpperCase. induction s as [|c s IH]; simpl; [reflexivity|].
  rewrite upper_ascii_space. destruct (is_space c); [exact IH|reflexivity].
Qed.

Lemma trimEnd_upper (s : string) :
  trimEnd (toUpperCase s) = toUpperCase (trimEnd s).
Proof.
  unfold toUpperCase. induction s as [|c s IH]; simpl; [reflexivity|].
  rewrite IH, upper_ascii_space.
  destruct (trimEnd s); simpl; [destruct (is_space c)|]; reflexivity.
Qed.

Lemma trimEnd_idem (s : string) : trimEnd (trimEnd s) = trimEnd s.
Proof.
  induction s as [|c s IH]; simpl; [reflexivity|].
  destruct (trimEnd s) as [|a r] eqn:E.
  - destruct (is_space c) eqn:Ec; simpl; [reflexivity|].
    rewrite Ec. reflexivity.
  - simpl. simpl in IH. rewrite IH. reflexivity.
Qed.

(** A string that does not start with white space keeps its first
    character, hence its start, under [trimEnd]. *)
Lemma trimStart_trimEnd (s : string) :
  trimStart s = s -> trimStart (trimEnd s) = trimEnd s.
Proof.
  destruct s as [|c s]; [reflexivity|]. simpl.
  destruct (is_space c) eqn:Ec.
  - intros H. exfalso.
    assert (Hlen : forall t,
               (String.length (trimStart t) <= String.length t)%nat).
    { induction t as [|a t IHt]; simpl; [lia|].
      destruct (is_space a); simpl; lia. }
    specialize (Hlen s). rewrite H in Hlen. simpl in Hlen. lia.
  - intros _. destruct (trimEnd s); simpl; rewrite Ec; reflexivity.
Qed.

Lemma trimStart_idem (s : string) : trimStart (trimStart s) = trimStart s.
Proof.
  induction s as [|c s IH]; simpl; [reflexivity|].
  destruct (is_space c) eqn:Ec; [exact IH|]. simpl. rewrite Ec. reflexivity.
Qed.

Lemma trim_idem (s : string) : trim (trim s) = trim s.
Proof.
  unfold trim.
  rewrite (trimStart_trimEnd (trimStart s)) by apply trimStart_idem.
  apply trimEnd_idem.
Qed.

Lemma trim_upper (s : string) : trim (toUpperCase s) = toUpperCase (trim s).
Proof. unfold trim. rewrite trimStart_upper, trimEnd_upper. reflexivity. Qed.

Lemma normalizeSku_idem (value : option string) :
  toUpperCase (normalizeString (Some (toUpperCase (normalizeString value))))
  = toUpperCase (normalizeString value).
Proof.
  unfold normalizeString. cbn [nullish].
  rewrite trim_upper, trim_idem, toUpperCase_idem. reflexivity.
Qed.


Lemma find_none_iff {A} (f : A -> bool) (l : list A) :
  find f l = None <-> forall a, In a l -> f a = false.
Proof.
  split.
  - intros H a Ha. eapply find_none; eauto.
  - induction l as [|x l IH]; simpl; [reflexivity|].
    intros H. rewrite (H x) by auto. apply IH. intros a Ha. apply H. auto.
Qed.

(** What [loadProductByIdentifier] answers.  It never writes.  A product
    it returns is a stored one, found for a non-empty identifier: its
    productId or its sku is the identifier, trimmed and in upper case,
    or else no stored product has that code, the trimmed identifier is 24
    hexadecimal digits and is its [_id].  When it returns nothing, no
    stored product has that code. *)
Theorem lookup_sound (identifier : option string) (db : DB) :
  let code := Products.normalizeSku identifier in
  let has_code := fun p => orb (productId p =? code) (sku p =? code) in
  exists r,
    Sales.loadProductByIdentifier identifier db = (Ok r, db)
    /\ match r with
       | Some p =>
           In p (inventory db)
           /\ truthy identifier = true
           /\ (has_code p = true
               \/ ((forall q, In q (inventory db) -> has_code q = false)
                   /\ isObjectIdHex (normalizeString identifier) = true
                   /\ _id p = normalizeString identifier))
       | None =>
           truthy identifier = true ->
           forall q, In q (inventory db) -> has_code q = false
       end.
Proof.
  cbv zeta. rewrite sales_load_resolve. eexists. split; [reflexivity|].
  unfold resolve, Products.normalizeSku.
  destruct (truthy identifier) eqn:Ht; cbn [negb]; [|discriminate].
  destruct (find _ (inventory db)) as [p|] eqn:Ef.
  - apply find_some in Ef. destruct Ef as [Hin Hc]. auto.
  - rewrite find_none_iff in Ef.
    destruct (isObjectIdHex _) eqn:Eh; [|intros _; exact Ef].
    destruct (find (fun p => _id p =? _) (inventory db)) as [p|] eqn:Ei;
      [|intros _; exact Ef].
    apply find_some in Ei. destruct Ei as [Hin Hid].
    apply String.eqb_eq in Hid. auto 10.
Qed.

(** Lookup by code does not see letter case or surrounding blanks: two
    non-empty identifiers with the same normal form, for which some
    stored product has that code, get the same answer, and a stored
    product that alone carries the code is the answer. *)
Theorem lookup_by_code_normalised
    (a b : string) (db : DB) (p : Product) :
  truthy (Some a) = true ->
  truthy (Some b) = true ->
  Products.normalizeSku (Some a) = Products.normalizeSku (Some b) ->
  In p (inventory db) ->
  productId p = Products.normalizeSku (Some a)
  \/ sku p = Products.normalizeSku (Some a) ->
  Sales.loadProductByIdentifier (Some a) db
  = Sales.loadProductByIdentifier (Some b) db
  /\ (exists found,
         Sales.loadProductByIdentifier (Some a) db = (Ok (Some found), db)
         /\ (productId found = Products.normalizeSku (Some a)
             \/ sku found = Products.normalizeSku (Some a)))
  /\ ((forall q, In q (inventory db) ->
                 productId q = Products.normalizeSku (Some a)
                 \/ sku q = Products.normalizeSku (Some a) -> q = p) ->
      Sales.loadProductByIdentifier (Some a) db = (Ok (Some p), db)).
Proof.
  intros Ha Hb Hab Hin Hcode.
  rewrite !sales_load_resolve. unfold resolve. rewrite Ha, Hb. cbn [negb].
  cbv zeta. unfold Products.normalizeSku in *. rewrite <- Hab.
  set (code := toUpperCase (normalizeString (Some a))) in *.
  destruct (find (fun q => orb (productId q =? code) (sku q =? code))
                 (inventory db)) as [found|] eqn:Ef.
  - split; [reflexivity|].
    apply find_some in Ef. destruct Ef as [Hf Hc].
    apply orb_true_iff in Hc. rewrite !String.eqb_eq in Hc.
    split; [exists found; auto|].
    intros Huniq. rewrite (Huniq found Hf Hc). reflexivity.
  - exfalso. rewrite find_none_iff in Ef. specialize (Ef p Hin).
    apply orb_false_elim in Ef. destruct Ef as [E1 E2].
    apply String.eqb_neq in E1. apply String.eqb_neq in E2.
    destruct Hcode; contradiction.
Qed.

Lemma lookup_by_code_normalised_witness :
  Sales.loadProductByIdentifier (Some "  sku-2") shop
  = Sales.loadProductByIdentifier (Some "Sku-2 ") shop
  /\ Sales.loadProductByIdentifier (Some "  sku-2") shop
     = (Ok (Some shop_rope), shop).
Proof.
  destruct (lookup_by_code_normalised "  sku-2" "Sku-2 " shop shop_rope
              eq_refl eq_refl eq_refl)
    as (Hsame & _ & Hfound).
  - right. left. reflexivity.
  - left. reflexivity.
  - split; [exact Hsame|]. apply Hfound.
    intros q [<-|[<-|[]]] [H|H]; try reflexivity; discriminate.
Defined.

Lemma lookup_sound_witness :
  exists p,
    Sales.loadProductByIdentifier (Some "sku-2") shop = (Ok (Some p), shop)
    /\ In p (inventory shop).
Proof.
  destruct (lookup_sound (Some "sku-2") shop) as (r & Hr & Hm).
  pose proof Hr as Hr'. vm_compute in Hr'. injection Hr' as <-.
  eexists. split; [exact Hr|exact (proj1 Hm)].
Defined.

(* ===================================================================== *)
(** ** The stock a sale takes is the stock its lines record               *)
(* ===================================================================== *)

Lemma saleItem_line_id (i : nat) (item : Sales.ItemInput) (db db' : DB)
    (p' : Product) (li : SaleItem) :
  Sales.saleItem i item db = (Ok (p', li), db') ->
  si_productId li = _id p' /\ si_productName li = name p'.
Proof.
  unfold Sales.saleItem.
  destruct (negb _); [unfold throw; congruence|].
  destruct (_ <=? 0)%Z; [unfold throw; congruence|].
  unfold bind at 1. rewrite sales_load_resolve.
  destruct (resolve _ _) as [p|]; [|unfold throw; congruence].
  destruct (_ <? _)%Z; [unfold throw; congruence|].
  unfold_monad. intros [= <- <- <-]. split; reflexivity.
Qed.

Lemma sold_in_cons (li : SaleItem) (lines : list SaleItem) (id : string) :
  sold_in (li :: lines) id
  = (if si_productId li =? id then si_quantity li else 0) + sold_in lines id.
Proof.
  unfold sold_in. simpl filter.
  destruct (si_productId li =? id); reflexivity.
Qed.

Lemma saleLoop_conserves :
  forall items i ups nis db ups' nis' db',
    unique_ids (inventory db) ->
    Sales.saleLoop i items ups nis db = (Ok (ups', nis'), db') ->
    exists lines,
      nis' = (nis ++ lines)%list
      /\ Forall2 (sold_from lines) (inventory db) (inventory db').
Proof.
  induction items as [|item rest IH];
    intros i ups nis db ups' nis' db' Hu.
  - simpl. unfold ret. intros [= <- <- <-]. exists [].
    rewrite app_nil_r. split; [reflexivity|].
    apply Forall2_diag. intros a. split; [reflexivity|]. intros _.
    unfold sold_in. simpl. lia.
  - rewrite saleLoop_cons.
    destruct (Sales.saleItem i item db) as [[[p1 li]|e] db1] eqn:E;
      [|discriminate].
    cbn [fst snd]. intros Hloop.
    pose proof (saleItem_line_id _ _ _ _ _ _ E) as [Hlid _].
    apply saleItem_inv in E.
    destruct E as (p & Hr & Hq & Hf & Hq1 & -> & Hlq & _).
    set (q := parseInteger (Sales.item_quantity item) 0) in *.
    assert (Hin : In p (inventory db)) by (eapply resolve_in; eauto).
    assert (Hid : _id p1 = _id p) by (unfold frame_of in Hf; congruence).
    assert (Hstep : Forall2 (fun a b => if _id p =? _id a
                                        then a = p /\ b = p1 else b = a)
                            (inventory db) (replace_product p1 (inventory db))).
    { apply (replace_product_sets (inventory db) p p1); auto.
      apply incl_refl. }
    assert (Hu1 : unique_ids (replace_product p1 (inventory db))).
    { unfold unique_ids. rewrite replace_product_ids. exact Hu. }
    apply IH in Hloop; [|exact Hu1].
    destruct Hloop as (lines & Hn & Hall).
    exists (li :: lines). split.
    + rewrite Hn, <- app_assoc. reflexivity.
    + cbn [inventory set_inventory] in Hall.
      eapply Forall2_compose; [|exact Hstep|exact Hall].
      cbv beta. intros a b c Hab [Hbc Hqbc].
      unfold sold_from.
      rewrite sold_in_cons, Hlid, Hlq, Hid. fold q.
      destruct (_id p =? _id a) eqn:Eid.
      * destruct Hab as [-> ->]. rewrite Hid in Hqbc.
        split; [congruence|]. intros Hmax.
        assert (Hp : 0 <= quantity p).
        { destruct (Z_lt_le_dec (quantity p) 0) as [Hneg|Hpos]; [|exact Hpos].
          pose proof (on_hand_below p q) as Hb. lia. }
        assert (Hread : on_hand p = quantity p).
        { apply on_hand_safe. unfold safe_integer. lia. }
        assert (Hdiff : quantity p1 = quantity p - q).
        { rewrite Hq1, Hread. unfold Js.minus.
          apply double_exact. lia. }
        rewrite Hdiff in Hqbc. specialize (Hqbc ltac:(lia)). lia.
      * subst b. split; [exact Hbc|]. intros Hmax.
        specialize (Hqbc Hmax). lia.
Qed.

(** Under the unique index on [_id], a sale that [persistSale] saves
    conserves stock: every product keeps its place and everything but
    price and quantity, and for every product whose stock was at most
    2^53 (up to which a double holds every integer) the quantity it had
    is the quantity it has plus the quantities of the saved lines that
    carry its [_id].  The Sale has one line, and the answer one updated
    product, per item. *)
Theorem sale_conserves_stock
    (body : Sales.Body) (db db' : DB) (sale : Sale) (ups : list Product) :
  unique_ids (inventory db) ->
  Sales.persistSale body db = (Ok (sale, ups), db') ->
  Forall2 (sold_from (sale_items sale)) (inventory db) (inventory db')
  /\ List.length (sale_items sale) = List.length (Sales.b_items body)
  /\ List.length ups = List.length (Sales.b_items body).
Proof.
  intros Hu Hp. rewrite persistSale_unfold in Hp.
  destruct (Sales.saleLoop 0 (Sales.b_items body) [] [] db)
    as [[[ups0 nis0]|e] db1] eqn:E; [|discriminate].
  cbv zeta in Hp. destruct (_ =? _) in Hp; [discriminate|].
  injection Hp as <- <- <-. cbn [sale_items snd fst inventory].
  destruct (saleLoop_conserves _ _ _ _ _ _ _ _ Hu E)
    as (lines & Hn & Hall).
  destruct (saleLoop_lines _ _ _ _ _ _ _ _ E) as (lines' & Hn' & Hlen).
  cbn in Hn, Hn'. subst nis0. subst lines'.
  split; [exact Hall|]. split; [exact Hlen|].
  clear - E. revert E.
  assert (Hgen : forall items i ups nis db ups' nis' db',
             Sales.saleLoop i items ups nis db = (Ok (ups', nis'), db') ->
             List.length ups' = (List.length ups + List.length items)%nat).
  { induction items as [|item rest IH]; intros i ups nis db0 ups' nis' db0'.
    - simpl. unfold ret. intros [= <- <- <-]. lia.
    - rewrite saleLoop_cons.
      destruct (Sales.saleItem i item db0) as [[r|e] d]; [|discriminate].
      intros H. apply IH in H. rewrite H, length_app. simpl. lia. }
  intros E. apply Hgen in E. exact E.
Qed.

Lemma sale_conserves_stock_witness :
  exists sale ups db',
    Sales.persistSale
      (sale_of [sale_line "sku-1" 2; sale_line "sku-2" 1; sale_line "SKU-1" 3])
      shop = (Ok (sale, ups), db')
    /\ Forall2 (sold_from (sale_items sale)) (inventory shop) (inventory db')
    /\ sold_in (sale_items sale) "p-1" = 5
    /\ map quantity (inventory db') = [0; 2].
Proof.
  destruct (Sales.persistSale
              (sale_of [sale_line "sku-1" 2; sale_line "sku-2" 1;
                        sale_line "SKU-1" 3]) shop)
    as [[[sale ups]|e] db'] eqn:E; [|vm_compute in E; discriminate].
  exists sale, ups, db'. split; [reflexivity|]. split.
  - exact (proj1 (sale_conserves_stock _ _ _ _ _ shop_unique_ids E)).
  - vm_compute in E. injection E as <- <- <-. split; reflexivity.
Defined.

(* ===================================================================== *)
(** ** Stock adjustment and removal of a product                          *)
(* ===================================================================== *)












Lemma delete_by_id_absent (id : string) (inv : list Product) :
  ~ In id (map _id inv) -> Products.delete_by_id id inv = inv.
Proof.
  induction inv as [|a inv IH]; simpl; [reflexivity|].
  intros H. destruct (_id a =? id) eqn:E.
  - apply String.eqb_eq in E. exfalso. apply H. left. exact E.
  - rewrite IH; [reflexivity|]. intros Hin. apply H. right. exact Hin.
Qed.




(* ===================================================================== *)
(** ** The in-memory products store                                       *)
(* ===================================================================== *)

Lemma findIndex_some {A} (f : A -> bool) (l : list A) (i : nat) (a : A) :
  MemoryProducts.findIndex f l = Some (i, a) ->
  nth_error l i = Some a /\ f a = true
  /\ forall j b, (j < i)%nat -> nth_error l j = Some b -> f b = false.
Proof.
  revert i. induction l as [|x l IH]; intros i; simpl; [discriminate|].
  destruct (f x) eqn:E.
  - intros [= <- <-]. repeat split; auto. intros j b Hj. lia.
  - destruct (MemoryProducts.findIndex f l) as [[k c]|]; [|discriminate].
    simpl. intros [= <- <-]. destruct (IH k eq_refl) as (Hn & Hf & Hbefore).
    repeat split; auto.
    intros [|j] b Hj; simpl.
    + intros [= <-]. exact E.
    + apply Hbefore. lia.
Qed.

Lemma findIndex_none {A} (f : A -> bool) (l : list A) :
  MemoryProducts.findIndex f l = None -> forall a, In a l -> f a = false.
Proof.
  induction l as [|x l IH]; simpl; [tauto|].
  destruct (f x) eqn:E; [discriminate|].
  destruct (MemoryProducts.findIndex f l); [discriminate|].
  intros _ a [<-|Ha]; auto.
Qed.

Lemma findIndex_assign {A} (f : A -> bool) (l : list A) (i : nat) (a a' : A) :
  MemoryProducts.findIndex f l = Some (i, a) -> f a' = true ->
  MemoryProducts.findIndex f (MemoryProducts.assign i a' l) = Some (i, a').
Proof.
  revert i. induction l as [|x l IH]; intros i; simpl; [discriminate|].
  destruct (f x) eqn:E.
  - intros [= <- <-] Ha'. simpl. rewrite Ha'. reflexivity.
  - destruct (MemoryProducts.findIndex f l) as [[k c]|] eqn:El;
      [|discriminate].
    simpl. intros [= <- <-] Ha'. simpl. rewrite E.
    rewrite (IH k eq_refl Ha'). reflexivity.
Qed.

Lemma findIndex_snoc {A} (f : A -> bool) (l : list A) (a : A) :
  MemoryProducts.findIndex f l = None -> f a = true ->
  MemoryProducts.findIndex f (l ++ [a]) = Some (List.length l, a).
Proof.
  induction l as [|x l IH]; simpl.
  - intros _ ->. reflexivity.
  - destruct (f x); [discriminate|].
    destruct (MemoryProducts.findIndex f l); [discriminate|].
    intros _ Ha. rewrite (IH eq_refl Ha). reflexivity.
Qed.

Lemma assign_length {A} (i : nat) (a : A) (l : list A) :
  List.length (MemoryProducts.assign i a l) = List.length l.
Proof.
  revert i. induction l as [|x l IH]; intros [|i]; simpl; auto.
Qed.

Lemma assign_Forall {A} (P : A -> Prop) (i : nat) (a : A) (l : list A) :
  P a -> Forall P l -> Forall P (MemoryProducts.assign i a l).
Proof.
  intros Ha. revert i. induction l as [|x l IH]; intros [|i] Hall; simpl;
    inversion Hall; subst; constructor; auto.
Qed.

Lemma splice1_Forall {A} (P : A -> Prop) (i : nat) (l : list A) :
  Forall P l -> Forall P (MemoryProducts.splice1 i l).
Proof.
  revert i. induction l as [|x l IH]; intros [|i] Hall; simpl;
    inversion Hall; subst; auto.
Qed.

Lemma assign_same_map {A B} (g : A -> B) (i : nat) (a a' : A) (l : list A) :
  nth_error l i = Some a -> g a' = g a ->
  map g (MemoryProducts.assign i a' l) = map g l.
Proof.
  revert i. induction l as [|x l IH]; intros [|i]; simpl; try discriminate.
  - intros [= ->] ->. reflexivity.
  - intros Hn Hg. rewrite (IH i Hn Hg). reflexivity.
Qed.

Lemma stock_read_safe (p : MemoryProducts.Product) :
  safe_integer (MemoryProducts.quantity p) ->
  stock_read p = MemoryProducts.quantity p.
Proof.
  unfold safe_integer, stock_read, of_number. intros H.
  cbn [parseInteger Number_parse].
  apply parseInt_number_small.
  assert (H21 : 2 ^ 53 < 10 ^ 21) by reflexivity. lia.
Qed.

(** A payload of primitive values, taken apart. *)
Lemma primitive_inv (raw : MemoryProducts.Payload) :
  primitive raw = true ->
  exists n s p q pr r sz g im,
    raw = MemoryProducts.mkPayload
            (MemoryProducts.Plain n) (MemoryProducts.Plain s)
            (MemoryProducts.Plain p) (MemoryProducts.Plain q)
            (MemoryProducts.Plain pr) (MemoryProducts.Plain r)
            (MemoryProducts.Plain sz) (MemoryProducts.Plain g) im.
Proof.
  destruct raw as [[n|] [s|] [p|] [q|] [pr|] [r|] [sz|] [g|] im];
    try discriminate.
  intros _. exists n, s, p, q, pr, r, sz, g, im. reflexivity.
Qed.

(** What [upsertProduct] does with a payload of primitive values that
    has a name and a code. *)
Lemma upsert_named (uuid now : string) (raw : MemoryProducts.Payload)
    (inc : bool) (products : list MemoryProducts.Product) :
  primitive raw = true ->
  name_of raw <> "" ->
  code_of raw <> "" ->
  exists document,
    MemoryProducts.sku document = code_of raw
    /\ MemoryProducts.productId document
       = MemoryProducts.or_else
           (MemoryProducts.normalizeSku
              (member (MemoryProducts.coalesce
                         (MemoryProducts.raw_productId raw)
                         (MemoryProducts.raw_sku raw)) None))
           (code_of raw)
    /\ MemoryProducts.updatedAt document = now
    /\ match MemoryProducts.findProductIndex products (code_of raw) with
       | Some (i, existing) =>
           MemoryProducts.upsertProduct uuid now raw inc products
           = (MemoryProducts.Returned document false,
              MemoryProducts.assign i document products)
           /\ MemoryProducts.id document = MemoryProducts.id existing
           /\ MemoryProducts.createdAt document
              = MemoryProducts.createdAt existing
           /\ MemoryProducts.quantity document
              = (if inc then Js.plus (stock_read existing) (quantity_of raw)
                 else match member (MemoryProducts.raw_quantity raw) None with
                      | Some _ => quantity_of raw
                      | None => MemoryProducts.quantity existing
                      end)
           /\ MemoryProducts.size document
              = match member (MemoryProducts.raw_size raw) None with
                | Some v => normalizeString v
                | None => MemoryProducts.size existing
                end
           /\ MemoryProducts.gsm document
              = match member (MemoryProducts.raw_gsm raw) None with
                | Some v => normalizeString v
                | None => MemoryProducts.gsm existing
                end
           /\ MemoryProducts.image document
              = match MemoryProducts.raw_image raw with
                | Some v => Some v
                | None => MemoryProducts.image existing
                end
       | None =>
           MemoryProducts.upsertProduct uuid now raw inc products
           = (MemoryProducts.Returned document true,
              (products ++ [document])%list)
           /\ MemoryProducts.id document = uuid
           /\ MemoryProducts.createdAt document = now
           /\ MemoryProducts.quantity document = quantity_of raw
           /\ MemoryProducts.size document
              = MemoryProducts.normalizeOptionalString
                  (member (MemoryProducts.raw_size raw) None)
           /\ MemoryProducts.gsm document
              = MemoryProducts.normalizeOptionalString
                  (member (MemoryProducts.raw_gsm raw) None)
           /\ MemoryProducts.image document = MemoryProducts.raw_image raw
       end
    /\ MemoryProducts.name document = name_of raw
    /\ MemoryProducts.price document
       = parseNumber (member (MemoryProducts.raw_price raw) Absent) 0
    /\ MemoryProducts.reorderPoint document
       = (let parsed :=
            parseInteger (member (MemoryProducts.raw_reorderPoint raw) Absent)
                         10 in
          if (parsed =? 0)%Z then 10 else parsed).
Proof.
  intros Hprim Hname Hcode.
  destruct (primitive_inv raw Hprim)
    as (n & s & p & q & pr & r & sz & g & im & ->).
  clear Hprim.
  unfold name_of, code_of, quantity_of, stock_read in *.
  cbn [MemoryProducts.raw_name MemoryProducts.raw_sku
       MemoryProducts.raw_productId MemoryProducts.raw_quantity
       MemoryProducts.raw_price MemoryProducts.raw_reorderPoint
       MemoryProducts.raw_size MemoryProducts.raw_gsm
       MemoryProducts.raw_image member] in *.
  unfold MemoryProducts.upsertProduct.
  cbn [MemoryProducts.raw_name MemoryProducts.raw_sku
       MemoryProducts.raw_productId MemoryProducts.raw_quantity
       MemoryProducts.raw_price MemoryProducts.raw_reorderPoint
       MemoryProducts.raw_size MemoryProducts.raw_gsm
       MemoryProducts.raw_image].
  apply String.eqb_neq in Hname. apply String.eqb_neq in Hcode.
  destruct s as [s|], p as [p|];
    cbn [MemoryProducts.coalesce member] in *;
    rewrite Hname, Hcode; cbv zeta;
    (destruct (MemoryProducts.findProductIndex products _)
       as [[i existing]|];
     eexists;
     (split; [|split; [|split; [|split; [split; [reflexivity|]|]]]]);
     cbn; repeat split; reflexivity).
Qed.

Lemma matches_own_sku (p : MemoryProducts.Product) :
  orb (MemoryProducts.id p =? MemoryProducts.sku p)
      (orb (MemoryProducts.productId p =? MemoryProducts.sku p)
           (MemoryProducts.sku p =? MemoryProducts.sku p)) = true.
Proof. rewrite String.eqb_refl, !orb_true_r. reflexivity. Qed.

Ltac payload_members :=
  cbn [MemoryProducts.raw_name MemoryProducts.raw_sku
       MemoryProducts.raw_productId MemoryProducts.raw_quantity
       MemoryProducts.raw_price MemoryProducts.raw_reorderPoint
       MemoryProducts.raw_size MemoryProducts.raw_gsm
       MemoryProducts.raw_image MemoryProducts.coalesce member converts].

Ltac unconverted :=
  intros [= <- <-];
  (split; [reflexivity|rewrite ?andb_false_r; reflexivity]).

(** [upsertProduct] throws before it writes: for a blank name, for a
    blank code, or for a member that does not convert. *)
Lemma upsert_threw (uuid now : string) (raw : MemoryProducts.Payload)
    (inc : bool) (products products' : list MemoryProducts.Product)
    (e : MemoryProducts.UpsertError) :
  MemoryProducts.upsertProduct uuid now raw inc products
  = (MemoryProducts.Threw e, products') ->
  products' = products
  /\ match e with
     | MemoryProducts.NameRequired => name_of raw = ""
     | MemoryProducts.SkuRequired => name_of raw <> "" /\ code_of raw = ""
     | MemoryProducts.NotPrimitive => primitive raw = false
     end.
Proof.
  unfold MemoryProducts.upsertProduct, primitive, name_of, code_of.
  destruct raw as [rn rs rp rq rpr rr rsz rg im]. payload_members.
  destruct rn as [n|]; [|unconverted].
  destruct rs as [[s|]|], rp as [[p|]|]; payload_members;
    try unconverted.
  all: destruct (normalizeString n =? "") eqn:En;
    [intros [= <- <-];
     (split; [reflexivity|apply String.eqb_eq; exact En])|].
  all: destruct (MemoryProducts.normalizeSku _ =? "") eqn:Ec;
    [intros [= <- <-];
     (split; [reflexivity
             |split; [apply String.eqb_neq; exact En
                     |apply String.eqb_eq; exact Ec]])|].
  all: destruct rq as [q|]; [|unconverted].
  all: destruct rpr as [pr|]; [|unconverted].
  all: destruct rr as [r|]; [|unconverted].
  all: cbv zeta;
    destruct (MemoryProducts.findProductIndex products _) as [[i ex]|].
  all: destruct rsz as [sz|]; [|unconverted].
  all: destruct rg as [g|]; [|unconverted].
  all: discriminate.
Qed.

(** [upsertProduct] returns only for a payload of primitive values with
    a name and a code. *)
Lemma upsert_returned_named (uuid now : string)
    (raw : MemoryProducts.Payload) (inc : bool)
    (products products' : list MemoryProducts.Product)
    (document : MemoryProducts.Product) (created : bool) :
  MemoryProducts.upsertProduct uuid now raw inc products
  = (MemoryProducts.Returned document created, products') ->
  primitive raw = true /\ name_of raw <> "" /\ code_of raw <> "".
Proof.
  unfold MemoryProducts.upsertProduct, primitive, name_of, code_of.
  destruct raw as [rn rs rp rq rpr rr rsz rg im]. payload_members.
  destruct rn as [n|]; [|discriminate].
  destruct rs as [[s|]|], rp as [[p|]|]; payload_members;
    try discriminate.
  all: destruct (normalizeString n =? "") eqn:En; [discriminate|].
  all: destruct (MemoryProducts.normalizeSku _ =? "") eqn:Ec; [discriminate|].
  all: destruct rq as [q|]; [|discriminate].
  all: destruct rpr as [pr|]; [|discriminate].
  all: destruct rr as [r|]; [|discriminate].
  all: cbv zeta;
    destruct (MemoryProducts.findProductIndex products _) as [[i ex]|].
  all: destruct rsz as [sz|]; [|discriminate].
  all: destruct rg as [g|]; [|discriminate].
  all: intros _; (split; [reflexivity|]);
    (split; apply String.eqb_neq; assumption).
Qed.

(** POST on the in-memory store, for a payload of primitive values with
    a name and a code: the answer is the stored document, which carries
    the normalised code as its sku and is what a lookup of that code
    finds afterwards.  When no element matched the code the answer is
    201, the document is new, last in the array, with the given uuid and
    the payload's quantity; when one matched, the answer is 200, the
    document replaces it in place, keeps its id, and its quantity is the
    sum of the stock the route read and the payload's quantity, which
    raises the stock by the payload's quantity while both are integers a
    double holds exactly. *)
Theorem memory_post_then_find
    (uuid now : string) (body : MemoryProducts.Payload)
    (products : list MemoryProducts.Product) :
  primitive body = true ->
  name_of body <> "" ->
  code_of body <> "" ->
  exists st document products' i,
    MemoryProducts.post uuid now body products
    = (MemoryProducts.Document st document, products')
    /\ MemoryProducts.sku document = code_of body
    /\ MemoryProducts.findProductIndex products' (code_of body)
       = Some (i, document)
    /\ match MemoryProducts.findProductIndex products (code_of body) with
       | None =>
           st = 201 /\ products' = (products ++ [document])%list
           /\ i = List.length products
           /\ MemoryProducts.id document = uuid
           /\ MemoryProducts.quantity document = quantity_of body
       | Some (j, existing) =>
           st = 200 /\ i = j
           /\ List.length products' = List.length products
           /\ MemoryProducts.id document = MemoryProducts.id existing
           /\ MemoryProducts.quantity document
              = Js.plus (stock_read existing) (quantity_of body)
           /\ (safe_integer (MemoryProducts.quantity existing) ->
               safe_integer (MemoryProducts.quantity existing
                             + quantity_of body) ->
               MemoryProducts.quantity document
               = MemoryProducts.quantity existing + quantity_of body)
       end.
Proof.
  intros Hprim Hname Hcode.
  destruct (upsert_named uuid now body true products Hprim Hname Hcode)
    as (document & Hsku & _ & _ & Hcase & _).
  unfold MemoryProducts.post.
  assert (Hm : (fun p => orb (MemoryProducts.id p =? code_of body)
                             (orb (MemoryProducts.productId p =? code_of body)
                                  (MemoryProducts.sku p =? code_of body)))
                 document = true).
  { cbv beta. rewrite <- Hsku. apply matches_own_sku. }
  unfold MemoryProducts.findProductIndex in *.
  destruct (MemoryProducts.findIndex _ products) as [[j existing]|] eqn:Ef.
  - destruct Hcase as (-> & Hid & _ & Hq & _).
    exists 200, document, (MemoryProducts.assign j document products), j.
    split; [reflexivity|]. split; [exact Hsku|]. split.
    + apply (findIndex_assign _ _ _ existing); assumption.
    + repeat split; auto.
      * apply assign_length.
      * intros Hsafe Hsum. rewrite Hq, (stock_read_safe existing Hsafe).
        apply double_exact. exact Hsum.
  - destruct Hcase as (-> & Hid & _ & Hq & _).
    exists 201, document, (products ++ [document])%list, (List.length products).
    split; [reflexivity|]. split; [exact Hsku|]. split.
    + apply findIndex_snoc; assumption.
    + repeat split; auto.
Qed.

Lemma memory_post_then_find_witness :
  exists document products',
    MemoryProducts.post "u-2" "t1" payload_tarp [mem_tarp]
    = (MemoryProducts.Document 200 document, products')
    /\ MemoryProducts.quantity document = 9
    /\ MemoryProducts.findProductIndex products' "SKU-1"
       = Some (0%nat, document).
Proof.
  destruct (memory_post_then_find "u-2" "t1" payload_tarp [mem_tarp])
    as (st & document & products' & i & Hpost & _ & Hfind & Hcase);
    [reflexivity|discriminate|discriminate|].
  change (MemoryProducts.findProductIndex [mem_tarp] (code_of payload_tarp))
    with (Some (0%nat, mem_tarp)) in Hcase.
  destruct Hcase as (-> & -> & _ & _ & Hq & _).
  exists document, products'. split; [exact Hpost|]. split; [exact Hq|].
  exact Hfind.
Defined.

(** How POST on the in-memory store fails.  It answers 400 with "name
    required" for a blank name and 400 with "sku required" for a name
    and a blank code; it answers 500, with the message of the TypeError,
    only for a payload with a member that does not convert, and always
    for one with a name and a code.  Every failure leaves the array as
    it was. *)
Theorem memory_post_failures
    (uuid now : string) (body : MemoryProducts.Payload)
    (products : list MemoryProducts.Product) :
  (forall st text products',
      MemoryProducts.post uuid now body products
      = (MemoryProducts.Failed st text, products') ->
      products' = products
      /\ ((st = 400 /\ text = "name required" /\ name_of body = "")
          \/ (st = 400 /\ text = "sku required"
              /\ name_of body <> "" /\ code_of body = "")
          \/ (st = 500 /\ text = "Cannot convert object to primitive value"
              /\ primitive body = false)))
  /\ (primitive body = true -> name_of body = "" ->
      MemoryProducts.post uuid now body products
      = (MemoryProducts.Failed 400 "name required", products))
  /\ (primitive body = true -> name_of body <> "" -> code_of body = "" ->
      MemoryProducts.post uuid now body products
      = (MemoryProducts.Failed 400 "sku required", products))
  /\ (primitive body = false -> name_of body <> "" -> code_of body <> "" ->
      MemoryProducts.post uuid now body products
      = (MemoryProducts.Failed 500 "Cannot convert object to primitive value",
         products)).
Proof.
  unfold MemoryProducts.post.
  destruct (MemoryProducts.upsertProduct uuid now body true products)
    as [[e|document created] products1] eqn:E.
  - destruct (upsert_threw _ _ _ _ _ _ _ E) as [-> He].
    split; [|split; [|split]].
    + intros st text products' [= <- <- <-]. split; [reflexivity|].
      destruct e; [left|right; left|right; right];
        (split; [reflexivity|]); (split; [reflexivity|exact He]).
    + intros Hprim Hname.
      destruct e; [reflexivity|destruct He; contradiction|congruence].
    + intros Hprim Hname Hcode.
      destruct e; [contradiction|reflexivity|congruence].
    + intros Hprim Hname Hcode.
      destruct e; [contradiction|destruct He; contradiction|reflexivity].
  - destruct (upsert_returned_named _ _ _ _ _ _ _ _ E)
      as (Hprim & Hname & Hcode).
    split; [|split; [|split]].
    + intros st text products'. discriminate.
    + intros _ H. contradiction.
    + intros _ _ H. contradiction.
    + intros H. congruence.
Qed.

Lemma memory_post_failures_witness :
  MemoryProducts.post "u-3" "t1" payload_blank [mem_tarp]
  = (MemoryProducts.Failed 400 "name required", [mem_tarp])
  /\ MemoryProducts.post "u-4" "t1" payload_exotic [mem_tarp]
     = (MemoryProducts.Failed 500 "Cannot convert object to primitive value",
        [mem_tarp]).
Proof.
  split.
  - exact (proj1 (proj2 (memory_post_failures "u-3" "t1" payload_blank
                           [mem_tarp])) eq_refl eq_refl).
  - apply (proj2 (proj2 (proj2 (memory_post_failures "u-4" "t1" payload_exotic
                                  [mem_tarp])))).
    + reflexivity.
    + discriminate.
    + discriminate.
Defined.

Lemma unstamped_eq (a b : MemoryProducts.Product) :
  MemoryProducts.id a = MemoryProducts.id b ->
  MemoryProducts.name a = MemoryProducts.name b ->
  MemoryProducts.sku a = MemoryProducts.sku b ->
  MemoryProducts.productId a = MemoryProducts.productId b ->
  MemoryProducts.price a = MemoryProducts.price b ->
  MemoryProducts.quantity a = MemoryProducts.quantity b ->
  MemoryProducts.reorderPoint a = MemoryProducts.reorderPoint b ->
  MemoryProducts.size a = MemoryProducts.size b ->
  MemoryProducts.gsm a = MemoryProducts.gsm b ->
  MemoryProducts.image a = MemoryProducts.image b ->
  MemoryProducts.createdAt a = MemoryProducts.createdAt b ->
  unstamped a = unstamped b.
Proof.
  unfold unstamped. intros. congruence.
Qed.

(** An import is idempotent: [upsertProduct] without increment, applied
    again with the same payload to the array it left, finds the document
    it wrote, creates nothing, and writes the same document; nothing in
    the array changes but the [updatedAt] stamp of that document. *)
Theorem memory_import_idempotent
    (uuid1 now1 uuid2 now2 : string) (raw : MemoryProducts.Payload)
    (products products1 : list MemoryProducts.Product)
    (document1 : MemoryProducts.Product) (created1 : bool) :
  MemoryProducts.upsertProduct uuid1 now1 raw false products
  = (MemoryProducts.Returned document1 created1, products1) ->
  exists document2 products2,
    MemoryProducts.upsertProduct uuid2 now2 raw false products1
    = (MemoryProducts.Returned document2 false, products2)
    /\ unstamped document2 = unstamped document1
    /\ map unstamped products2 = map unstamped products1.
Proof.
  intros H1.
  destruct (upsert_returned_named _ _ _ _ _ _ _ _ H1)
    as (Hprim & Hname & Hcode).
  destruct (upsert_named uuid1 now1 raw false products Hprim Hname Hcode)
    as (d1 & Hsku1 & Hpid1 & _ & Hcase1 & Hn1 & Hp1 & Hr1).
  destruct (upsert_named uuid2 now2 raw false products1 Hprim Hname Hcode)
    as (d2 & Hsku2 & Hpid2 & _ & Hcase2 & Hn2 & Hp2 & Hr2).
  assert (Hm : (fun p => orb (MemoryProducts.id p =? code_of raw)
                             (orb (MemoryProducts.productId p =? code_of raw)
                                  (MemoryProducts.sku p =? code_of raw)))
                 d1 = true).
  { cbv beta. rewrite <- Hsku1. apply matches_own_sku. }
  assert (Hfound : exists i,
             document1 = d1
             /\ MemoryProducts.findProductIndex products1 (code_of raw)
                = Some (i, d1)
             /\ MemoryProducts.quantity d1
                = match member (MemoryProducts.raw_quantity raw) None with
                  | Some _ => quantity_of raw
                  | None => MemoryProducts.quantity d1
                  end
             /\ MemoryProducts.size d1
                = match member (MemoryProducts.raw_size raw) None with
                  | Some v => normalizeString v
                  | None => MemoryProducts.size d1
                  end
             /\ MemoryProducts.gsm d1
                = match member (MemoryProducts.raw_gsm raw) None with
                  | Some v => normalizeString v
                  | None => MemoryProducts.gsm d1
                  end
             /\ MemoryProducts.image d1
                = match MemoryProducts.raw_image raw with
                  | Some v => Some v
                  | None => MemoryProducts.image d1
                  end).
  { unfold MemoryProducts.findProductIndex in *.
    destruct (MemoryProducts.findIndex _ products) as [[j existing]|] eqn:Ef.
    - destruct Hcase1 as (Hu & _ & _ & Hq & Hs & Hg & Hi).
      rewrite Hu in H1. injection H1 as <- _ <-.
      exists j. split; [reflexivity|]. split.
      + apply (findIndex_assign _ _ _ existing); assumption.
      + rewrite Hq, Hs, Hg, Hi.
        destruct (member (MemoryProducts.raw_quantity raw) None),
          (member (MemoryProducts.raw_size raw) None),
          (member (MemoryProducts.raw_gsm raw) None),
          (MemoryProducts.raw_image raw); repeat split; reflexivity.
    - destruct Hcase1 as (Hu & _ & _ & Hq & Hs & Hg & Hi).
      rewrite Hu in H1. injection H1 as <- _ <-.
      exists (List.length products). split; [reflexivity|]. split.
      + apply findIndex_snoc; assumption.
      + rewrite Hq, Hs, Hg, Hi. unfold quantity_of.
        destruct (member (MemoryProducts.raw_quantity raw) None),
          (member (MemoryProducts.raw_size raw) None),
          (member (MemoryProducts.raw_gsm raw) None),
          (MemoryProducts.raw_image raw); repeat split; reflexivity. }
  destruct Hfound as (i & -> & Hfind & Hq1 & Hs1 & Hg1 & Hi1).
  rewrite Hfind in Hcase2.
  destruct Hcase2 as (Hu2 & Hid2 & Hc2 & Hq2 & Hs2 & Hg2 & Hi2).
  assert (Heq : unstamped d2 = unstamped d1).
  { apply unstamped_eq; congruence. }
  exists d2, (MemoryProducts.assign i d2 products1).
  split; [exact Hu2|]. split; [exact Heq|].
  apply (assign_same_map unstamped i d1 d2); [|exact Heq].
  unfold MemoryProducts.findProductIndex in Hfind.
  apply findIndex_some in Hfind. tauto.
Qed.

Lemma memory_import_idempotent_witness :
  exists document2 products2,
    MemoryProducts.upsertProduct "u-9" "t2" payload_rope false
      (snd (MemoryProducts.upsertProduct "u-2" "t1" payload_rope false
              [mem_tarp]))
    = (MemoryProducts.Returned document2 false, products2)
    /\ map unstamped products2
       = map unstamped
           (snd (MemoryProducts.upsertProduct "u-2" "t1" payload_rope false
                   [mem_tarp])).
Proof.
  destruct (memory_import_idempotent "u-2" "t1" "u-9" "t2" payload_rope
              [mem_tarp] _ _ _ eq_refl)
    as (d2 & products2 & H2 & _ & Hmap).
  exists d2, products2. split; [exact H2|exact Hmap].
Defined.

Lemma upsert_length (uuid now : string) (raw : MemoryProducts.Payload)
    (inc : bool) (products : list MemoryProducts.Product) :
  match MemoryProducts.upsertProduct uuid now raw inc products with
  | (MemoryProducts.Returned _ true, products') =>
      List.length products' = S (List.length products)
  | (_, products') => List.length products' = List.length products
  end.
Proof.
  destruct (MemoryProducts.upsertProduct uuid now raw inc products)
    as [[e|document created] products'] eqn:E.
  - apply upsert_threw in E. destruct E as [-> _]. reflexivity.
  - destruct (upsert_returned_named _ _ _ _ _ _ _ _ E)
      as (Hprim & Hname & Hcode).
    destruct (upsert_named uuid now raw inc products Hprim Hname Hcode)
      as (d & _ & _ & _ & Hcase & _).
    destruct (MemoryProducts.findProductIndex products (code_of raw))
      as [[i ex]|]; destruct Hcase as (Hu & _); rewrite Hu in E;
      injection E as <- <- <-.
    + apply assign_length.
    + rewrite length_app. simpl. lia.
Qed.

Lemma bulkLoop_counts (uuid now : nat -> string) :
  forall entries i inserted updated errors products,
    Forall (fun e => (MemoryProducts.index e < i)%nat) errors ->
    match MemoryProducts.bulkLoop uuid now i entries inserted updated errors
                                  products with
    | ((inserted', updated', errors'), products') =>
        (inserted' + updated' + List.length errors'
         = inserted + updated + List.length errors + List.length entries)%nat
        /\ (List.length products' + inserted
            = List.length products + inserted')%nat
        /\ Forall (fun e => (MemoryProducts.index e
                             < i + List.length entries)%nat) errors'
    end.
Proof.
  induction entries as [|entry rest IH];
    intros i inserted updated errors products Herr.
  - simpl. repeat split; try lia.
    eapply Forall_impl; [|exact Herr]. simpl. intros e He. lia.
  - cbn [MemoryProducts.bulkLoop].
    pose proof (upsert_length (uuid i) (now i) entry false products) as Hlen.
    assert (Herr' : Forall (fun e => (MemoryProducts.index e < S i)%nat) errors).
    { eapply Forall_impl; [|exact Herr]. simpl. intros e He. lia. }
    destruct (MemoryProducts.upsertProduct (uuid i) (now i) entry false products)
      as [[err|document [|]] products1].
    + specialize (IH (S i) inserted updated
                     (errors ++ [MemoryProducts.mkBulkError i
                                   (MemoryProducts.or_else
                                      (MemoryProducts.error_message err)
                                      "unknown error")])%list
                     products1).
      destruct (MemoryProducts.bulkLoop _ _ _ _ _ _ _ _)
        as [[[ins' upd'] errs'] products'].
      destruct IH as (Hc & Hl & Hi).
      { apply Forall_app. split; [exact Herr'|].
        constructor; [simpl; lia|constructor]. }
      rewrite length_app in Hc. simpl in Hc. simpl List.length.
      repeat split; try lia.
      eapply Forall_impl; [|exact Hi]. simpl. intros e He. lia.
    + specialize (IH (S i) (S inserted) updated errors products1 Herr').
      destruct (MemoryProducts.bulkLoop _ _ _ _ _ _ _ _)
        as [[[ins' upd'] errs'] products'].
      destruct IH as (Hc & Hl & Hi). simpl List.length.
      repeat split; try lia.
      eapply Forall_impl; [|exact Hi]. simpl. intros e He. lia.
    + specialize (IH (S i) inserted (S updated) errors products1 Herr').
      destruct (MemoryProducts.bulkLoop _ _ _ _ _ _ _ _)
        as [[[ins' upd'] errs'] products'].
      destruct IH as (Hc & Hl & Hi). simpl List.length.
      repeat split; try lia.
      eapply Forall_impl; [|exact Hi]. simpl. intros e He. lia.
Qed.

(** The bulk import answers 400, writing nothing, for a body that is no
    array or an empty one.  Otherwise it answers 200 and accounts for
    every entry once: inserted, updated and errors add up to the number
    of entries, the array grows by exactly the number inserted, every
    error carries the position of an entry, and hasErrors tells whether
    there is an error. *)
Theorem memory_bulk_accounts
    (uuid now : nat -> string) (list_ : option (list MemoryProducts.Payload))
    (products : list MemoryProducts.Product) :
  match list_ with
  | None | Some [] =>
      MemoryProducts.bulk uuid now list_ products
      = (MemoryProducts.Failed 400 "items array required", products)
  | Some entries =>
      exists inserted updated errors products',
        MemoryProducts.bulk uuid now list_ products
        = (MemoryProducts.BulkResult 200 inserted updated errors
             (negb (Nat.eqb (List.length errors) 0)), products')
        /\ (inserted + updated + List.length errors
            = List.length entries)%nat
        /\ List.length products' = (List.length products + inserted)%nat
        /\ Forall (fun e => (MemoryProducts.index e
                             < List.length entries)%nat) errors
  end.
Proof.
  destruct list_ as [[|entry rest]|]; try reflexivity.
  unfold MemoryProducts.bulk.
  pose proof (bulkLoop_counts uuid now (entry :: rest) 0 0 0 [] products
                (Forall_nil _)) as H.
  destruct (MemoryProducts.bulkLoop uuid now 0 (entry :: rest) 0 0 [] products)
    as [[[inserted updated] errors] products'].
  destruct H as (Hc & Hl & Hi).
  exists inserted, updated, errors, products'. split.
  - f_equal. f_equal. destruct errors; reflexivity.
  - simpl in *. repeat split; try lia. exact Hi.
Qed.

Lemma normalizeSku_normal (value : option string) :
  MemoryProducts.normalizeSku value = ""
  \/ normal_code (MemoryProducts.normalizeSku value).
Proof.
  destruct (MemoryProducts.normalizeSku value =? "") eqn:E.
  - left. apply String.eqb_eq. exact E.
  - right. split; [apply String.eqb_neq; exact E|].
    apply normalizeSku_idem.
Qed.

Lemma or_else_normal (a b : string) :
  a = "" \/ normal_code a -> normal_code b ->
  normal_code (MemoryProducts.or_else a b).
Proof.
  intros [-> | Ha] Hb; [exact Hb|].
  destruct a; [exact Hb|exact Ha].
Qed.

Lemma coded_normal (p : MemoryProducts.Product) :
  coded p <->
  normal_code (MemoryProducts.sku p) /\ normal_code (MemoryProducts.productId p).
Proof. unfold coded, normal_code. tauto. Qed.

Lemma upsert_coded (uuid now : string) (raw : MemoryProducts.Payload)
    (inc : bool) (products : list MemoryProducts.Product) :
  Forall coded products ->
  Forall coded (snd (MemoryProducts.upsertProduct uuid now raw inc products)).
Proof.
  intros H.
  destruct (MemoryProducts.upsertProduct uuid now raw inc products)
    as [[e|document created] products'] eqn:E; cbn [snd].
  - apply upsert_threw in E. destruct E as [-> _]. exact H.
  - destruct (upsert_returned_named _ _ _ _ _ _ _ _ E)
      as (Hprim & Hname & Hcode).
    destruct (upsert_named uuid now raw inc products Hprim Hname Hcode)
      as (d & Hsku & Hpid & _ & Hcase & _).
    assert (Hs : normal_code (code_of raw)).
    { destruct (normalizeSku_normal
                  (member (MemoryProducts.coalesce
                             (MemoryProducts.raw_sku raw)
                             (MemoryProducts.raw_productId raw)) None))
        as [Hblank|Hn]; [|exact Hn].
      exfalso. apply Hcode. exact Hblank. }
    assert (Hd : coded d).
    { apply coded_normal. rewrite Hsku, Hpid. split; [exact Hs|].
      apply or_else_normal; [apply normalizeSku_normal|exact Hs]. }
    destruct (MemoryProducts.findProductIndex products (code_of raw))
      as [[i ex]|]; destruct Hcase as (Hu & _); rewrite Hu in E;
      injection E as <- <- <-.
    + apply assign_Forall; assumption.
    + apply Forall_app. split; [exact H|]. constructor; [exact Hd|constructor].
Qed.

Lemma bulkLoop_coded (uuid now : nat -> string) :
  forall entries i inserted updated errors products,
    Forall coded products ->
    Forall coded
      (snd (MemoryProducts.bulkLoop uuid now i entries inserted updated errors
                                    products)).
Proof.
  induction entries as [|entry rest IH];
    intros i inserted updated errors products H; [exact H|].
  cbn [MemoryProducts.bulkLoop].
  pose proof (upsert_coded (uuid i) (now i) entry false products H) as H1.
  destruct (MemoryProducts.upsertProduct (uuid i) (now i) entry false products)
    as [[err|document [|]] products1]; cbn [snd] in H1; apply IH; exact H1.
Qed.

Lemma findProductIndex_in (products : list MemoryProducts.Product)
    (id_ : string) (i : nat) (p : MemoryProducts.Product) :
  MemoryProducts.findProductIndex products id_ = Some (i, p) ->
  In p products
  /\ (MemoryProducts.id p = id_ \/ MemoryProducts.productId p = id_
      \/ MemoryProducts.sku p = id_).
Proof.
  unfold MemoryProducts.findProductIndex. intros H.
  apply findIndex_some in H. destruct H as (Hn & Hf & _).
  split; [eapply nth_error_In; exact Hn|].
  apply orb_true_iff in Hf. destruct Hf as [Hf|Hf].
  - left. apply String.eqb_eq. exact Hf.
  - apply orb_true_iff in Hf. destruct Hf as [Hf|Hf].
    + right. left. apply String.eqb_eq. exact Hf.
    + right. right. apply String.eqb_eq. exact Hf.
Qed.

Lemma handle_coded (request : MemoryProducts.Request)
    (products : list MemoryProducts.Product) :
  Forall coded products ->
  Forall coded (snd (MemoryProducts.handle request products)).
Proof.
  intros H. destruct request as [uuid now body|uuid now list_|now id_ body
                                 |now id_ amount|id_];
    cbn [MemoryProducts.handle].
  - unfold MemoryProducts.post.
    pose proof (upsert_coded uuid now body true products H) as H1.
    destruct (MemoryProducts.upsertProduct uuid now body true products)
      as [[err|document created] products1]; exact H1.
  - unfold MemoryProducts.bulk.
    destruct list_ as [[|entry rest]|]; try exact H.
    pose proof (bulkLoop_coded uuid now (entry :: rest) 0 0 0 [] products H)
      as H1.
    destruct (MemoryProducts.bulkLoop uuid now 0 (entry :: rest) 0 0 [] products)
      as [[[inserted updated] errors] products1]. exact H1.
  - unfold MemoryProducts.put.
    destruct (MemoryProducts.findProductIndex products id_)
      as [[idx current]|] eqn:Ef; [|exact H].
    apply findProductIndex_in in Ef. destruct Ef as [Hin _].
    assert (Hc : coded current).
    { rewrite Forall_forall in H. apply H. exact Hin. }
    apply coded_normal in Hc. destruct Hc as [Hsku Hpid].
    destruct (orb (MemoryProducts.truthy_member (MemoryProducts.raw_sku body))
                  (MemoryProducts.truthy_member
                     (MemoryProducts.raw_productId body))) eqn:En.
    + destruct (MemoryProducts.coalesce (MemoryProducts.raw_sku body)
                                        (MemoryProducts.raw_productId body))
        as [v|]; [|exact H].
      cbn [andb nullish].
      destruct (MemoryProducts.normalizeSku v =? "") eqn:Ec; [exact H|].
      destruct (MemoryProducts.raw_name body) as [name_v|]; [|exact H].
      destruct (MemoryProducts.coalesce (MemoryProducts.raw_productId body) _)
        as [productId_v|]; [|exact H].
      destruct (MemoryProducts.raw_price body) as [price_v|]; [|exact H].
      destruct (MemoryProducts.raw_quantity body) as [quantity_v|]; [|exact H].
      destruct (MemoryProducts.raw_reorderPoint body) as [reorder_v|];
        [|exact H].
      destruct (MemoryProducts.raw_size body) as [size_v|]; [|exact H].
      destruct (MemoryProducts.raw_gsm body) as [gsm_v|]; [|exact H].
      cbn [snd]. apply assign_Forall; [|exact H].
      apply coded_normal. cbn [MemoryProducts.sku MemoryProducts.productId].
      split; (apply or_else_normal; [apply normalizeSku_normal|assumption]).
    + cbn [andb].
      destruct (MemoryProducts.raw_name body) as [name_v|]; [|exact H].
      destruct (MemoryProducts.coalesce (MemoryProducts.raw_productId body) _)
        as [productId_v|]; [|exact H].
      destruct (MemoryProducts.raw_price body) as [price_v|]; [|exact H].
      destruct (MemoryProducts.raw_quantity body) as [quantity_v|]; [|exact H].
      destruct (MemoryProducts.raw_reorderPoint body) as [reorder_v|];
        [|exact H].
      destruct (MemoryProducts.raw_size body) as [size_v|]; [|exact H].
      destruct (MemoryProducts.raw_gsm body) as [gsm_v|]; [|exact H].
      cbn [snd]. apply assign_Forall; [|exact H].
      apply coded_normal.
      cbn [MemoryProducts.sku MemoryProducts.productId nullish
           MemoryProducts.or_else].
      split; [exact Hsku|].
      apply or_else_normal; [apply normalizeSku_normal|exact Hpid].
  - unfold MemoryProducts.adjust_stock.
    destruct (MemoryProducts.findProductIndex products id_)
      as [[idx current]|] eqn:Ef; [|exact H].
    apply findProductIndex_in in Ef. destruct Ef as [Hin _].
    destruct amount as [amount_v|]; [|exact H].
    cbn [snd]. apply assign_Forall; [|exact H].
    rewrite Forall_forall in H. apply (H current Hin).
  - unfold MemoryProducts.delete.
    destruct (MemoryProducts.findProductIndex products id_)
      as [[idx current]|]; [|exact H].
    cbn [snd]. apply splice1_Forall. exact H.
Qed.

Lemma serve_from_coded (requests : list MemoryProducts.Request) :
  forall products,
    Forall coded products ->
    Forall coded
      (fold_left (fun products request =>
                    snd (MemoryProducts.handle request products))
                 requests products).
Proof.
  induction requests as [|request rest IH]; intros products H; [exact H|].
  cbn [fold_left]. apply IH. apply handle_coded. exact H.
Qed.

(** Whatever requests the in-memory router has served since its array
    was created empty, every element of the array has a sku and a
    productId that are not empty and that [normalizeSku] (trimming and
    upper-casing) leaves as they are. *)
Theorem memory_codes_invariant (requests : list MemoryProducts.Request) :
  Forall coded (MemoryProducts.serve requests).
Proof.
  unfold MemoryProducts.serve.
  apply serve_from_coded.
  constructor.
Qed.

(** The in-memory routes compare the identifier of the URL as it is:
    an identifier that [normalizeSku] would change (white space around
    it, or a lower-case letter) and that is the id of no element is answered
    404 by PUT, adjust-stock and DELETE, and the array is left alone,
    whatever the router has served before. *)
Theorem memory_lookup_is_exact (requests : list MemoryProducts.Request)
    (now id_ : string) (body : MemoryProducts.Payload)
    (amount : MemoryProducts.Json (Raw Z)) :
  MemoryProducts.normalizeSku (Some id_) <> id_ ->
  (forall p, In p (MemoryProducts.serve requests) ->
             MemoryProducts.id p <> id_) ->
  let products := MemoryProducts.serve requests in
  MemoryProducts.put now id_ body products
  = (MemoryProducts.Failed 404 "Product not found", products)
  /\ MemoryProducts.adjust_stock now id_ amount products
     = (MemoryProducts.Failed 404 "Product not found", products)
  /\ MemoryProducts.delete id_ products
     = (MemoryProducts.Failed 404 "Product not found", products).
Proof.
  intros Hraw Hid products.
  assert (Hnone : MemoryProducts.findProductIndex products id_ = None).
  { destruct (MemoryProducts.findProductIndex products id_)
      as [[i p]|] eqn:Ef; [|reflexivity].
    apply findProductIndex_in in Ef. destruct Ef as [Hin Hm].
    assert (Hc : Forall coded products).
    { apply serve_from_coded. constructor. }
    rewrite Forall_forall in Hc.
    specialize (Hc p Hin). destruct Hc as (_ & _ & Hs & Hp).
    destruct Hm as [Hm|[Hm|Hm]].
    - exfalso. exact (Hid p Hin Hm).
    - exfalso. apply Hraw. rewrite <- Hm. exact Hp.
    - exfalso. apply Hraw. rewrite <- Hm. exact Hs. }
  unfold MemoryProducts.put, MemoryProducts.adjust_stock,
    MemoryProducts.delete.
  rewrite Hnone. repeat split; reflexivity.
Qed.

Lemma memory_lookup_is_exact_witness :
  MemoryProducts.adjust_stock "t4" " sku-1 " (MemoryProducts.Plain (Parsed 1))
    (MemoryProducts.serve memory_session)
  = (MemoryProducts.Failed 404 "Product not found",
     MemoryProducts.serve memory_session)
  /\ exists p, In p (MemoryProducts.serve memory_session)
               /\ MemoryProducts.sku p = "SKU-1"
               /\ MemoryProducts.quantity p = 7.
Proof.
  split.
  - refine (proj1 (proj2 (memory_lookup_is_exact memory_session "t4" " sku-1 "
                            payload_tarp (MemoryProducts.Plain (Parsed 1))
                            _ _))).
    + vm_compute. discriminate.
    + vm_compute. intros p [<-|[<-|[]]]; discriminate.
  - vm_compute. eexists. split; [left; reflexivity|]. split; reflexivity.
Defined.

Lemma splice1_snoc {A} (l : list A) (a : A) :
  MemoryProducts.splice1 (List.length l) (l ++ [a]) = l.
Proof.
  induction l as [|x l IH]; [reflexivity|].
  cbn. rewrite IH. reflexivity.
Qed.


(** Creating a product and deleting it again is a round trip: when POST
    answers 201, a DELETE addressed to the sku of the document it
    returned answers 200 and leaves the array exactly as it was before
    the POST. *)
Theorem memory_create_then_delete (uuid now : string)
    (body : MemoryProducts.Payload)
    (products products1 : list MemoryProducts.Product)
    (document : MemoryProducts.Product) :
  MemoryProducts.post uuid now body products
  = (MemoryProducts.Document 201 document, products1) ->
  MemoryProducts.delete (MemoryProducts.sku document) products1
  = (MemoryProducts.Done 200 "Product deleted successfully", products).
Proof.
  unfold MemoryProducts.post. intros H.
  destruct (MemoryProducts.upsertProduct uuid now body true products)
    as [[err|d created] ps] eqn:Hu; [discriminate|].
  destruct created; [|discriminate].
  injection H as -> ->.
  destruct (upsert_returned_named _ _ _ _ _ _ _ _ Hu)
    as (Hprim & Hname & Hcode).
  destruct (upsert_named uuid now body true products Hprim Hname Hcode)
    as (d & Hsku & _ & _ & Hcase & _).
  destruct (MemoryProducts.findProductIndex products (code_of body))
    as [[i ex]|] eqn:Ef.
  - destruct Hcase as (Hu' & _). rewrite Hu' in Hu. discriminate.
  - destruct Hcase as (Hu' & _). rewrite Hu' in Hu.
    injection Hu as <- <-.
    unfold MemoryProducts.delete, MemoryProducts.findProductIndex in *.
    rewrite Hsku. rewrite (findIndex_snoc _ products d Ef).
    + rewrite splice1_snoc. reflexivity.
    + cbv beta. rewrite <- Hsku. apply matches_own_sku.
Qed.

Lemma memory_create_then_delete_witness :
  exists document products1,
    MemoryProducts.post "u-2" "t1" payload_rope [mem_tarp]
    = (MemoryProducts.Document 201 document, products1)
    /\ MemoryProducts.delete (MemoryProducts.sku document) products1
       = (MemoryProducts.Done 200 "Product deleted successfully", [mem_tarp]).
Proof.
  destruct (MemoryProducts.post "u-2" "t1" payload_rope [mem_tarp])
    as [answer products1] eqn:E.
  vm_compute in E. injection E as <- <-.
  eexists. eexists. split; [reflexivity|].
  exact (memory_create_then_delete "u-2" "t1" payload_rope [mem_tarp] _ _
           eq_refl).
Defined.


